(** * FlightPathAnalysis: the numerical core of [src/frontend/plotter.py]

    A shallow embedding of the data path of the [Plotter] class: resampling
    of decoded flight time series onto an evenly spaced grid, stacking and
    masking, expectation and dispersion measures, density weights, and the
    union-of-ellipses confidence region.

    Numbers.  The program computes on float64 arrays.  A float is modelled
    as an exact rational extended with the three special values of IEEE 754
    arithmetic ([PInf], [NInf], [NaN]): the special values follow the IEEE
    rules (0/0 is [NaN], x/0 is an infinity, comparisons with [NaN] are
    false), rounding, overflow and the sign of zero are abstracted away.
    One rounding is kept: the addition inside [np.mod], rounded to binary64
    by [Float.round], because it decides whether a reduced value stays
    below the divisor.  The theorems below state what does not depend on
    the roundings left out.
    Equality of rationals is [==] ([Qeq]); it is lifted to floats as [feq].

    Libraries.  numpy, pandas, scipy and shapely are not part of the
    repository.  The functions the plotter calls are modelled after their
    documentation in the modules [Numpy], [Pandas] and [Shapely]; the kernel
    density estimator is a parameter. *)

From Stdlib Require Import String Ascii QArith Qround Qabs Qpower ZArith Bool List.
From Stdlib Require Import Lia Lqa Permutation Sorted Morphisms Setoid.
Import ListNotations.

(* ================================================================= *)
(** ** Python exceptions and the error monad *)

Module Py.

Inductive exn : Type :=
| KeyError (label : string)
| ValueError (msg : string)
| IndexError (msg : string)
| ZeroDivisionError (msg : string)
| LinAlgError (msg : string).

Definition result (A : Type) : Type := (exn + A)%type.

Definition ret {A} (a : A) : result A := inr a.
Definition raise {A} (e : exn) : result A := inl e.

Arguments ret {A} a /.
Arguments raise {A} e /.

Definition bind {A B} (m : result A) (k : A -> result B) : result B :=
  match m with
  | inl e => inl e
  | inr a => k a
  end.

Definition is_ValueError {A} (m : result A) : bool :=
  match m with inl (ValueError _) => true | _ => false end.

(** [for x in xs: ...] collecting one value per iteration; the first
    exception aborts the loop. *)
Fixpoint for_each {A B} (f : A -> result B) (xs : list A) : result (list B) :=
  match xs with
  | [] => ret []
  | x :: xs' =>
      bind (f x) (fun y => bind (for_each f xs') (fun ys => ret (y :: ys)))
  end.

(** [s in (a, b, ...)] for strings. *)
Definition str_in (s : string) (l : list string) : bool :=
  existsb (String.eqb s) l.

End Py.

Declare Scope py_scope.
Delimit Scope py_scope with py.
Notation "x <- m ;; k" := (Py.bind m (fun x => k))
  (at level 61, m at next level, right associativity) : py_scope.

(* ================================================================= *)
(** ** float64 values: rationals with infinities and NaN *)

Module Float.

Inductive float : Type :=
| Fin (q : Q)
| PInf
| NInf
| NaN.

Definition isnan (x : float) : bool :=
  match x with NaN => true | _ => false end.

(** The infinity with the sign of [q]; an undefined form when [q] is zero. *)
Definition signed_inf (q : Q) : float :=
  match q ?= 0 with
  | Gt => PInf
  | Lt => NInf
  | Eq => NaN
  end.

Definition fneg (x : float) : float :=
  match x with
  | Fin q => Fin (- q)
  | PInf => NInf
  | NInf => PInf
  | NaN => NaN
  end.

Definition fadd (x y : float) : float :=
  match x, y with
  | NaN, _ | _, NaN => NaN
  | Fin a, Fin b => Fin (a + b)
  | PInf, NInf | NInf, PInf => NaN
  | PInf, _ | _, PInf => PInf
  | NInf, _ | _, NInf => NInf
  end.

Definition fsub (x y : float) : float := fadd x (fneg y).

Definition fmul (x y : float) : float :=
  match x, y with
  | NaN, _ | _, NaN => NaN
  | Fin a, Fin b => Fin (a * b)
  | Fin a, PInf | PInf, Fin a => signed_inf a
  | Fin a, NInf | NInf, Fin a => signed_inf (- a)
  | PInf, PInf | NInf, NInf => PInf
  | PInf, NInf | NInf, PInf => NInf
  end.

Definition fdiv (x y : float) : float :=
  match x, y with
  | NaN, _ | _, NaN => NaN
  | Fin a, Fin b => if Qeq_bool b 0 then signed_inf a else Fin (a / b)
  | Fin _, (PInf | NInf) => Fin 0
  | PInf, Fin b => match b ?= 0 with Lt => NInf | _ => PInf end
  | NInf, Fin b => match b ?= 0 with Lt => PInf | _ => NInf end
  | (PInf | NInf), (PInf | NInf) => NaN
  end.

(** Comparisons: every comparison with [NaN] is false. *)
Definition fleb (x y : float) : bool :=
  match x, y with
  | NaN, _ | _, NaN => false
  | Fin a, Fin b => Qle_bool a b
  | NInf, _ | _, PInf => true
  | _, _ => false
  end.

Definition feqb (x y : float) : bool :=
  match x, y with
  | Fin a, Fin b => Qeq_bool a b
  | PInf, PInf | NInf, NInf => true
  | _, _ => false
  end.

Definition fltb (x y : float) : bool := fleb x y && negb (feqb x y).

(** Rounding to binary64: the nearest value with 53 significant bits, a
    tie going to the even significand.  The exponent range is not modelled
    (no overflow, no subnormal numbers). *)
Definition round_half_even (q : Q) : Z :=
  let f := Qfloor q in
  match Qcompare (q - inject_Z f) (1 # 2) with
  | Lt => f
  | Gt => (f + 1)%Z
  | Eq => if Z.even f then f else (f + 1)%Z
  end.

(** [floor (log2 a)] of a positive rational. *)
Definition exponent (a : Q) : Z :=
  let e := (Z.log2 (Qnum a) - Z.log2 (Zpos (Qden a)))%Z in
  if Qle_bool (2 ^ e) a then e else (e - 1)%Z.

Definition round (q : Q) : Q :=
  if Qeq_bool q 0 then 0
  else
    let a := Qabs q in
    let ulp := 2 ^ (exponent a - 52) in
    let m := inject_Z (round_half_even (a / ulp)) * ulp in
    if Qle_bool 0 q then m else - m.

(** C's [fmod]: the remainder of the division truncated towards zero.  It
    has the sign of the dividend and is computed without rounding. *)
Definition Qtrunc (q : Q) : Z :=
  if Qle_bool 0 q then Qfloor q else Qceiling q.

Definition c_fmod (a b : Q) : Q := a - b * inject_Z (Qtrunc (a / b)).

Definition Qltb (x y : Q) : bool := negb (Qle_bool y x).

(** [np.mod] on float64 (Python's [x % y]): C's [fmod], to which the
    divisor is added when the remainder is not zero and has not the sign
    of the divisor.  That addition is rounded to binary64, so that a tiny
    remainder of the other sign gives the divisor itself; the other
    operations of this module are exact. *)
Definition fmod (x y : float) : float :=
  match x, y with
  | NaN, _ | _, NaN => NaN
  | (PInf | NInf), _ => NaN
  | Fin a, Fin b =>
      if Qeq_bool b 0 then NaN
      else
        let m := c_fmod a b in
        if Qeq_bool m 0 then Fin 0
        else if Bool.eqb (Qltb b 0) (Qltb m 0) then Fin m
        else Fin (round (m + b))
  | Fin a, PInf => if Qle_bool 0 a then Fin a else PInf
  | Fin a, NInf => if Qle_bool a 0 then Fin a else NInf
  end.

(** Square root of a rational, rounded down to a multiple of
    [1 / (Qden q * 2^53)]; exact on squares of rationals. *)
Definition sqrt_bits : Z := 53.

Definition Qsqrt (q : Q) : Q :=
  Qmake (Z.sqrt (Qnum q * Zpos (Qden q) * 4 ^ sqrt_bits))
        (Qden q * Z.to_pos (2 ^ sqrt_bits)).

Definition fsqrt (x : float) : float :=
  match x with
  | Fin a => if Qle_bool 0 a then Fin (Qsqrt a) else NaN
  | PInf => PInf
  | NInf => NaN
  | NaN => NaN
  end.

Definition of_nat (n : nat) : float := Fin (inject_Z (Z.of_nat n)).

(** The reduced representation of a value. *)
Definition canon (x : float) : float :=
  match x with
  | Fin q => Fin (Qred q)
  | _ => x
  end.

(** Equality of floats as values: [==] on the rationals. *)
Definition feq (x y : float) : Prop :=
  match x, y with
  | Fin a, Fin b => a == b
  | PInf, PInf | NInf, NInf | NaN, NaN => True
  | _, _ => False
  end.

End Float.

(* ================================================================= *)
(** ** numpy: the array functions the plotter calls *)

Module Numpy.
Import Float.
Local Open Scope py_scope.
Local Open Scope string_scope.

(** A two-dimensional array of shape [(length rows, ncols)], row-major.
    The number of columns is part of the value: an array with no row still
    has a shape. *)
Record ndarray2 : Type := Array2 { ncols : nat; rows : list (list float) }.

Definition column (k : nat) (a : ndarray2) : list float :=
  map (fun r => nth k r NaN) (rows a).

Definition columns (a : ndarray2) : list (list float) :=
  map (fun k => column k a) (seq 0 (ncols a)).

(** [f(a, axis=0)] for a reduction [f] of a one-dimensional array. *)
Definition axis0 (f : list float -> float) (a : ndarray2) : list float :=
  map f (columns a).

(** [np.linspace(start, stop, num)] with the default [endpoint=True]:
    [start + i * step] for [step = (stop - start) / (num - 1)], the last
    sample being set to [stop]. *)
Definition linspace (start stop : float) (num : nat) : list float :=
  match num with
  | O => []
  | S O => [fadd (fmul (of_nat 0) (fsub stop start)) start]
  | S div =>
      let step := fdiv (fsub stop start) (of_nat div) in
      map (fun i => fadd (fmul (of_nat i) step) start) (seq 0 div) ++ [stop]
  end.

(** [np.interp(x, xp, fp)] at one point [x], over the knots
    [(xp[0], fp[0]), (xp[1], fp[1]), ...] with [xp] increasing: the value at
    the last knot [j] with [xp[j] <= x], moved along the segment to knot
    [j + 1]; [fp[0]] to the left of the knots and [fp[-1]] to their right. *)
Fixpoint interp_scan (x x0 y0 : float) (rest : list (float * float)) : float :=
  match rest with
  | [] => y0
  | (x1, y1) :: rest' =>
      if fleb x1 x then interp_scan x x1 y1 rest'
      else if feqb x0 x then y0
      else
        let slope := fdiv (fsub y1 y0) (fsub x1 x0) in
        let r := fadd (fmul slope (fsub x x0)) y0 in
        if isnan r then
          let r' := fadd (fmul slope (fsub x x1)) y1 in
          if isnan r' && feqb y0 y1 then y0 else r'
        else r
  end.

Definition interp1 (knots : list (float * float)) (x : float) : float :=
  if isnan x then x
  else
    match knots with
    | [] => NaN
    | (x0, y0) :: rest => if fltb x x0 then y0 else interp_scan x x0 y0 rest
    end.

Definition interp (x xp fp : list float) : Py.result (list float) :=
  match xp with
  | [] => Py.raise (Py.ValueError "array of sample points is empty")
  | _ =>
      if negb (Nat.eqb (length xp) (length fp))
      then Py.raise (Py.ValueError "fp and xp are not of the same length.")
      else Py.ret (map (interp1 (combine xp fp)) x)
  end.

(** [np.mod(a, m)] elementwise. *)
Definition mod_ (a : list float) (m : float) : list float :=
  map (fun v => fmod v m) a.

Definition sum (a : list float) : float := fold_left fadd a (Fin 0).

(** [np.mean] of a one-dimensional array; [0/0] on an empty one. *)
Definition mean (a : list float) : float :=
  fdiv (sum a) (of_nat (length a)).

(** [np.std] with the default [ddof=0]: the population standard deviation. *)
Definition std (a : list float) : float :=
  let m := mean a in
  fsqrt (mean (map (fun x => fmul (fsub x m) (fsub x m)) a)).

Fixpoint insert_sorted (x : float) (l : list float) : list float :=
  match l with
  | [] => [x]
  | y :: l' => if fleb x y then x :: l else y :: insert_sorted x l'
  end.

Definition sort (a : list float) : list float :=
  fold_right insert_sorted [] a.

(** [np.median]: [NaN] as soon as one element is [NaN]. *)
Definition median (a : list float) : float :=
  if existsb isnan a then NaN
  else
    let s := sort a in
    let n := length a in
    match n with
    | O => NaN
    | _ =>
        if Nat.odd n then nth (n / 2) s NaN
        else mean [nth (n / 2 - 1) s NaN; nth (n / 2) s NaN]
    end.

(** [np.percentile] with the default linear method: the value at the
    virtual index [q / 100 * (n - 1)] of the sorted array.  The percentile
    is validated before the data is looked at. *)
Definition percentile_valid (q : Q) : bool := Qle_bool 0 q && Qle_bool q 100.

Definition percentile_value (a : list float) (q : Q) : float :=
  if existsb isnan a then NaN
  else
    match length a with
    | O => NaN
    | S n1 =>
        let s := sort a in
        let v := q / 100 * inject_Z (Z.of_nat n1) in
        let lo := Z.to_nat (Qfloor v) in
        let hi := Nat.min (lo + 1) n1 in
        let g := v - inject_Z (Qfloor v) in
        let a_lo := nth lo s NaN in
        let a_hi := nth hi s NaN in
        fadd a_lo (fmul (Fin g) (fsub a_hi a_lo))
    end.

(** [np.percentile(a, q, axis=0)]. *)
Definition percentile_axis0 (a : ndarray2) (q : Q) : Py.result (list float) :=
  if negb (percentile_valid q)
  then Py.raise (Py.ValueError "Percentiles must be in the range [0, 100]")
  else Py.ret (map (fun c => percentile_value c q) (columns a)).

(** [np.average(a, weights=w)]: the mean when no weights are given. *)
Definition average (a : list float) (weights : option (list float))
  : Py.result float :=
  match weights with
  | None => Py.ret (mean a)
  | Some w =>
      if negb (Nat.eqb (length w) (length a))
      then Py.raise
             (Py.ValueError "Length of weights not compatible with specified axis.")
      else
        let scl := sum w in
        if feqb scl (Fin 0)
        then Py.raise
               (Py.ZeroDivisionError "Weights sum to zero, can't be normalized")
        else Py.ret (fdiv (sum (map (fun p => fmul (fst p) (snd p)) (combine a w))) scl)
  end.

Definition average_axis0 (a : ndarray2) (weights : option (list float))
  : Py.result (list float) :=
  Py.for_each (fun c => average c weights) (columns a).

(** [np.max] and [np.min]: [NaN] wins, an empty array has no extremum. *)
Definition fmax2 (x y : float) : float :=
  if isnan x || isnan y then NaN else if fleb x y then y else x.

Definition fmin2 (x y : float) : float :=
  if isnan x || isnan y then NaN else if fleb x y then x else y.

Definition max (a : list float) : Py.result float :=
  match a with
  | [] => Py.raise (Py.ValueError
            "zero-size array to reduction operation maximum which has no identity")
  | x :: a' => Py.ret (fold_left fmax2 a' x)
  end.

Definition min (a : list float) : Py.result float :=
  match a with
  | [] => Py.raise (Py.ValueError
            "zero-size array to reduction operation minimum which has no identity")
  | x :: a' => Py.ret (fold_left fmin2 a' x)
  end.

(** [np.any(np.isnan(a), axis=0)]. *)
Definition any_isnan_axis0 (a : ndarray2) : list bool :=
  map (existsb isnan) (columns a).

(** Boolean-mask indexing of a one-dimensional array. *)
Fixpoint select {A} (mask : list bool) (r : list A) : list A :=
  match mask, r with
  | b :: mask', x :: r' => if b then x :: select mask' r' else select mask' r'
  | _, _ => []
  end.

(** [a[:, mask]]. *)
Definition take_columns (a : ndarray2) (mask : list bool) : ndarray2 :=
  {| ncols := length (filter (fun b => b) mask);
     rows := map (select mask) (rows a) |}.

End Numpy.

(* ================================================================= *)
(** ** pandas: the DataFrame operations the plotter calls *)

Module Pandas.
Import Float.
Local Open Scope py_scope.
Local Open Scope string_scope.

(** A DataFrame of float columns, by column label. *)
Definition DataFrame : Type := list (string * list float).

Definition columns (df : DataFrame) : list string := map fst df.

(** [df[label]]. *)
Fixpoint getitem (df : DataFrame) (label : string) : Py.result (list float) :=
  match df with
  | [] => Py.raise (Py.KeyError label)
  | (l, c) :: df' => if String.eqb l label then Py.ret c else getitem df' label
  end.

(** [df[[l1, l2, ...]]]: the sub-frame of these columns, a [KeyError] when
    a label is not a column. *)
Definition getitem_list (df : DataFrame) (labels : list string)
  : Py.result DataFrame :=
  Py.for_each (fun l => c <- getitem df l ;; Py.ret (l, c)) labels.

(** [s.iloc[0]] and [s.iloc[-1]]. *)
Definition iloc_first (s : list float) : Py.result float :=
  match s with
  | [] => Py.raise (Py.IndexError "single positional indexer is out-of-bounds")
  | x :: _ => Py.ret x
  end.

Definition iloc_last (s : list float) : Py.result float :=
  match s with
  | [] => Py.raise (Py.IndexError "single positional indexer is out-of-bounds")
  | x :: s' => Py.ret (last s' x)
  end.

End Pandas.

(* ================================================================= *)
(** ** shapely: planar geometries as point sets *)

Module Shapely.
Import Float.
Set Warnings "-register-all".

(** The geometries the plotter builds.  [PointBuffer x y d] is
    [Point(x, y).buffer(d)], [Scale g xf yf o] is
    [scale(g, xfact=xf, yfact=yf, origin=o)] and [Union gs] is
    [unary_union(gs)]. *)
Inductive geometry : Type :=
| PointBuffer (x y distance : float)
| Scale (g : geometry) (xfact yfact : float) (origin : float * float)
| Union (gs : list geometry).

(** The points of a geometry.  A buffer of a point is the disk of all
    points within the distance (shapely approximates its boundary by a
    polygon; the model takes the disk itself); scaling maps every point [q]
    of the geometry to [origin + (xfact, yfact) * (q - origin)]; a union
    has the points of its members.  A geometry with a non-finite parameter
    has no points. *)
Fixpoint contains (g : geometry) (p : Q * Q) : Prop :=
  match g with
  | PointBuffer (Fin cx) (Fin cy) (Fin d) =>
      0 <= d /\
      (fst p - cx) * (fst p - cx) + (snd p - cy) * (snd p - cy) <= d * d
  | PointBuffer _ _ _ => False
  | Scale g' (Fin xf) (Fin yf) (Fin ox, Fin oy) =>
      exists q : Q * Q,
        contains g' q /\
        fst p == ox + xf * (fst q - ox) /\
        snd p == oy + yf * (snd q - oy)
  | Scale _ _ _ _ => False
  | Union gs =>
      (fix any (l : list geometry) : Prop :=
         match l with
         | [] => False
         | g' :: l' => contains g' p \/ any l'
         end) gs
  end.

End Shapely.

(* ================================================================= *)
(** ** The Plotter class: the data each plotting method computes *)

Module Plotter.
Import Float.
Local Open Scope py_scope.
Local Open Scope string_scope.

(** [self.options]: the entries of [config['plotting']] the computations
    read. *)
Record options : Type := Options {
  point_precision : nat;
  expectation_measure : string;
  deviation_measure : string;
  deviation_values : list Q
}.

(** [a[i]] for a list standing for a one-dimensional array. *)
Definition index {A} (a : list A) (i : nat) : Py.result A :=
  match nth_error a i with
  | Some x => Py.ret x
  | None => Py.raise (Py.IndexError "index out of bounds")
  end.

(** [a[-1]]. *)
Definition index_last {A} (a : list A) : Py.result A :=
  match a with
  | [] => Py.raise (Py.IndexError "index -1 is out of bounds for axis 0 with size 0")
  | x :: a' => Py.ret (last a' x)
  end.

(** The resampling block shared by [plot_quantity] (lines 145-152),
    [plot_quantity_multi] (199-206) and [plot_quantity_shaded] (284-291):
    from the decoded frame [decoded] to the dictionary [df_interp].  With
    [quantity = 'time'] the selection has two columns of that label and
    [np.interp] rejects its two-dimensional arguments. *)
Definition df_interp (self : options) (decoded : Pandas.DataFrame)
    (quantity : string) : Py.result Pandas.DataFrame :=
  df <- Pandas.getitem_list decoded ["time"; quantity] ;;
  if negb (Py.str_in quantity (Pandas.columns df))
  then Py.raise (Py.ValueError
         ("Quantity " ++ quantity ++ " not found in state vector file."))
  else
    time <- Pandas.getitem df "time" ;;
    t_first <- Pandas.iloc_first time ;;
    t_last <- Pandas.iloc_last time ;;
    let grid := Numpy.linspace t_first t_last (point_precision self) in
    fp <- Pandas.getitem df quantity ;;
    if String.eqb quantity "time"
    then Py.raise (Py.ValueError "object too deep for desired array")
    else
      values <- Numpy.interp grid time fp ;;
      let values :=
        if Py.str_in quantity ["lon"; "heading"]
        then Numpy.mod_ values (Fin 360)
        else values in
      Py.ret [("time", grid); (quantity, values)].

(** [plot_quantity]: the series [(xs, ys)] that is drawn. *)
Definition plot_quantity (self : options) (decoded : Pandas.DataFrame)
    (quantity : string) : Py.result (list float * list float) :=
  d <- df_interp self decoded quantity ;;
  xs <- Pandas.getitem d "time" ;;
  ys <- Pandas.getitem d quantity ;;
  Py.ret (xs, ys).

(** The loop of [plot_quantity_multi] and [plot_quantity_shaded] filling
    [ys] and [total_ts], one row per decoded file. *)
Definition stack_row (self : options) (quantity : string)
    (decoded : Pandas.DataFrame) : Py.result (list float * float) :=
  d <- df_interp self decoded quantity ;;
  values <- Pandas.getitem d quantity ;;
  time <- Pandas.getitem d "time" ;;
  t_end <- index_last time ;;
  t_start <- index time 0 ;;
  Py.ret (values, fsub t_end t_start).

Definition stack (self : options) (files : list Pandas.DataFrame)
    (quantity : string) : Py.result (Numpy.ndarray2 * list float) :=
  filled <- Py.for_each (stack_row self quantity) files ;;
  Py.ret (Numpy.Array2 (point_precision self) (map fst filled),
          map snd filled).

(** [mask = ~np.any(np.isnan(ys), axis=0); ys = ys[:, mask]]. *)
Definition mask_columns (ys : Numpy.ndarray2) : Numpy.ndarray2 :=
  let mask := map negb (Numpy.any_isnan_axis0 ys) in
  Numpy.take_columns ys mask.

Section Density.

(** [gaussian_kde(data)]: scipy's estimator, kept abstract.  Fitting may
    raise (scipy rejects a cloud whose covariance matrix is singular); the
    fitted estimator maps a point to its density. *)
Variable gaussian_kde :
  list (float * float) -> Py.result (float * float -> float).

(** Lines 216-220 of [plot_quantity_multi]: the normalised density of every
    point of the pooled cloud [data] (the spec's [density_weights]). *)
Definition density_weights (data : list (float * float))
  : Py.result (list float) :=
  kde <- gaussian_kde data ;;
  let kde_values := map kde data in
  kde_max <- Numpy.max kde_values ;;
  kde_min <- Numpy.min kde_values ;;
  Py.ret (map (fun d => fdiv (fsub d kde_min) (fsub kde_max kde_min))
              kde_values).

(** [np.vstack([xs.ravel(), ys.ravel()])]: both rows must have one length. *)
Definition vstack2 (xs ys : list float) : Py.result (list (float * float)) :=
  if Nat.eqb (length xs) (length ys) then Py.ret (combine xs ys)
  else Py.raise (Py.ValueError
         "all the input array dimensions except for the concatenation axis must match exactly").

(** [plot_quantity_multi]: the common axis [xs], the masked stack [ys] and
    the density weight of every point, row by row. *)
Definition plot_quantity_multi (self : options)
    (files : list Pandas.DataFrame) (quantity : string)
  : Py.result (list float * Numpy.ndarray2 * list float) :=
  st <- stack self files quantity ;;
  let ys := mask_columns (fst st) in
  let xs := Numpy.linspace (Fin 0) (Numpy.mean (snd st)) (point_precision self) in
  let tiled := concat (map (fun _ => xs) (Numpy.rows ys)) in
  data <- vstack2 tiled (concat (Numpy.rows ys)) ;;
  colors_value <- density_weights data ;;
  Py.ret (xs, ys, colors_value).

(** The route stack of [plot_multiple_routes]: one [(lon, lat)] pair of rows
    per trajectory, an array of shape [(N, 2, M)]. *)
Definition route_stack : Type := list (list float * list float).

(** Lines 449-455 of [plot_multiple_routes]: the density is fitted on the
    pooled [(lon, lat)] cloud and normalised by its extrema there; the
    weights are evaluated trajectory by trajectory. *)
Definition route_density_weights (ys : route_stack)
  : Py.result (list (list float)) :=
  let pooled := combine (concat (map fst ys)) (concat (map snd ys)) in
  kde <- gaussian_kde pooled ;;
  kde_max <- Numpy.max (map kde pooled) ;;
  kde_min <- Numpy.min (map kde pooled) ;;
  Py.ret (map (fun tr =>
                 map (fun pt => fdiv (fsub (kde pt) kde_min) (fsub kde_max kde_min))
                     (combine (fst tr) (snd tr)))
              ys).

End Density.

(** Lines 298-311 of [plot_quantity_shaded]: the expectation path of the
    stack, its name, and the end of the common time axis. *)
Definition expectation (self : options) (ys : Numpy.ndarray2)
    (total_ts : list float) : Py.result (string * list float * float) :=
  if String.eqb (expectation_measure self) "mean" then
    Py.ret ("Mean Path", Numpy.axis0 Numpy.mean ys, Numpy.mean total_ts)
  else if String.eqb (expectation_measure self) "median" then
    Py.ret ("Median Path", Numpy.axis0 Numpy.median ys, Numpy.median total_ts)
  else if String.eqb (expectation_measure self) "average" then
    e <- Numpy.average_axis0 ys None ;;
    t_final <- Numpy.average total_ts None ;;
    Py.ret ("Average Path", e, t_final)
  else
    Py.raise (Py.ValueError
      ("Expectation Measure not recognized: " ++ expectation_measure self)).

(** [sorted(l)] on numbers. *)
Fixpoint insert (x : Q) (l : list Q) : list Q :=
  match l with
  | [] => [x]
  | y :: l' => if Qle_bool x y then x :: l else y :: insert x l'
  end.

Definition sorted (l : list Q) : list Q := fold_right insert [] l.

(** [sigmas = sorted(self.options['deviation-values'])[::-1]]. *)
Definition sigmas (self : options) : list Q :=
  rev (sorted (deviation_values self)).

(** Elementwise [(hi - lo) / 2]. *)
Definition half_width (hi lo : list float) : list float :=
  map (fun p => fdiv (fsub (fst p) (snd p)) (Fin 2)) (combine hi lo).

(** Lines 313-321 of [plot_quantity_shaded]: one dispersion band per level,
    widest level first. *)
Definition deviation (self : options) (ys : Numpy.ndarray2)
  : Py.result (list (list float)) :=
  if String.eqb (deviation_measure self) "std" then
    Py.ret (map (fun sig => map (fmul (Fin sig)) (Numpy.axis0 Numpy.std ys))
                (sigmas self))
  else if String.eqb (deviation_measure self) "pct" then
    Py.for_each
      (fun sig =>
         hi <- Numpy.percentile_axis0 ys (50 + sig / 2) ;;
         lo <- Numpy.percentile_axis0 ys (50 - sig / 2) ;;
         Py.ret (half_width hi lo))
      (sigmas self)
  else
    Py.raise (Py.ValueError
      ("Deviation Measure not recognized: " ++ deviation_measure self)).

(** Lines 298-321: expectation, then dispersion (the spec's [aggregate]). *)
Definition aggregate (self : options) (ys : Numpy.ndarray2)
    (total_ts : list float)
  : Py.result (string * list float * float * list (list float)) :=
  e <- expectation self ys total_ts ;;
  sigma <- deviation self ys ;;
  Py.ret (e, sigma).

(** [plot_quantity_shaded]: the time axis [ts], the named expectation path
    and the bands that are drawn. *)
Definition plot_quantity_shaded (self : options)
    (files : list Pandas.DataFrame) (quantity : string)
  : Py.result (list float * string * list float * list (list float)) :=
  st <- stack self files quantity ;;
  let ys := mask_columns (fst st) in
  agg <- aggregate self ys (snd st) ;;
  let '(expectation_name, e, t_final, sigma) := agg in
  let ts := Numpy.linspace (Fin 0) t_final (point_precision self) in
  Py.ret (ts, expectation_name, e, sigma).

(** The resampling block of the route plots ([plot_route] lines 370-378,
    [plot_multiple_routes] 426-434, [plot_multiple_routes_shaded] 525-533):
    the rows [(lon, lat)] of one trajectory. *)
Definition route_interp (self : options) (df : Pandas.DataFrame)
  : Py.result (list float * list float) :=
  time <- Pandas.getitem df "time" ;;
  t_first <- Pandas.iloc_first time ;;
  t_last <- Pandas.iloc_last time ;;
  let grid := Numpy.linspace t_first t_last (point_precision self) in
  lat <- (fp <- Pandas.getitem df "lat" ;; Numpy.interp grid time fp) ;;
  lon <- (fp <- Pandas.getitem df "lon" ;; Numpy.interp grid time fp) ;;
  Py.ret (lon, lat).

(** [plot_route]: the curve [(ys[0], ys[1])] that is drawn. *)
Definition plot_route (self : options) (decoded : Pandas.DataFrame)
  : Py.result (list float * list float) :=
  route_interp self decoded.

(** [mask = ~np.any(np.isnan(ys), axis=(1, 2)); ys = ys[mask]]. *)
Definition mask_routes (ys : route_stack) : route_stack :=
  filter (fun tr => negb (existsb isnan (fst tr) || existsb isnan (snd tr))) ys.

Definition lon_rows (self : options) (ys : route_stack) : Numpy.ndarray2 :=
  Numpy.Array2 (point_precision self) (map fst ys).

Definition lat_rows (self : options) (ys : route_stack) : Numpy.ndarray2 :=
  Numpy.Array2 (point_precision self) (map snd ys).

(** Lines 438-448 of [plot_multiple_routes] (538-548 of the shaded variant):
    the expectation route [(exp_lon, exp_lat)] and its name. *)
Definition route_expectation (self : options) (ys : route_stack)
  : Py.result (string * (list float * list float)) :=
  if String.eqb (expectation_measure self) "mean" then
    Py.ret ("Mean Path",
            (Numpy.axis0 Numpy.mean (lon_rows self ys),
             Numpy.axis0 Numpy.mean (lat_rows self ys)))
  else if String.eqb (expectation_measure self) "median" then
    Py.ret ("Median Path",
            (Numpy.axis0 Numpy.median (lon_rows self ys),
             Numpy.axis0 Numpy.median (lat_rows self ys)))
  else if String.eqb (expectation_measure self) "average" then
    e_lon <- Numpy.average_axis0 (lon_rows self ys) None ;;
    e_lat <- Numpy.average_axis0 (lat_rows self ys) None ;;
    Py.ret ("Average Path", (e_lon, e_lat))
  else
    Py.raise (Py.ValueError
      ("Expectation Measure not recognized: " ++ expectation_measure self)).

(** The masked route stack of [plot_multiple_routes] and of its shaded
    variant. *)
Definition routes (self : options) (files : list Pandas.DataFrame)
  : Py.result route_stack :=
  ys <- Py.for_each (route_interp self) files ;;
  Py.ret (mask_routes ys).

(** [plot_multiple_routes]: the masked stack, the expectation route and the
    density weights of every trajectory. *)
Definition plot_multiple_routes
    (gaussian_kde : list (float * float) -> Py.result (float * float -> float))
    (self : options) (files : list Pandas.DataFrame)
  : Py.result (route_stack * (string * (list float * list float))
               * list (list float)) :=
  ys <- routes self files ;;
  e <- route_expectation self ys ;;
  colors_value <- route_density_weights gaussian_kde ys ;;
  Py.ret (ys, e, colors_value).

(** [generate_confidence_region]: one ellipse per index of [means_x], a
    unit buffer of the centre scaled about the centre, and their union.
    The model describes finite deviations: shapely refuses to scale a disk
    by a factor that is not finite, where the model returns a geometry
    without points, and the theorems on regions take finite deviations. *)
Definition generate_confidence_region
    (means_x means_y sigma_x sigma_y : list float)
  : Py.result Shapely.geometry :=
  ellipses <-
    Py.for_each
      (fun i =>
         mx <- index means_x i ;;
         my <- index means_y i ;;
         let circle := Shapely.PointBuffer mx my (Fin 1) in
         sx <- index sigma_x i ;;
         sy <- index sigma_y i ;;
         Py.ret (Shapely.Scale circle sx sy (mx, my)))
      (seq 0 (length means_x)) ;;
  Py.ret (Shapely.Union ellipses).

(** Lines 550-561 of [plot_multiple_routes_shaded]: the bands of the
    longitude rows and of the latitude rows. *)
Definition route_deviation (self : options) (ys : route_stack)
  : Py.result (list (list float) * list (list float)) :=
  if String.eqb (deviation_measure self) "std" then
    Py.ret
      (map (fun sig => map (fmul (Fin sig))
                           (Numpy.axis0 Numpy.std (lon_rows self ys)))
           (sigmas self),
       map (fun sig => map (fmul (Fin sig))
                           (Numpy.axis0 Numpy.std (lat_rows self ys)))
           (sigmas self))
  else if String.eqb (deviation_measure self) "pct" then
    sigma_lon <-
      Py.for_each
        (fun sig =>
           hi <- Numpy.percentile_axis0 (lon_rows self ys) (50 + sig / 2) ;;
           lo <- Numpy.percentile_axis0 (lon_rows self ys) (50 - sig / 2) ;;
           Py.ret (half_width hi lo))
        (sigmas self) ;;
    sigma_lat <-
      Py.for_each
        (fun sig =>
           hi <- Numpy.percentile_axis0 (lat_rows self ys) (50 + sig / 2) ;;
           lo <- Numpy.percentile_axis0 (lat_rows self ys) (50 - sig / 2) ;;
           Py.ret (half_width hi lo))
        (sigmas self) ;;
    Py.ret (sigma_lon, sigma_lat)
  else
    Py.raise (Py.ValueError
      ("Deviation Measure not recognized: " ++ deviation_measure self)).

(** [plot_multiple_routes_shaded]: the expectation route and one
    confidence region per level. *)
Definition plot_multiple_routes_shaded (self : options)
    (files : list Pandas.DataFrame)
  : Py.result (string * (list float * list float) * list Shapely.geometry) :=
  ys <- routes self files ;;
  e <- route_expectation self ys ;;
  let '(expectation_name, (exp_lon, exp_lat)) := e in
  sigma <- route_deviation self ys ;;
  let '(sigma_lon, sigma_lat) := sigma in
  regions <-
    Py.for_each
      (fun i =>
         s_lon <- index sigma_lon i ;;
         s_lat <- index sigma_lat i ;;
         generate_confidence_region exp_lon exp_lat s_lon s_lat)
      (seq 0 (length (sigmas self))) ;;
  Py.ret (expectation_name, (exp_lon, exp_lat), regions).

(** Lines 236-239 of [plot_quantity_multi] and 329-330 of
    [plot_quantity_shaded]: the limits of an axis from the values [a] that
    are drawn along it, [[min - range/10, max + range/10]]. *)
Definition axis_limits (a : list float) : Py.result (float * float) :=
  hi <- Numpy.max a ;;
  lo <- Numpy.min a ;;
  let range := fsub hi lo in
  Py.ret (fsub lo (fdiv range (Fin 10)), fadd hi (fdiv range (Fin 10))).

End Plotter.

(* ================================================================= *)
(** ** The statements of the specification *)

Module Spec.
Import Float.
Local Open Scope string_scope.

(** The options with another expectation measure. *)
Definition with_expectation (self : Plotter.options) (m : string)
  : Plotter.options :=
  Plotter.Options (Plotter.point_precision self) m
                  (Plotter.deviation_measure self)
                  (Plotter.deviation_values self).

(** The two errors the spec calls [UnsupportedMeasure]. *)
Definition unsupported_expectation (m : string) : Py.exn :=
  Py.ValueError ("Expectation Measure not recognized: " ++ m).

Definition unsupported_deviation (m : string) : Py.exn :=
  Py.ValueError ("Deviation Measure not recognized: " ++ m).

Definition UnsupportedMeasure (e : Py.exn) : Prop :=
  exists m, e = unsupported_expectation m \/ e = unsupported_deviation m.

Definition expectation_measures : list string := ["mean"; "median"; "average"].
Definition deviation_measures : list string := ["std"; "pct"].

(** The error the spec calls [InvalidInput] for a missing quantity. *)
Definition missing_quantity (quantity : string) : Py.exn :=
  Py.ValueError ("Quantity " ++ quantity ++ " not found in state vector file.").

(** The grid columns of a stack that hold no NaN in any row. *)
Definition kept_columns (ys : Numpy.ndarray2) : list nat :=
  filter (fun k => negb (existsb isnan (Numpy.column k ys)))
         (seq 0 (Numpy.ncols ys)).

(** Strict intersection masking as the spec words it, on a route stack of
    [m] grid columns: a column with a NaN in some trajectory is dropped for
    all trajectories. *)
Definition mask_route_columns (m : nat) (rs : Plotter.route_stack)
  : Plotter.route_stack :=
  let mask :=
    map (fun k =>
           negb (existsb (fun tr => isnan (nth k (fst tr) NaN)
                                    || isnan (nth k (snd tr) NaN)) rs))
        (seq 0 m) in
  map (fun tr => (Numpy.select mask (fst tr), Numpy.select mask (snd tr))) rs.

(** A density weight in the unit interval. *)
Definition in_unit_interval (w : float) : Prop :=
  exists q, w = Fin q /\ 0 <= q <= 1.

(** A circular value reduced to [[0, 360)]. *)
Definition in_circular_range (v : float) : Prop :=
  exists q, v = Fin q /\ 0 <= q < 360.

(** A circular value as [np.mod] returns it: in [[0, 360]], the bound 360
    being the rounded sum of 360 and a tiny negative remainder. *)
Definition in_closed_circular_range (v : float) : Prop :=
  exists q, v = Fin q /\ 0 <= q <= 360.

(** The point of abscissa [x] on the segment from [(xa, ya)] to
    [(xb, yb)]. *)
Definition lerp (xa ya xb yb x : Q) : Q :=
  ya + (x - xa) * ((yb - ya) / (xb - xa)).

(** [np.linspace] between finite endpoints, on the rationals. *)
Definition step (a b : Q) (div : nat) : Q :=
  (b + - a) / inject_Z (Z.of_nat div).

Definition Qlinspace (a b : Q) (num : nat) : list Q :=
  match num with
  | O => []
  | S O => [inject_Z (Z.of_nat 0) * (b + - a) + a]
  | S div =>
      map (fun i => inject_Z (Z.of_nat i) * step a b div + a) (seq 0 div) ++ [b]
  end.

(** The grid of a time column: [num] samples from its first to its last
    entry. *)
Definition grid_of (self : Plotter.options) (time : list float) : list float :=
  Numpy.linspace (hd NaN time) (last time NaN) (Plotter.point_precision self).

(** Resampling in the order of the contract: the values are interpolated
    on the grid first, and the interpolated values of a circular quantity
    are reduced modulo 360 afterwards. *)
Definition interpolated (self : Plotter.options) (time fp : list float)
  : list float :=
  map (Numpy.interp1 (combine time fp)) (grid_of self time).

Definition circular (quantity : string) : bool :=
  Py.str_in quantity ["lon"; "heading"].

Definition resampled (self : Plotter.options) (quantity : string)
    (time fp : list float) : list float :=
  if circular quantity
  then map (fun v => fmod v (Fin 360)) (interpolated self time fp)
  else interpolated self time fp.

(** A trajectory of the data model, decoded: a time column of at least two
    finite, strictly increasing instants and a column of as many values of
    the quantity. *)
Definition Trajectory (decoded : Pandas.DataFrame) (quantity : string)
    (ts : list Q) (fp : list float) : Prop :=
  Pandas.getitem decoded "time" = inr (map Fin ts) /\
  Pandas.getitem decoded quantity = inr fp /\
  quantity <> "time" /\
  length fp = length ts /\
  (2 <= length ts)%nat /\
  StronglySorted Qlt ts.

(** The options with another deviation measure. *)
Definition with_deviation (self : Plotter.options) (m : string)
  : Plotter.options :=
  Plotter.Options (Plotter.point_precision self)
                  (Plotter.expectation_measure self) m
                  (Plotter.deviation_values self).

(** The dispersion of level [L] as the spec words it, column by column:
    [L] times the standard deviation of the column, or half the distance
    between its percentiles [50 + L/2] and [50 - L/2]. *)
Definition std_band (L : Q) (ys : Numpy.ndarray2) : list float :=
  map (fun k => fmul (Fin L) (Numpy.std (Numpy.column k ys)))
      (seq 0 (Numpy.ncols ys)).

Definition pct_band (L : Q) (ys : Numpy.ndarray2) : list float :=
  map (fun k =>
         fdiv (fsub (Numpy.percentile_value (Numpy.column k ys) (50 + L / 2))
                    (Numpy.percentile_value (Numpy.column k ys) (50 - L / 2)))
              (Fin 2))
      (seq 0 (Numpy.ncols ys)).

(** The ellipse of centre [(cx, cy)] and semi-axes [sx] and [sy]. *)
Definition ellipse (cx cy sx sy : Q) (p : Q * Q) : Prop :=
  ((fst p - cx) / sx) * ((fst p - cx) / sx)
  + ((snd p - cy) / sy) * ((snd p - cy) / sy) <= 1.

(** The unit disk about [(cx, cy)] scaled by [(sx, sy)] about its centre,
    as [generate_confidence_region] builds it. *)
Definition scaled_disk (cx cy sx sy : Q) : Shapely.geometry :=
  Shapely.Scale (Shapely.PointBuffer (Fin cx) (Fin cy) (Fin 1))
                (Fin sx) (Fin sy) (Fin cx, Fin cy).

(** A stack of finite values, row by row. *)
Definition finite_stack (m : nat) (qrows : list (list Q)) : Numpy.ndarray2 :=
  Numpy.Array2 m (map (map Fin) qrows).

(** Mean and population standard deviation of rationals. *)
Definition Qsum (qs : list Q) : Q := fold_left Qplus qs 0.

Definition Qmean (qs : list Q) : Q :=
  Qsum qs / inject_Z (Z.of_nat (length qs)).

Definition Qstd (qs : list Q) : Q :=
  Qsqrt (Qmean (map (fun q => (q + - Qmean qs) * (q + - Qmean qs)) qs)).

(** A route stack of finite positions. *)
Definition finite_routes (qroutes : list (list Q * list Q))
  : Plotter.route_stack :=
  map (fun tr => (map Fin (fst tr), map Fin (snd tr))) qroutes.

(** The unit disk about a position scaled by finite factors about its
    centre, as [generate_confidence_region] builds it from an expectation
    that need not be finite. *)
Definition disk_about (mx my : float) (sx sy : Q) : Shapely.geometry :=
  Shapely.Scale (Shapely.PointBuffer mx my (Fin 1)) (Fin sx) (Fin sy) (mx, my).

End Spec.

(* ================================================================= *)
(** ** The error monad *)

Section ErrorMonad.
Import Py.
Local Open Scope py_scope.

Lemma bind_inr {A B} (m : result A) (k : A -> result B) (b : B) :
  bind m k = inr b -> exists a, m = inr a /\ k a = inr b.
Proof.
  destruct m as [e | a]; simpl; intros H; [discriminate | eauto].
Qed.

Lemma bind_inl {A B} (m : result A) (k : A -> result B) (e : exn) :
  bind m k = inl e -> m = inl e \/ exists a, m = inr a /\ k a = inl e.
Proof.
  destruct m as [e' | a]; simpl; intros H; [left; congruence | right; eauto].
Qed.

Lemma for_each_ret {A B} (f : A -> B) (xs : list A) :
  for_each (fun x => ret (f x)) xs = ret (map f xs).
Proof.
  induction xs as [| x xs IH]; cbn [for_each map]; [reflexivity |].
  rewrite IH. reflexivity.
Qed.

Lemma for_each_ext {A B} (f g : A -> result B) (xs : list A) :
  (forall x, In x xs -> f x = g x) -> for_each f xs = for_each g xs.
Proof.
  induction xs as [| x xs IH]; simpl; intros H; [reflexivity |].
  rewrite (H x) by (left; reflexivity).
  rewrite IH by (intros y Hy; apply H; right; exact Hy).
  reflexivity.
Qed.

Lemma for_each_inl {A B} (f : A -> result B) (xs : list A) (e : exn) :
  for_each f xs = inl e -> exists x, In x xs /\ f x = inl e.
Proof.
  induction xs as [| x xs IH]; simpl; intros H; [discriminate |].
  destruct (f x) as [e' | y] eqn:Hx; simpl in H.
  - exists x. split; [left; reflexivity | congruence].
  - destruct (for_each f xs) as [e' | ys]; simpl in H; [| discriminate].
    destruct (IH H) as [x' [Hin Hx']]. exists x'. split; [right |]; assumption.
Qed.

Lemma for_each_inr {A B} (f : A -> result B) (xs : list A) (ys : list B) :
  for_each f xs = inr ys -> Forall2 (fun x y => f x = inr y) xs ys.
Proof.
  revert ys. induction xs as [| x xs IH]; simpl; intros ys H.
  - injection H as <-. constructor.
  - destruct (f x) as [e | y] eqn:Hx; simpl in H; [discriminate |].
    destruct (for_each f xs) as [e | ys']; simpl in H; [discriminate |].
    injection H as <-. constructor; [exact Hx | apply IH; reflexivity].
Qed.

End ErrorMonad.

(* ================================================================= *)
(** ** Column lookup and the missing-quantity check *)

Section MissingQuantity.
Import Py Float.
Local Open Scope string_scope.

Lemma getitem_missing (df : Pandas.DataFrame) (label : string) :
  ~ In label (Pandas.columns df) ->
  Pandas.getitem df label = inl (KeyError label).
Proof.
  induction df as [| [l c] df IH]; simpl; intros H; [reflexivity |].
  destruct (String.eqb_spec l label) as [-> | Hne].
  - exfalso. apply H. left. reflexivity.
  - apply IH. intros Hin. apply H. right. exact Hin.
Qed.

Lemma getitem_error (df : Pandas.DataFrame) (label : string) (e : exn) :
  Pandas.getitem df label = inl e -> e = KeyError label.
Proof.
  induction df as [| [l c] df IH]; simpl; intros H; [congruence |].
  destruct (String.eqb l label); [discriminate | apply IH; exact H].
Qed.

(** The selection [decoded[['time', quantity]]] already fails on a missing
    label. *)
Lemma selection_missing (decoded : Pandas.DataFrame) (quantity : string) :
  ~ In quantity (Pandas.columns decoded) ->
  exists label,
    (label = quantity \/ label = "time") /\
    Pandas.getitem_list decoded ["time"; quantity] = inl (KeyError label).
Proof.
  intros H. unfold Pandas.getitem_list. simpl.
  destruct (Pandas.getitem decoded "time") as [e | c] eqn:Ht; simpl.
  - apply getitem_error in Ht. subst e. exists "time". auto.
  - rewrite (getitem_missing decoded quantity H). simpl. exists quantity. auto.
Qed.

(** A successful selection has exactly the two requested columns. *)
Lemma selection_columns (decoded df : Pandas.DataFrame) (quantity : string) :
  Pandas.getitem_list decoded ["time"; quantity] = inr df ->
  exists time fp,
    Pandas.getitem decoded "time" = inr time /\
    Pandas.getitem decoded quantity = inr fp /\
    df = [("time", time); (quantity, fp)].
Proof.
  unfold Pandas.getitem_list. simpl.
  destruct (Pandas.getitem decoded "time") as [e | time]; simpl; [discriminate |].
  destruct (Pandas.getitem decoded quantity) as [e | fp]; simpl; [discriminate |].
  intros H. injection H as <-. exists time, fp. auto.
Qed.

(** The membership test of lines 146-147 comes after the selection, and
    the selection has the column whenever it succeeds: the [ValueError] of
    line 147 is never raised. *)
Lemma quantity_check_unreachable (self : Plotter.options)
    (decoded : Pandas.DataFrame) (quantity : string) :
  Plotter.df_interp self decoded quantity <> inl (Spec.missing_quantity quantity).
Proof.
  unfold Plotter.df_interp, Spec.missing_quantity.
  destruct (Pandas.getitem_list decoded ["time"; quantity]) as [e | df] eqn:Hsel.
  - cbn [bind]. unfold Pandas.getitem_list in Hsel. simpl in Hsel.
    destruct (Pandas.getitem decoded "time") as [e' | time] eqn:Ht;
      simpl in Hsel.
    + apply getitem_error in Ht. injection Hsel as <-. subst e'. discriminate.
    + destruct (Pandas.getitem decoded quantity) as [e' | fp] eqn:Hq;
        simpl in Hsel; [| discriminate].
      apply getitem_error in Hq. injection Hsel as <-. subst e'. discriminate.
  - destruct (selection_columns _ _ _ Hsel) as [time [fp [_ [_ ->]]]].
    cbn [bind Pandas.columns map fst str_in existsb].
    rewrite String.eqb_refl, orb_true_r. cbn [negb Pandas.getitem].
    rewrite String.eqb_refl. cbn [bind ret].
    destruct (Pandas.iloc_first time) as [e | t0] eqn:H0;
      [destruct time; simpl in H0; [injection H0 as <- |]; discriminate |].
    destruct (Pandas.iloc_last time) as [e | tn] eqn:Hn;
      [destruct time; simpl in Hn; [injection Hn as <- |]; discriminate |].
    cbn [bind].
    destruct (String.eqb_spec quantity "time") as [-> | Hne].
    + simpl. discriminate.
    + rewrite (proj2 (String.eqb_neq "time" quantity))
        by (intros E; apply Hne; symmetry; exact E).
      rewrite String.eqb_refl. cbn [bind ret].
      rewrite ?(proj2 (String.eqb_neq quantity "time") Hne).
      unfold Numpy.interp.
      destruct time as [| t time']; [simpl; discriminate |].
      destruct (negb _); simpl; [discriminate |]. discriminate.
Qed.

(** C4 (the code departs from the claim).  When the requested quantity is
    not a column of the decoded frame, resampling does not raise the
    [ValueError] naming the quantity: the selection
    [decoded[['time', quantity]]] of lines 145, 199 and 284 raises
    [KeyError] first, in [plot_quantity], [plot_quantity_multi] and
    [plot_quantity_shaded] alike. *)
Theorem missing_quantity_raises_KeyError (self : Plotter.options)
    (decoded : Pandas.DataFrame) (quantity : string) :
  ~ In quantity (Pandas.columns decoded) ->
  exists label,
    (label = quantity \/ label = "time") /\
    Plotter.df_interp self decoded quantity = inl (KeyError label) /\
    Plotter.plot_quantity self decoded quantity = inl (KeyError label) /\
    (forall kde rest,
        Plotter.plot_quantity_multi kde self (decoded :: rest) quantity
        = inl (KeyError label)) /\
    (forall rest,
        Plotter.plot_quantity_shaded self (decoded :: rest) quantity
        = inl (KeyError label)) /\
    is_ValueError (Plotter.df_interp self decoded quantity) = false.
Proof.
  intros H. destruct (selection_missing decoded quantity H) as [label [Hl Hsel]].
  assert (Hdf : Plotter.df_interp self decoded quantity = inl (KeyError label)).
  { unfold Plotter.df_interp. rewrite Hsel. reflexivity. }
  exists label. split; [exact Hl |]. split; [exact Hdf |].
  split; [| split; [| split]].
  - unfold Plotter.plot_quantity. rewrite Hdf. reflexivity.
  - intros kde rest. unfold Plotter.plot_quantity_multi, Plotter.stack.
    simpl. unfold Plotter.stack_row at 1. rewrite Hdf. reflexivity.
  - intros rest. unfold Plotter.plot_quantity_shaded, Plotter.stack.
    simpl. unfold Plotter.stack_row at 1. rewrite Hdf. reflexivity.
  - rewrite Hdf. reflexivity.
Qed.

(** A decoded frame with the columns [time] and [lat], asked for
    [velocity]. *)
Lemma missing_quantity_raises_KeyError_witness :
  exists label,
    (label = "velocity" \/ label = "time") /\
    Plotter.df_interp (Plotter.Options 5 "mean" "std" [1])
      [("time", [Fin 0; Fin 10]); ("lat", [Fin 30; Fin 31])] "velocity"
    = inl (KeyError label) /\
    Plotter.plot_quantity (Plotter.Options 5 "mean" "std" [1])
      [("time", [Fin 0; Fin 10]); ("lat", [Fin 30; Fin 31])] "velocity"
    = inl (KeyError label) /\
    (forall kde rest,
        Plotter.plot_quantity_multi kde (Plotter.Options 5 "mean" "std" [1])
          ([("time", [Fin 0; Fin 10]); ("lat", [Fin 30; Fin 31])] :: rest)
          "velocity"
        = inl (KeyError label)) /\
    (forall rest,
        Plotter.plot_quantity_shaded (Plotter.Options 5 "mean" "std" [1])
          ([("time", [Fin 0; Fin 10]); ("lat", [Fin 30; Fin 31])] :: rest)
          "velocity"
        = inl (KeyError label)) /\
    is_ValueError
      (Plotter.df_interp (Plotter.Options 5 "mean" "std" [1])
         [("time", [Fin 0; Fin 10]); ("lat", [Fin 30; Fin 31])] "velocity")
    = false.
Proof.
  apply (missing_quantity_raises_KeyError
           (Plotter.Options 5 "mean" "std" [1])
           [("time", [Fin 0; Fin 10]); ("lat", [Fin 30; Fin 31])] "velocity").
  simpl. intros [H | [H | []]]; discriminate.
Defined.

End MissingQuantity.

(* ================================================================= *)
(** ** Measure selection *)

Section Measures.
Import Py Float.
Local Open Scope string_scope.

Lemma average_axis0_unweighted (a : Numpy.ndarray2) :
  Numpy.average_axis0 a None = inr (Numpy.axis0 Numpy.mean a).
Proof.
  unfold Numpy.average_axis0, Numpy.axis0, Numpy.average.
  apply (for_each_ret Numpy.mean).
Qed.

Lemma expectation_error (self : Plotter.options) (ys : Numpy.ndarray2)
    (total_ts : list float) (e : exn) :
  Plotter.expectation self ys total_ts = inl e ->
  str_in (Plotter.expectation_measure self) Spec.expectation_measures = false /\
  e = Spec.unsupported_expectation (Plotter.expectation_measure self).
Proof.
  unfold Plotter.expectation, Spec.expectation_measures, str_in. simpl existsb.
  destruct (Plotter.expectation_measure self =? "mean"); [discriminate |].
  destruct (Plotter.expectation_measure self =? "median"); [discriminate |].
  destruct (Plotter.expectation_measure self =? "average").
  - rewrite average_axis0_unweighted. discriminate.
  - simpl. intros H. injection H as <-. split; reflexivity.
Qed.

Lemma expectation_recognized (self : Plotter.options) (ys : Numpy.ndarray2)
    (total_ts : list float) :
  str_in (Plotter.expectation_measure self) Spec.expectation_measures = true ->
  exists r, Plotter.expectation self ys total_ts = inr r.
Proof.
  unfold Plotter.expectation, Spec.expectation_measures, str_in. simpl existsb.
  destruct (Plotter.expectation_measure self =? "mean"); [eexists; reflexivity |].
  destruct (Plotter.expectation_measure self =? "median"); [eexists; reflexivity |].
  destruct (Plotter.expectation_measure self =? "average"); [| discriminate].
  rewrite average_axis0_unweighted. eexists; reflexivity.
Qed.

Lemma expectation_unrecognized (self : Plotter.options) (ys : Numpy.ndarray2)
    (total_ts : list float) :
  str_in (Plotter.expectation_measure self) Spec.expectation_measures = false ->
  Plotter.expectation self ys total_ts
  = inl (Spec.unsupported_expectation (Plotter.expectation_measure self)).
Proof.
  unfold Plotter.expectation, Spec.expectation_measures, str_in. simpl existsb.
  destruct (Plotter.expectation_measure self =? "mean"); [discriminate |].
  destruct (Plotter.expectation_measure self =? "median"); [discriminate |].
  destruct (Plotter.expectation_measure self =? "average"); [discriminate |].
  reflexivity.
Qed.

Lemma percentile_axis0_error (a : Numpy.ndarray2) (q : Q) (e : exn) :
  Numpy.percentile_axis0 a q = inl e ->
  e = ValueError "Percentiles must be in the range [0, 100]".
Proof.
  unfold Numpy.percentile_axis0.
  destruct (negb _); simpl; intros H; [congruence | discriminate].
Qed.

Lemma deviation_error (self : Plotter.options) (ys : Numpy.ndarray2) (e : exn) :
  Plotter.deviation self ys = inl e ->
  (str_in (Plotter.deviation_measure self) Spec.deviation_measures = false /\
   e = Spec.unsupported_deviation (Plotter.deviation_measure self)) \/
  (str_in (Plotter.deviation_measure self) Spec.deviation_measures = true /\
   e = ValueError "Percentiles must be in the range [0, 100]").
Proof.
  unfold Plotter.deviation, Spec.deviation_measures, str_in. simpl existsb.
  destruct (Plotter.deviation_measure self =? "std"); [discriminate |].
  destruct (Plotter.deviation_measure self =? "pct").
  - intros H. right. split; [reflexivity |].
    apply for_each_inl in H. destruct H as [sig [_ H]].
    apply bind_inl in H. destruct H as [H | [hi [_ H]]].
    + apply percentile_axis0_error in H. exact H.
    + apply bind_inl in H. destruct H as [H | [lo [_ H]]]; [| discriminate].
      apply percentile_axis0_error in H. exact H.
  - simpl. intros H. injection H as <-. left. split; reflexivity.
Qed.

Lemma percentile_error_not_unsupported :
  ~ Spec.UnsupportedMeasure
      (ValueError "Percentiles must be in the range [0, 100]").
Proof.
  intros [m [H | H]]; discriminate H.
Qed.

(** C8.  [aggregate] raises the [ValueError] "Expectation Measure not
    recognized" whenever the expectation selector is not one of mean, median
    and average; with a recognised selector it raises the [ValueError]
    "Deviation Measure not recognized" whenever the deviation mode is not
    one of std and pct; with both recognised no error it may raise is one
    of these two. *)
Theorem aggregate_unsupported_measure (self : Plotter.options)
    (ys : Numpy.ndarray2) (total_ts : list float) :
  (str_in (Plotter.expectation_measure self) Spec.expectation_measures = false ->
   Plotter.aggregate self ys total_ts
   = inl (Spec.unsupported_expectation (Plotter.expectation_measure self))) /\
  (str_in (Plotter.expectation_measure self) Spec.expectation_measures = true ->
   str_in (Plotter.deviation_measure self) Spec.deviation_measures = false ->
   Plotter.aggregate self ys total_ts
   = inl (Spec.unsupported_deviation (Plotter.deviation_measure self))) /\
  (str_in (Plotter.expectation_measure self) Spec.expectation_measures = true ->
   str_in (Plotter.deviation_measure self) Spec.deviation_measures = true ->
   forall e, Plotter.aggregate self ys total_ts = inl e ->
             ~ Spec.UnsupportedMeasure e).
Proof.
  unfold Plotter.aggregate. split; [| split].
  - intros Hem. rewrite (expectation_unrecognized self ys total_ts Hem).
    reflexivity.
  - intros Hem Hdm.
    destruct (expectation_recognized self ys total_ts Hem) as [r ->].
    cbn [bind].
    destruct (Plotter.deviation self ys) as [e | sigma] eqn:Hd.
    + apply deviation_error in Hd. destruct Hd as [[_ ->] | [Hd _]].
      * reflexivity.
      * congruence.
    + revert Hd. unfold Plotter.deviation.
      revert Hdm. unfold Spec.deviation_measures, str_in. simpl existsb.
      destruct (Plotter.deviation_measure self =? "std"); [discriminate |].
      destruct (Plotter.deviation_measure self =? "pct"); discriminate.
  - intros Hem Hdm e.
    destruct (expectation_recognized self ys total_ts Hem) as [r ->].
    cbn [bind].
    destruct (Plotter.deviation self ys) as [e' | sigma] eqn:Hd;
      [| discriminate].
    intros H. injection H as <-.
    apply deviation_error in Hd. destruct Hd as [[Hd _] | [_ ->]].
    + congruence.
    + apply percentile_error_not_unsupported.
Qed.

Lemma aggregate_unsupported_measure_witness :
  Plotter.aggregate (Plotter.Options 3 "mode" "std" [1])
    (Numpy.Array2 3 [[Fin 1; Fin 2; Fin 3]; [Fin 3; Fin 4; Fin 5]])
    [Fin 10; Fin 20]
  = inl (Spec.unsupported_expectation "mode") /\
  Plotter.aggregate (Plotter.Options 3 "median" "iqr" [1])
    (Numpy.Array2 3 [[Fin 1; Fin 2; Fin 3]; [Fin 3; Fin 4; Fin 5]])
    [Fin 10; Fin 20]
  = inl (Spec.unsupported_deviation "iqr") /\
  (forall e,
      Plotter.aggregate (Plotter.Options 3 "average" "pct" [250])
        (Numpy.Array2 3 [[Fin 1; Fin 2; Fin 3]; [Fin 3; Fin 4; Fin 5]])
        [Fin 10; Fin 20]
      = inl e -> ~ Spec.UnsupportedMeasure e).
Proof.
  split; [| split].
  - apply (proj1 (aggregate_unsupported_measure
                    (Plotter.Options 3 "mode" "std" [1])
                    (Numpy.Array2 3 [[Fin 1; Fin 2; Fin 3]; [Fin 3; Fin 4; Fin 5]])
                    [Fin 10; Fin 20])).
    reflexivity.
  - apply (proj1 (proj2 (aggregate_unsupported_measure
                    (Plotter.Options 3 "median" "iqr" [1])
                    (Numpy.Array2 3 [[Fin 1; Fin 2; Fin 3]; [Fin 3; Fin 4; Fin 5]])
                    [Fin 10; Fin 20]))); reflexivity.
  - apply (proj2 (proj2 (aggregate_unsupported_measure
                    (Plotter.Options 3 "average" "pct" [250])
                    (Numpy.Array2 3 [[Fin 1; Fin 2; Fin 3]; [Fin 3; Fin 4; Fin 5]])
                    [Fin 10; Fin 20]))); reflexivity.
Defined.

End Measures.

(* ================================================================= *)
(** ** The selectors mean and average *)

Section MeanAverage.
Import Py Float.
Local Open Scope string_scope.

Lemma stack_with_expectation (self : Plotter.options) (m : string)
    (files : list Pandas.DataFrame) (quantity : string) :
  Plotter.stack (Spec.with_expectation self m) files quantity
  = Plotter.stack self files quantity.
Proof. reflexivity. Qed.

Lemma deviation_with_expectation (self : Plotter.options) (m : string)
    (ys : Numpy.ndarray2) :
  Plotter.deviation (Spec.with_expectation self m) ys = Plotter.deviation self ys.
Proof. reflexivity. Qed.

Lemma expectation_mean (self : Plotter.options) (ys : Numpy.ndarray2)
    (total_ts : list float) :
  Plotter.expectation (Spec.with_expectation self "mean") ys total_ts
  = inr ("Mean Path", Numpy.axis0 Numpy.mean ys, Numpy.mean total_ts).
Proof. reflexivity. Qed.

Lemma expectation_average (self : Plotter.options) (ys : Numpy.ndarray2)
    (total_ts : list float) :
  Plotter.expectation (Spec.with_expectation self "average") ys total_ts
  = inr ("Average Path", Numpy.axis0 Numpy.mean ys, Numpy.mean total_ts).
Proof.
  unfold Plotter.expectation. cbn [Spec.with_expectation Plotter.expectation_measure].
  cbn [String.eqb Ascii.eqb Bool.eqb].
  rewrite average_axis0_unweighted. reflexivity.
Qed.

(** C10.  The selectors mean and average give the same expectation path
    and the same end of the time axis: [np.average] is called without
    weights and is the mean.  This holds for the quantity stacks, for the
    route stacks, and for everything [plot_quantity_shaded] draws but the
    name of the path. *)
Theorem mean_average_same_expectation (self : Plotter.options)
    (ys : Numpy.ndarray2) (total_ts : list float) (rs : Plotter.route_stack) :
  (exists e t_final,
      Plotter.expectation (Spec.with_expectation self "mean") ys total_ts
      = inr ("Mean Path", e, t_final) /\
      Plotter.expectation (Spec.with_expectation self "average") ys total_ts
      = inr ("Average Path", e, t_final)) /\
  (exists e,
      Plotter.route_expectation (Spec.with_expectation self "mean") rs
      = inr ("Mean Path", e) /\
      Plotter.route_expectation (Spec.with_expectation self "average") rs
      = inr ("Average Path", e)) /\
  (forall files quantity,
      match
        Plotter.plot_quantity_shaded (Spec.with_expectation self "mean")
                                     files quantity,
        Plotter.plot_quantity_shaded (Spec.with_expectation self "average")
                                     files quantity
      with
      | inr (ts1, name1, e1, sigma1), inr (ts2, name2, e2, sigma2) =>
          ts1 = ts2 /\ e1 = e2 /\ sigma1 = sigma2
      | inl x1, inl x2 => x1 = x2
      | _, _ => False
      end).
Proof.
  split; [| split].
  - exists (Numpy.axis0 Numpy.mean ys), (Numpy.mean total_ts).
    split; [apply expectation_mean | apply expectation_average].
  - eexists. split; [reflexivity |].
    unfold Plotter.route_expectation.
    cbn [Spec.with_expectation Plotter.expectation_measure].
    cbn [String.eqb Ascii.eqb Bool.eqb].
    rewrite !average_axis0_unweighted. reflexivity.
  - intros files quantity. unfold Plotter.plot_quantity_shaded.
    rewrite !stack_with_expectation.
    destruct (Plotter.stack self files quantity) as [x | st]; [reflexivity |].
    cbn [bind]. unfold Plotter.aggregate.
    rewrite expectation_mean, expectation_average. cbn [bind].
    rewrite !deviation_with_expectation.
    destruct (Plotter.deviation self (Plotter.mask_columns (fst st)))
      as [x | sigma]; cbn [bind]; [reflexivity |].
    simpl. auto.
Qed.

End MeanAverage.

(* ================================================================= *)
(** ** Masking of the stacks *)

Section Masking.
Import Py Float.

Lemma filter_map_S (f : nat -> bool) (l : list nat) :
  filter f (map S l) = map S (filter (fun k => f (S k)) l).
Proof.
  induction l as [| k l IH]; simpl; [reflexivity |].
  destruct (f (S k)); simpl; rewrite IH; reflexivity.
Qed.

(** Boolean-mask indexing keeps the entries at the indices where the mask
    is true. *)
Lemma select_indices {A} (d : A) (mask : list bool) (r : list A) :
  length r = length mask ->
  Numpy.select mask r
  = map (fun k => nth k r d)
        (filter (fun k => nth k mask false) (seq 0 (length mask))).
Proof.
  revert r. induction mask as [| b mask IH]; intros [| x r] Hlen;
    try discriminate Hlen; [reflexivity |].
  injection Hlen as Hlen.
  cbn [Numpy.select length]. rewrite <- cons_seq, <- seq_shift.
  cbn [filter nth]. rewrite filter_map_S. cbn [nth].
  rewrite (IH r Hlen).
  destruct b; cbn [map nth]; rewrite map_map; reflexivity.
Qed.

Lemma filter_true_map {A} (g : A -> bool) (l : list A) :
  length (filter (fun b => b) (map g l)) = length (filter g l).
Proof.
  induction l as [| x l IH]; simpl; [reflexivity |].
  destruct (g x); simpl; rewrite IH; reflexivity.
Qed.

Lemma mask_indices (ys : Numpy.ndarray2) :
  filter (fun k => nth k (map negb (Numpy.any_isnan_axis0 ys)) false)
         (seq 0 (Numpy.ncols ys))
  = Spec.kept_columns ys.
Proof.
  unfold Spec.kept_columns. apply filter_ext_in. intros k Hk.
  apply in_seq in Hk.
  unfold Numpy.any_isnan_axis0, Numpy.columns. rewrite !map_map.
  rewrite (nth_indep _ false (negb (existsb isnan (Numpy.column 0 ys))))
    by (rewrite length_map, length_seq; lia).
  rewrite (map_nth (fun k => negb (existsb isnan (Numpy.column k ys)))).
  rewrite seq_nth by lia. reflexivity.
Qed.

Lemma kept_columns_spec (ys : Numpy.ndarray2) (k : nat) :
  In k (Spec.kept_columns ys) <->
  (k < Numpy.ncols ys)%nat /\
  forall r, In r (Numpy.rows ys) -> isnan (nth k r NaN) = false.
Proof.
  unfold Spec.kept_columns. rewrite filter_In, in_seq, negb_true_iff.
  unfold Numpy.column. split.
  - intros [Hk Hex]. split; [lia |]. intros r Hr.
    destruct (isnan (nth k r NaN)) eqn:E; [| reflexivity].
    assert (existsb isnan (map (fun r => nth k r NaN) (Numpy.rows ys)) = true).
    { apply existsb_exists. exists (nth k r NaN). split; [| exact E].
      apply in_map_iff. exists r. auto. }
    congruence.
  - intros [Hk Hall]. split; [lia |].
    destruct (existsb _ _) eqn:E; [| reflexivity].
    apply existsb_exists in E. destruct E as [v [Hv Hnan]].
    apply in_map_iff in Hv. destruct Hv as [r [<- Hr]].
    rewrite (Hall r Hr) in Hnan. discriminate.
Qed.

(** C2 (amended).  In the quantity stacks of [plot_quantity_multi] and
    [plot_quantity_shaded] every grid column that holds a NaN in some row
    is dropped for all rows before aggregation: each row keeps exactly its
    entries at the columns without NaN, and no NaN is left.  In the route
    stacks of [plot_multiple_routes] and [plot_multiple_routes_shaded] the
    mask is taken per trajectory: a trajectory with a NaN is dropped as a
    whole, and the trajectories that remain are unchanged. *)
Theorem masking_drops_nan (ys : Numpy.ndarray2) (rs : Plotter.route_stack) :
  Forall (fun r => length r = Numpy.ncols ys) (Numpy.rows ys) ->
  (Numpy.rows (Plotter.mask_columns ys)
   = map (fun r => map (fun k => nth k r NaN) (Spec.kept_columns ys))
         (Numpy.rows ys) /\
   Numpy.ncols (Plotter.mask_columns ys) = length (Spec.kept_columns ys) /\
   (forall r k,
       In r (Numpy.rows ys) -> (k < Numpy.ncols ys)%nat ->
       isnan (nth k r NaN) = true -> ~ In k (Spec.kept_columns ys)) /\
   (forall k,
       In k (Spec.kept_columns ys) <->
       (k < Numpy.ncols ys)%nat /\
       forall r, In r (Numpy.rows ys) -> isnan (nth k r NaN) = false) /\
   Forall (Forall (fun v => isnan v = false))
          (Numpy.rows (Plotter.mask_columns ys))) /\
  (forall tr,
      In tr (Plotter.mask_routes rs) <->
      In tr rs /\ existsb isnan (fst tr) = false /\ existsb isnan (snd tr) = false).
Proof.
  intros Hwf. split.
  - assert (Hrows :
      Numpy.rows (Plotter.mask_columns ys)
      = map (fun r => map (fun k => nth k r NaN) (Spec.kept_columns ys))
            (Numpy.rows ys)).
    { unfold Plotter.mask_columns, Numpy.take_columns. cbn [Numpy.rows].
      apply map_ext_in. intros r Hr.
      rewrite Forall_forall in Hwf.
      assert (Hlen : length (map negb (Numpy.any_isnan_axis0 ys)) = Numpy.ncols ys).
      { unfold Numpy.any_isnan_axis0, Numpy.columns.
        rewrite !length_map, length_seq. reflexivity. }
      rewrite (select_indices NaN) by (rewrite Hlen; apply Hwf; exact Hr).
      rewrite Hlen, mask_indices. reflexivity. }
    split; [exact Hrows |]. split; [| split; [| split]].
    + unfold Plotter.mask_columns, Numpy.take_columns. cbn [Numpy.ncols].
      unfold Numpy.any_isnan_axis0, Numpy.columns, Spec.kept_columns.
      rewrite !map_map. apply filter_true_map.
    + intros r k Hr Hk Hnan Hin. apply kept_columns_spec in Hin.
      destruct Hin as [_ Hall]. rewrite (Hall r Hr) in Hnan. discriminate.
    + apply kept_columns_spec.
    + rewrite Hrows. apply Forall_forall. intros row Hrow.
      apply in_map_iff in Hrow. destruct Hrow as [r [<- Hr]].
      apply Forall_forall. intros v Hv.
      apply in_map_iff in Hv. destruct Hv as [k [<- Hk]].
      apply kept_columns_spec in Hk. destruct Hk as [_ Hall]. apply Hall. exact Hr.
  - intros tr. unfold Plotter.mask_routes. rewrite filter_In.
    rewrite negb_true_iff, orb_false_iff. reflexivity.
Qed.

(** Only NaN is masked: a column with an infinite value stays. *)
Lemma infinity_not_masked :
  Plotter.mask_columns (Numpy.Array2 2 [[PInf; Fin 2]; [Fin 3; Fin 4]])
  = Numpy.Array2 2 [[PInf; Fin 2]; [Fin 3; Fin 4]].
Proof. reflexivity. Qed.

Lemma masking_drops_nan_witness :
  Forall (fun r => length r = 3%nat) [[Fin 1; NaN; Fin 3]; [Fin 3; Fin 4; Fin 5]] /\
  Numpy.rows (Plotter.mask_columns
                (Numpy.Array2 3 [[Fin 1; NaN; Fin 3]; [Fin 3; Fin 4; Fin 5]]))
  = [[Fin 1; Fin 3]; [Fin 3; Fin 5]].
Proof.
  split; [repeat constructor |].
  rewrite (proj1 (proj1 (masking_drops_nan
             (Numpy.Array2 3 [[Fin 1; NaN; Fin 3]; [Fin 3; Fin 4; Fin 5]]) []
             ltac:(repeat constructor)))).
  reflexivity.
Defined.

(** C2 as stated fails on the route stacks.  Trajectory 0 has a NaN at
    grid index 0; the code drops trajectory 0 and keeps column 0 of
    trajectory 1, which reaches the expectation route, where masking by
    column would have dropped index 0 from both trajectories. *)
Lemma route_masking_keeps_columns :
  isnan (nth 0 (fst (nth 0 [([NaN; Fin 2], [Fin 1; Fin 2]);
                            ([Fin 5; Fin 6], [Fin 7; Fin 8])] ([], [])))
             (Fin 0)) = true /\
  Plotter.mask_routes [([NaN; Fin 2], [Fin 1; Fin 2]);
                       ([Fin 5; Fin 6], [Fin 7; Fin 8])]
  = [([Fin 5; Fin 6], [Fin 7; Fin 8])] /\
  Spec.mask_route_columns 2 [([NaN; Fin 2], [Fin 1; Fin 2]);
                             ([Fin 5; Fin 6], [Fin 7; Fin 8])]
  = [([Fin 2], [Fin 2]); ([Fin 6], [Fin 8])] /\
  Plotter.mask_routes [([NaN; Fin 2], [Fin 1; Fin 2]);
                       ([Fin 5; Fin 6], [Fin 7; Fin 8])]
  <> Spec.mask_route_columns 2 [([NaN; Fin 2], [Fin 1; Fin 2]);
                                ([Fin 5; Fin 6], [Fin 7; Fin 8])] /\
  Plotter.route_expectation (Plotter.Options 2 "mean" "std" [1])
    (Plotter.mask_routes [([NaN; Fin 2], [Fin 1; Fin 2]);
                          ([Fin 5; Fin 6], [Fin 7; Fin 8])])
  = inr ("Mean Path"%string, ([Fin 5; Fin 6], [Fin 7; Fin 8])).
Proof.
  repeat split; try reflexivity. discriminate.
Qed.

End Masking.

(* ================================================================= *)
(** ** Density weights *)

Section DensityWeights.
Import Py Float.

Variable gaussian_kde :
  list (float * float) -> Py.result (float * float -> float).

(** A finite maximum bounds every element that is not minus infinity. *)
Lemma fold_fmax2_Fin (l : list float) (x : float) (hi : Q) :
  fold_left Numpy.fmax2 l x = Fin hi ->
  forall v, In v (x :: l) -> v = NInf \/ exists q, v = Fin q /\ q <= hi.
Proof.
  revert x. induction l as [| y l IH]; intros x H v Hv.
  - simpl in H. subst x. destruct Hv as [<- | []].
    right. exists hi. split; [reflexivity | apply Qle_refl].
  - cbn [fold_left] in H. specialize (IH _ H).
    assert (Hxy : Numpy.fmax2 x y = NInf \/
                  exists m, Numpy.fmax2 x y = Fin m /\ m <= hi)
      by (apply IH; left; reflexivity).
    assert (Hboth : forall w, w = x \/ w = y ->
                    w = NInf \/ exists q, w = Fin q /\ q <= hi).
    { intros w Hw. unfold Numpy.fmax2 in Hxy.
      destruct x as [a | | |], y as [b | | |]; simpl in Hxy;
        try (destruct Hxy as [Hxy | [m [Hxy _]]]; discriminate Hxy).
      - destruct (Qle_bool a b) eqn:E.
        + destruct Hxy as [Hxy | [m [Hxy Hm]]]; [discriminate |].
          injection Hxy as <-. apply Qle_bool_iff in E.
          destruct Hw as [-> | ->]; right; eexists; split; try reflexivity;
            [eapply Qle_trans; eassumption | exact Hm].
        + destruct Hxy as [Hxy | [m [Hxy Hm]]]; [discriminate |].
          injection Hxy as <-.
          assert (b <= a).
          { destruct (Qlt_le_dec a b) as [Hlt | Hle]; [| exact Hle].
            apply Qlt_le_weak, Qle_bool_iff in Hlt. congruence. }
          destruct Hw as [-> | ->]; right; eexists; split; try reflexivity;
            [exact Hm | eapply Qle_trans; eassumption].
      - destruct Hxy as [Hxy | [m [Hxy Hm]]]; [discriminate |].
        injection Hxy as <-.
        destruct Hw as [-> | ->]; [right; eexists; split; [reflexivity | exact Hm] | left; reflexivity].
      - destruct Hxy as [Hxy | [m [Hxy Hm]]]; [discriminate |].
        injection Hxy as <-.
        destruct Hw as [-> | ->]; [left; reflexivity | right; eexists; split; [reflexivity | exact Hm]].
      - destruct Hw as [-> | ->]; left; reflexivity. }
    destruct Hv as [<- | [<- | Hv]]; [apply Hboth; auto | apply Hboth; auto |].
    apply IH. right. exact Hv.
Qed.

(** A finite minimum bounds every element that is not plus infinity. *)
Lemma fold_fmin2_Fin (l : list float) (x : float) (lo : Q) :
  fold_left Numpy.fmin2 l x = Fin lo ->
  forall v, In v (x :: l) -> v = PInf \/ exists q, v = Fin q /\ lo <= q.
Proof.
  revert x. induction l as [| y l IH]; intros x H v Hv.
  - simpl in H. subst x. destruct Hv as [<- | []].
    right. exists lo. split; [reflexivity | apply Qle_refl].
  - cbn [fold_left] in H. specialize (IH _ H).
    assert (Hxy : Numpy.fmin2 x y = PInf \/
                  exists m, Numpy.fmin2 x y = Fin m /\ lo <= m)
      by (apply IH; left; reflexivity).
    assert (Hboth : forall w, w = x \/ w = y ->
                    w = PInf \/ exists q, w = Fin q /\ lo <= q).
    { intros w Hw. unfold Numpy.fmin2 in Hxy.
      destruct x as [a | | |], y as [b | | |]; simpl in Hxy;
        try (destruct Hxy as [Hxy | [m [Hxy _]]]; discriminate Hxy).
      - destruct (Qle_bool a b) eqn:E.
        + destruct Hxy as [Hxy | [m [Hxy Hm]]]; [discriminate |].
          injection Hxy as <-. apply Qle_bool_iff in E.
          destruct Hw as [-> | ->]; right; eexists; split; try reflexivity;
            [exact Hm | eapply Qle_trans; eassumption].
        + destruct Hxy as [Hxy | [m [Hxy Hm]]]; [discriminate |].
          injection Hxy as <-.
          assert (b <= a).
          { destruct (Qlt_le_dec a b) as [Hlt | Hle]; [| exact Hle].
            apply Qlt_le_weak, Qle_bool_iff in Hlt. congruence. }
          destruct Hw as [-> | ->]; right; eexists; split; try reflexivity;
            [eapply Qle_trans; eassumption | exact Hm].
      - destruct Hxy as [Hxy | [m [Hxy Hm]]]; [discriminate |].
        injection Hxy as <-.
        destruct Hw as [-> | ->]; [right; eexists; split; [reflexivity | exact Hm] | left; reflexivity].
      - destruct Hxy as [Hxy | [m [Hxy Hm]]]; [discriminate |].
        injection Hxy as <-.
        destruct Hw as [-> | ->]; [left; reflexivity | right; eexists; split; [reflexivity | exact Hm]].
      - destruct Hw as [-> | ->]; left; reflexivity. }
    destruct Hv as [<- | [<- | Hv]]; [apply Hboth; auto | apply Hboth; auto |].
    apply IH. right. exact Hv.
Qed.

(** With finite extrema every value is finite and lies between them. *)
Lemma between_extrema (a : list float) (lo hi : Q) :
  Numpy.min a = inr (Fin lo) -> Numpy.max a = inr (Fin hi) ->
  forall v, In v a -> exists q, v = Fin q /\ lo <= q <= hi.
Proof.
  destruct a as [| x a]; [discriminate |]. cbn [Numpy.min Numpy.max ret].
  intros Hmin Hmax v Hv. injection Hmin as Hmin. injection Hmax as Hmax.
  destruct (fold_fmin2_Fin _ _ _ Hmin v Hv) as [-> | [q [-> Hq]]].
  - destruct (fold_fmax2_Fin _ _ _ Hmax PInf Hv) as [H | [q [H _]]]; discriminate.
  - destruct (fold_fmax2_Fin _ _ _ Hmax (Fin q) Hv) as [H | [q' [H Hq']]];
      [discriminate |].
    injection H as <-. exists q. auto.
Qed.

(** The normalisation of one density between distinct extrema. *)
Lemma normalised_in_unit_interval (q lo hi : Q) :
  lo <= q <= hi -> lo < hi ->
  Spec.in_unit_interval (fdiv (fsub (Fin q) (Fin lo)) (fsub (Fin hi) (Fin lo))).
Proof.
  intros [Hlo Hhi] Hlt. cbn [fsub fneg fadd fdiv].
  assert (Hpos : 0 < hi + - lo) by lra.
  destruct (Qeq_bool (hi + - lo) 0) eqn:E.
  - apply Qeq_bool_iff in E. lra.
  - eexists. split; [reflexivity |]. split.
    + apply Qle_shift_div_l; [exact Hpos | lra].
    + apply Qle_shift_div_r; [exact Hpos | lra].
Qed.

(** The normalisation of one density between equal extrema is 0/0. *)
Lemma normalised_degenerate (q lo hi : Q) :
  lo <= q <= hi -> lo == hi ->
  fdiv (fsub (Fin q) (Fin lo)) (fsub (Fin hi) (Fin lo)) = NaN.
Proof.
  intros [Hlo Hhi] Heq. cbn [fsub fneg fadd fdiv].
  assert (E : Qeq_bool (hi + - lo) 0 = true) by (apply Qeq_bool_iff; lra).
  rewrite E. unfold signed_inf.
  assert (Hz : q + - lo == 0) by lra.
  rewrite (proj1 (Qeq_alt _ _) Hz). reflexivity.
Qed.

Lemma fmax2_same (d : float) : Numpy.fmax2 d d = d.
Proof.
  destruct d as [a | | |]; unfold Numpy.fmax2; simpl; try reflexivity.
  destruct (Qle_bool a a); reflexivity.
Qed.

Lemma fmin2_same (d : float) : Numpy.fmin2 d d = d.
Proof.
  destruct d as [a | | |]; unfold Numpy.fmin2; simpl; try reflexivity.
  destruct (Qle_bool a a); reflexivity.
Qed.

Lemma fold_same (f : float -> float -> float) (d : float) (n : nat) :
  f d d = d -> fold_left f (repeat d n) d = d.
Proof.
  intros H. induction n as [| n IH]; simpl; [reflexivity |].
  rewrite H. exact IH.
Qed.

Lemma zero_over_zero (d : float) : fdiv (fsub d d) (fsub d d) = NaN.
Proof.
  destruct d as [a | | |]; try reflexivity.
  cbn [fsub fneg fadd fdiv].
  assert (E : a + - a == 0) by lra.
  rewrite (proj2 (Qeq_bool_iff _ _) E). unfold signed_inf.
  rewrite (proj1 (Qeq_alt _ _) E). reflexivity.
Qed.

Lemma combine_app_same {A B} (a c : list A) (b d : list B) :
  length a = length b ->
  combine (a ++ c) (b ++ d) = combine a b ++ combine c d.
Proof.
  revert b. induction a as [| x a IH]; intros [| y b] H; try discriminate H.
  - reflexivity.
  - simpl. f_equal. apply IH. injection H as H. exact H.
Qed.

(** The pooled cloud of a route stack holds the points of every
    trajectory. *)
Lemma pooled_points (ys : Plotter.route_stack) (tr : list float * list float)
    (pt : float * float) :
  Forall (fun tr => length (fst tr) = length (snd tr)) ys ->
  In tr ys -> In pt (combine (fst tr) (snd tr)) ->
  In pt (combine (concat (map fst ys)) (concat (map snd ys))).
Proof.
  intros Hall Htr Hpt. induction ys as [| tr' ys IH]; [contradiction |].
  cbn [map concat]. inversion Hall as [| ? ? Hlen Hall']; subst.
  rewrite (combine_app_same _ _ _ _ Hlen). apply in_or_app.
  destruct Htr as [<- | Htr]; [left; exact Hpt | right; apply IH; assumption].
Qed.

(** C1 (amended).  [density_weights] maps every density [d] of the pooled
    cloud to [(d - d_min) / (d_max - d_min)].  When the extrema are finite
    and [d_min < d_max] every weight lies in [[0, 1]], in
    [plot_quantity_multi] and in [plot_multiple_routes].  The code has no
    fallback for [d_max == d_min]: every weight is then 0/0, a NaN.  This
    is what a cloud of identical points gives whenever the estimator
    returns densities at all, and otherwise the error of the estimator is
    raised. *)
Theorem density_weights_normalised :
  (forall data kde lo hi,
      gaussian_kde data = inr kde ->
      Numpy.min (map kde data) = inr (Fin lo) ->
      Numpy.max (map kde data) = inr (Fin hi) ->
      Plotter.density_weights gaussian_kde data
      = inr (map (fun pt => fdiv (fsub (kde pt) (Fin lo))
                                 (fsub (Fin hi) (Fin lo))) data) /\
      (lo < hi ->
       exists ws, Plotter.density_weights gaussian_kde data = inr ws /\
                  length ws = length data /\
                  Forall Spec.in_unit_interval ws) /\
      (lo == hi ->
       Plotter.density_weights gaussian_kde data
       = inr (repeat NaN (length data)))) /\
  (forall ys kde lo hi,
      Forall (fun tr => length (fst tr) = length (snd tr)) ys ->
      gaussian_kde (combine (concat (map fst ys)) (concat (map snd ys)))
      = inr kde ->
      Numpy.min (map kde (combine (concat (map fst ys)) (concat (map snd ys))))
      = inr (Fin lo) ->
      Numpy.max (map kde (combine (concat (map fst ys)) (concat (map snd ys))))
      = inr (Fin hi) ->
      lo < hi ->
      exists wss, Plotter.route_density_weights gaussian_kde ys = inr wss /\
                  Forall (Forall Spec.in_unit_interval) wss) /\
  (forall pt n,
      Plotter.density_weights gaussian_kde (repeat pt (S n))
      = inr (repeat NaN (S n)) \/
      exists e, gaussian_kde (repeat pt (S n)) = inl e /\
                Plotter.density_weights gaussian_kde (repeat pt (S n)) = inl e).
Proof.
  split; [| split].
  - intros data kde lo hi Hfit Hmin Hmax.
    assert (Hw : Plotter.density_weights gaussian_kde data
                 = inr (map (fun pt => fdiv (fsub (kde pt) (Fin lo))
                                            (fsub (Fin hi) (Fin lo))) data)).
    { unfold Plotter.density_weights. rewrite Hfit. cbn [bind].
      rewrite Hmax, Hmin. cbn [bind ret]. rewrite map_map. reflexivity. }
    assert (Hbetween : forall pt, In pt data ->
              exists q, kde pt = Fin q /\ lo <= q <= hi).
    { intros pt Hpt. apply (between_extrema _ _ _ Hmin Hmax).
      apply in_map. exact Hpt. }
    split; [exact Hw |]. split.
    + intros Hlt. eexists. split; [exact Hw |]. split; [apply length_map |].
      apply Forall_forall. intros w Hin. apply in_map_iff in Hin.
      destruct Hin as [pt [<- Hpt]].
      destruct (Hbetween pt Hpt) as [q [-> Hq]].
      apply normalised_in_unit_interval; assumption.
    + intros Heq. rewrite Hw. f_equal.
      transitivity (map (fun _ : float * float => NaN) data).
      * apply map_ext_in. intros pt Hpt.
        destruct (Hbetween pt Hpt) as [q [-> Hq]].
        apply normalised_degenerate; assumption.
      * clear. induction data as [| pt data' IH]; simpl; congruence.
  - intros ys kde lo hi Hlen Hfit Hmin Hmax Hlt.
    unfold Plotter.route_density_weights. cbv zeta.
    rewrite Hfit. cbn [bind]. rewrite Hmax, Hmin. cbn [bind ret].
    eexists. split; [reflexivity |].
    apply Forall_forall. intros ws Hws. apply in_map_iff in Hws.
    destruct Hws as [tr [<- Htr]].
    apply Forall_forall. intros w Hw. apply in_map_iff in Hw.
    destruct Hw as [pt [<- Hpt]].
    destruct (between_extrema _ _ _ Hmin Hmax (kde pt)) as [q [-> Hq]].
    { apply in_map. apply (pooled_points ys tr pt Hlen Htr Hpt). }
    apply normalised_in_unit_interval; assumption.
  - intros pt n. unfold Plotter.density_weights.
    destruct (gaussian_kde (repeat pt (S n))) as [e | kde] eqn:Hfit.
    + right. exists e. split; reflexivity.
    + left. cbn [bind]. rewrite map_repeat. set (d := kde pt).
      cbn [repeat Numpy.max Numpy.min ret bind].
      rewrite (fold_same Numpy.fmax2 d n (fmax2_same d)).
      rewrite (fold_same Numpy.fmin2 d n (fmin2_same d)).
      change (d :: repeat d n) with (repeat d (S n)).
      rewrite map_repeat, zero_over_zero. reflexivity.
Qed.

End DensityWeights.

Section DensityExamples.
Import Py Float.

(** A density that grows along the first coordinate, on three points. *)
Lemma density_weights_normalised_witness :
  Numpy.min (map (fun pt => fst pt) [(Fin 0, Fin 0); (Fin 1, Fin 0); (Fin 2, Fin 0)])
  = inr (Fin 0) /\
  Numpy.max (map (fun pt => fst pt) [(Fin 0, Fin 0); (Fin 1, Fin 0); (Fin 2, Fin 0)])
  = inr (Fin 2) /\
  0 < 2 /\
  exists ws,
    Plotter.density_weights (fun _ => inr (fun pt => fst pt))
      [(Fin 0, Fin 0); (Fin 1, Fin 0); (Fin 2, Fin 0)] = inr ws /\
    length ws = 3%nat /\
    Forall Spec.in_unit_interval ws.
Proof.
  split; [reflexivity |]. split; [reflexivity |]. split; [reflexivity |].
  apply (proj1 (proj2 (proj1 (density_weights_normalised
                                (fun _ => inr (fun pt => fst pt)))
           [(Fin 0, Fin 0); (Fin 1, Fin 0); (Fin 2, Fin 0)]
           (fun pt => fst pt) 0 2 eq_refl eq_refl eq_refl))).
  reflexivity.
Defined.

(** C1 as stated fails: on a cloud of identical points the weights are not
    a constant of [[0, 1]].  With an estimator that returns a density they
    are NaN, the value of 0/0; with one that rejects the cloud the call
    raises. *)
Lemma identical_points_give_nan :
  Plotter.density_weights (fun _ => inr (fun _ => Fin 1))
    [(Fin 3, Fin 4); (Fin 3, Fin 4); (Fin 3, Fin 4)]
  = inr [NaN; NaN; NaN] /\
  ~ (exists ws,
        Plotter.density_weights (fun _ => inr (fun _ => Fin 1))
          [(Fin 3, Fin 4); (Fin 3, Fin 4); (Fin 3, Fin 4)] = inr ws /\
        Forall Spec.in_unit_interval ws) /\
  Plotter.density_weights (fun _ => inl (LinAlgError "singular matrix"))
    [(Fin 3, Fin 4); (Fin 3, Fin 4); (Fin 3, Fin 4)]
  = inl (LinAlgError "singular matrix").
Proof.
  split; [reflexivity |]. split; [| reflexivity].
  intros [ws [H Hall]]. vm_compute in H. injection H as <-.
  inversion Hall as [| w l [q [Hq _]] _]. discriminate Hq.
Qed.

End DensityExamples.

(* ================================================================= *)
(** ** The sampling grid *)

Section Grid.
Import Py Float.

Lemma Qeq_bool_pos (q : Q) : 0 < q -> Qeq_bool q 0 = false.
Proof.
  intros H. destruct (Qeq_bool q 0) eqn:E; [| reflexivity].
  apply Qeq_bool_iff in E. lra.
Qed.

Lemma inject_nat_pos (d : nat) : 0 < inject_Z (Z.of_nat (S d)).
Proof.
  change 0 with (inject_Z 0). rewrite <- Zlt_Qlt. lia.
Qed.

Lemma inject_nat_S (i : nat) :
  inject_Z (Z.of_nat (S i)) == inject_Z (Z.of_nat i) + 1.
Proof.
  rewrite Nat2Z.inj_succ. unfold Z.succ. rewrite inject_Z_plus. reflexivity.
Qed.

Lemma inject_nat_lt (i j : nat) :
  (i < j)%nat -> inject_Z (Z.of_nat i) < inject_Z (Z.of_nat j).
Proof.
  intros H. rewrite <- Zlt_Qlt. lia.
Qed.

(** Between finite endpoints the grid is finite. *)
Lemma linspace_finite (a b : Q) (num : nat) :
  Numpy.linspace (Fin a) (Fin b) num = map Fin (Spec.Qlinspace a b num).
Proof.
  destruct num as [| [| d]]; [reflexivity | reflexivity |].
  unfold Numpy.linspace, Spec.Qlinspace.
  rewrite map_app, map_map. f_equal.
Qed.

Lemma Qlinspace_length (a b : Q) (num : nat) :
  length (Spec.Qlinspace a b num) = num.
Proof.
  destruct num as [| [| d]]; [reflexivity | reflexivity |].
  unfold Spec.Qlinspace. rewrite length_app, length_map, length_seq.
  simpl. lia.
Qed.

(** Every sample is [a + i * step], the last one included. *)
Lemma Qlinspace_nth (a b : Q) (d i : nat) :
  (i <= S d)%nat ->
  nth i (Spec.Qlinspace a b (S (S d))) 0
  == inject_Z (Z.of_nat i) * Spec.step a b (S d) + a.
Proof.
  intros Hi. unfold Spec.Qlinspace.
  destruct (Nat.eq_dec i (S d)) as [-> | Hne].
  - rewrite app_nth2 by (rewrite length_map, length_seq; lia).
    rewrite length_map, length_seq, Nat.sub_diag. cbn [nth].
    unfold Spec.step. field.
    pose proof (inject_nat_pos d). lra.
  - rewrite app_nth1 by (rewrite length_map, length_seq; lia).
    rewrite (nth_indep _ 0 (inject_Z (Z.of_nat 0) * Spec.step a b (S d) + a))
      by (rewrite length_map, length_seq; lia).
    rewrite (map_nth (fun i => inject_Z (Z.of_nat i) * Spec.step a b (S d) + a)).
    rewrite seq_nth by lia. reflexivity.
Qed.

Lemma Qlinspace_last (a b : Q) (d : nat) :
  last (Spec.Qlinspace a b (S (S d))) 0 = b.
Proof.
  unfold Spec.Qlinspace. apply last_last.
Qed.

Lemma step_pos (a b : Q) (d : nat) : a < b -> 0 < Spec.step a b (S d).
Proof.
  intros H. unfold Spec.step. apply Qlt_shift_div_l.
  - apply inject_nat_pos.
  - lra.
Qed.

(** A list whose entries increase with the index is sorted. *)
Lemma sorted_of_nth (l : list Q) :
  (forall i j, (i < j < length l)%nat -> nth i l 0 < nth j l 0) ->
  StronglySorted Qlt l.
Proof.
  induction l as [| x l IH]; intros H; constructor.
  - apply IH. intros i j Hij. apply (H (S i) (S j)). simpl. lia.
  - apply Forall_forall. intros y Hy.
    destruct (In_nth _ _ 0 Hy) as [j [Hj <-]].
    apply (H 0%nat (S j)). simpl. lia.
Qed.

Lemma Qlinspace_sorted (a b : Q) (num : nat) :
  a < b -> StronglySorted Qlt (Spec.Qlinspace a b num).
Proof.
  intros Hab. destruct num as [| [| d]].
  - constructor.
  - repeat constructor.
  - apply sorted_of_nth. rewrite Qlinspace_length. intros i j Hij.
    rewrite !Qlinspace_nth by lia.
    pose proof (step_pos a b d Hab) as Hs.
    pose proof (inject_nat_lt i j (proj1 Hij)) as Hlt.
    apply Qplus_lt_l. apply Qmult_lt_compat_r; assumption.
Qed.

End Grid.

(* ================================================================= *)
(** ** Linear interpolation *)

Section Interpolation.
Import Py Float.

Lemma Qle_bool_false (a b : Q) : Qle_bool a b = false -> b < a.
Proof.
  intros H. destruct (Qlt_le_dec b a) as [Hlt | Hle]; [exact Hlt |].
  apply Qle_bool_iff in Hle. congruence.
Qed.

Lemma fltb_false_Fin (x x0 : Q) : fltb (Fin x) (Fin x0) = false -> x0 <= x.
Proof.
  unfold fltb, fleb, feqb. intros H. apply andb_false_iff in H.
  destruct H as [H | H].
  - apply Qlt_le_weak, Qle_bool_false, H.
  - apply negb_false_iff, Qeq_bool_iff in H. lra.
Qed.

Lemma fltb_Fin_ge (x x0 : Q) : x0 <= x -> fltb (Fin x) (Fin x0) = false.
Proof.
  intros H. unfold fltb, fleb, feqb.
  destruct (Qle_bool x x0) eqn:E; [| reflexivity].
  apply Qle_bool_iff in E.
  assert (Heq : x == x0) by lra.
  rewrite (proj2 (Qeq_bool_iff _ _) Heq). reflexivity.
Qed.

(** Over finite knots the interpolant is finite at every finite point at
    or after the current knot. *)
Lemma interp_scan_finite (xs ys : list Q) (x x0 y0 : Q) :
  x0 <= x ->
  exists q,
    Numpy.interp_scan (Fin x) (Fin x0) (Fin y0)
                      (combine (map Fin xs) (map Fin ys)) = Fin q.
Proof.
  revert ys x0 y0. induction xs as [| x1 xs IH]; intros ys x0 y0 Hx.
  - exists y0. reflexivity.
  - destruct ys as [| y1 ys]; [exists y0; reflexivity |].
    cbn [map combine Numpy.interp_scan fleb feqb].
    destruct (Qle_bool x1 x) eqn:E1.
    + apply IH. apply Qle_bool_iff. exact E1.
    + destruct (Qeq_bool x0 x); [exists y0; reflexivity |].
      apply Qle_bool_false in E1.
      cbn [fsub fneg fadd fdiv].
      rewrite Qeq_bool_pos by lra.
      cbn [fmul fadd isnan]. eexists. reflexivity.
Qed.

Lemma interp1_finite (xs ys : list Q) (x : Q) :
  xs <> [] -> length xs = length ys ->
  exists q,
    Numpy.interp1 (combine (map Fin xs) (map Fin ys)) (Fin x) = Fin q.
Proof.
  intros Hne Hlen. destruct xs as [| x0 xs]; [contradiction |].
  destruct ys as [| y0 ys]; [discriminate |].
  unfold Numpy.interp1. cbn [isnan map combine].
  destruct (fltb (Fin x) (Fin x0)) eqn:E; [exists y0; reflexivity |].
  apply interp_scan_finite. apply fltb_false_Fin. exact E.
Qed.

Lemma sorted_head_le (x0 : Q) (xs : list Q) (i : nat) :
  StronglySorted Qlt (x0 :: xs) -> (i <= length xs)%nat ->
  x0 <= nth i (x0 :: xs) 0.
Proof.
  intros Hs Hi. destruct i as [| i]; [apply Qle_refl |].
  apply StronglySorted_inv in Hs. destruct Hs as [_ Hall].
  rewrite Forall_forall in Hall. cbn [nth].
  apply Qlt_le_weak, Hall, nth_In. lia.
Qed.

(** At the abscissa of a knot the interpolant is the value of that knot,
    whatever the values are. *)
Lemma interp_scan_at_knot (xs : list Q) (ys : list float)
    (x x0 : Q) (y0 : float) (i : nat) :
  StronglySorted Qlt (x0 :: xs) -> length xs = length ys ->
  (i <= length xs)%nat -> x == nth i (x0 :: xs) 0 ->
  Numpy.interp_scan (Fin x) (Fin x0) y0 (combine (map Fin xs) ys)
  = nth i (y0 :: ys) NaN.
Proof.
  revert ys x0 y0 i.
  induction xs as [| x1 xs IH]; intros ys x0 y0 i Hs Hlen Hi Hx.
  - destruct i; [reflexivity | simpl in Hi; lia].
  - destruct ys as [| y1 ys]; [discriminate |].
    injection Hlen as Hlen.
    cbn [map combine Numpy.interp_scan fleb feqb].
    pose proof (StronglySorted_inv Hs) as [Hs' Hall].
    destruct i as [| i].
    + cbn [nth] in Hx |- *.
      assert (Hlt : x0 < x1) by (inversion Hall; assumption).
      destruct (Qle_bool x1 x) eqn:E1; [apply Qle_bool_iff in E1; lra |].
      assert (E0 : Qeq_bool x0 x = true) by (apply Qeq_bool_iff; lra).
      rewrite E0. reflexivity.
    + cbn [nth] in Hx |- *. simpl in Hi.
      assert (Hge : x1 <= x).
      { rewrite Hx. apply sorted_head_le; [exact Hs' | lia]. }
      rewrite (proj2 (Qle_bool_iff _ _) Hge).
      apply IH; [exact Hs' | exact Hlen | lia | exact Hx].
Qed.

Lemma interp1_at_knot (xs : list Q) (ys : list float) (x : Q) (i : nat) :
  StronglySorted Qlt xs -> length xs = length ys ->
  (i < length xs)%nat -> x == nth i xs 0 ->
  Numpy.interp1 (combine (map Fin xs) ys) (Fin x) = nth i ys NaN.
Proof.
  intros Hs Hlen Hi Hx. destruct xs as [| x0 xs]; [simpl in Hi; lia |].
  destruct ys as [| y0 ys]; [discriminate |].
  injection Hlen as Hlen. simpl in Hi.
  unfold Numpy.interp1. cbn [isnan map combine].
  rewrite fltb_Fin_ge
    by (rewrite Hx; apply sorted_head_le; [exact Hs | lia]).
  apply interp_scan_at_knot; [exact Hs | exact Hlen | lia | exact Hx].
Qed.

(** Rounding to binary64 never leaves [[0, 360]]: 360 has 53 significant
    bits at every exponent up to its own. *)
Lemma round_half_even_floor (x : Q) : (Qfloor x <= round_half_even x)%Z.
Proof.
  unfold round_half_even.
  destruct (Qcompare (x - inject_Z (Qfloor x)) (1 # 2));
    [destruct (Z.even (Qfloor x)) | |]; lia.
Qed.

Lemma round_half_even_le (x : Q) (K : Z) :
  x <= inject_Z K -> (round_half_even x <= K)%Z.
Proof.
  intros Hx. unfold round_half_even.
  assert (Hf : (Qfloor x <= K)%Z)
    by (rewrite <- (Qfloor_Z K); apply Qfloor_resp_le; exact Hx).
  assert (Hstep : 1 # 2 <= x - inject_Z (Qfloor x) -> (Qfloor x + 1 <= K)%Z).
  { intros Hr. assert (H : inject_Z (Qfloor x) < inject_Z K) by lra.
    rewrite <- Zlt_Qlt in H. lia. }
  destruct (Qcompare (x - inject_Z (Qfloor x)) (1 # 2)) eqn:E.
  - apply Qeq_alt in E. destruct (Z.even (Qfloor x)); [exact Hf |].
    apply Hstep. lra.
  - exact Hf.
  - apply Qgt_alt in E. apply Hstep. lra.
Qed.

Lemma exponent_le_9 (p d : positive) :
  Zpos p # d <= 360 -> (exponent (Zpos p # d) <= 9)%Z.
Proof.
  intros H. unfold exponent. cbn [Qnum Qden].
  assert (He : (Z.log2 (Zpos p) - Z.log2 (Zpos d) <= 9)%Z).
  { unfold Qle in H. cbn [Qnum Qden] in H.
    destruct (Z.log2_spec (Zpos d) ltac:(lia)) as [_ Hd].
    pose proof (Z.log2_nonneg (Zpos d)) as Hl.
    assert (Hp : (Zpos p < 2 ^ (Z.log2 (Zpos d) + 10))%Z).
    { replace (Z.log2 (Zpos d) + 10)%Z with (Z.succ (Z.log2 (Zpos d)) + 9)%Z by lia.
      rewrite Z.pow_add_r by lia. change (2 ^ 9)%Z with 512%Z. lia. }
    apply Z.log2_lt_pow2 in Hp; lia. }
  destruct (Qle_bool _ _); lia.
Qed.

Lemma round_360 (q : Q) : 0 < q -> q <= 360 -> 0 <= round q <= 360.
Proof.
  intros H0 H1. destruct q as [n d].
  assert (Hn : exists p, n = Zpos p).
  { unfold Qlt in H0. cbn [Qnum Qden] in H0. destruct n; try lia. eauto. }
  destruct Hn as [p ->]. unfold round.
  destruct (Qeq_bool (Zpos p # d) 0) eqn:E0;
    [apply Qeq_bool_iff in E0; lra |].
  destruct (Qle_bool 0 (Zpos p # d)) eqn:E1;
    [| exfalso; apply Qlt_le_weak, Qle_bool_iff in H0; congruence].
  cbn [Qabs Z.abs].
  pose proof (exponent_le_9 p d H1) as He.
  set (e := exponent (Zpos p # d)) in *.
  set (t := (52 - e)%Z).
  assert (Ht : (0 <= t)%Z) by (unfold t; lia).
  set (P := inject_Z (2 ^ t)).
  assert (HP : 0 < P).
  { unfold P. change 0 with (inject_Z 0). rewrite <- Zlt_Qlt.
    apply Z.pow_pos_nonneg; lia. }
  assert (Hulp : 2 ^ (e - 52) == / P).
  { replace (e - 52)%Z with (- t)%Z by (unfold t; lia).
    rewrite Qpower_opp. apply Qinv_comp. unfold P.
    rewrite (Zpower_Qpower 2 t Ht). reflexivity. }
  set (ulp := 2 ^ (e - 52)) in *.
  assert (Hscaled : (Zpos p # d) / ulp == (Zpos p # d) * P).
  { unfold Qdiv. rewrite Hulp. rewrite Qinv_involutive. reflexivity. }
  assert (Hup : (Zpos p # d) / ulp <= inject_Z (360 * 2 ^ t)).
  { rewrite Hscaled, inject_Z_mult. fold P. change (inject_Z 360) with 360.
    apply Qmult_le_compat_r; [exact H1 | apply Qlt_le_weak; exact HP]. }
  assert (Hlow : 0 <= (Zpos p # d) / ulp).
  { rewrite Hscaled. apply Qmult_le_0_compat; apply Qlt_le_weak; assumption. }
  pose proof (round_half_even_le _ _ Hup) as Hr1.
  pose proof (round_half_even_floor ((Zpos p # d) / ulp)) as Hr2.
  apply Qfloor_resp_le in Hlow. change (Qfloor 0) with 0%Z in Hlow.
  set (r := round_half_even ((Zpos p # d) / ulp)) in *.
  assert (Hr0 : 0 <= inject_Z r)
    by (change 0 with (inject_Z 0); rewrite <- Zle_Qle; lia).
  assert (Hr360 : inject_Z r <= 360 * P).
  { unfold P. change 360 with (inject_Z 360). rewrite <- inject_Z_mult.
    rewrite <- Zle_Qle. exact Hr1. }
  rewrite Hulp. split.
  - apply Qmult_le_0_compat; [exact Hr0 |].
    apply Qlt_le_weak, Qinv_lt_0_compat. exact HP.
  - change (inject_Z r * / P) with (inject_Z r / P).
    apply Qle_shift_div_r; [exact HP | exact Hr360].
Qed.

(** [round] on familiar values: the double nearest to one tenth, a value
    that is a double already, and two ties below 360, which go to the even
    significand: to 360 and to the second double below it. *)
Example round_examples :
  Qred (round (1 # 10)) = 3602879701896397 # 36028797018963968 /\
  Qred (round 269) = 269 /\
  Qred (round (360 - (1 # 35184372088832))) = 360 /\
  Qred (round (360 - (3 # 35184372088832)))
  = Qred (360 - (1 # 8796093022208)).
Proof. repeat split; vm_compute; reflexivity. Qed.

(** C's remainder of a division by 360 is smaller than 360 in absolute
    value. *)
Lemma c_fmod_360_bounds (a : Q) : -360 < c_fmod a 360 < 360.
Proof.
  unfold c_fmod, Qtrunc.
  assert (E : a / 360 == a * (1 # 360)) by (field; discriminate).
  destruct (Qle_bool 0 (a / 360)) eqn:Hs.
  - apply Qle_bool_iff in Hs.
    pose proof (Qfloor_le (a / 360)) as Hle.
    pose proof (Qlt_floor (a / 360)) as Hlt.
    rewrite inject_Z_plus in Hlt. change (inject_Z 1) with 1 in Hlt.
    set (f := inject_Z (Qfloor (a / 360))) in *.
    rewrite E in Hs, Hle, Hlt. lra.
  - apply Qle_bool_false in Hs.
    pose proof (Qle_ceiling (a / 360)) as Hle.
    pose proof (Qceiling_lt (a / 360)) as Hlt.
    unfold Z.sub in Hlt. rewrite inject_Z_plus in Hlt.
    change (inject_Z (- (1))) with (-1 # 1) in Hlt.
    set (f := inject_Z (Qceiling (a / 360))) in *.
    rewrite E in Hs, Hle, Hlt. lra.
Qed.

(** Reduction modulo 360: the value returned lies in [[0, 360]]. *)
Lemma fmod_360_range (a : Q) :
  Spec.in_closed_circular_range (fmod (Fin a) (Fin 360)).
Proof.
  unfold Spec.in_closed_circular_range. cbn [fmod].
  change (Qeq_bool 360 0) with false. cbv iota.
  pose proof (c_fmod_360_bounds a) as Hm.
  set (m := c_fmod a 360) in *.
  destruct (Qeq_bool m 0); [exists 0; split; [reflexivity | lra] |].
  change (Qltb 360 0) with false. unfold Qltb.
  destruct (Qle_bool 0 m) eqn:Hs; cbn [negb Bool.eqb].
  - apply Qle_bool_iff in Hs. exists m. split; [reflexivity | lra].
  - apply Qle_bool_false in Hs. eexists. split; [reflexivity |].
    apply round_360; lra.
Qed.

Lemma c_fmod_360_reduced (r : Q) : 0 <= r < 360 -> c_fmod r 360 == r.
Proof.
  intros Hr. unfold c_fmod, Qtrunc.
  assert (E : r / 360 == r * (1 # 360)) by (field; discriminate).
  assert (Hs : Qle_bool 0 (r / 360) = true)
    by (apply Qle_bool_iff; rewrite E; lra).
  rewrite Hs.
  pose proof (Qfloor_le (r / 360)) as Hle.
  pose proof (Qlt_floor (r / 360)) as Hlt.
  rewrite inject_Z_plus in Hlt. change (inject_Z 1) with 1 in Hlt.
  set (z := Qfloor (r / 360)) in *.
  rewrite E in Hle, Hlt.
  assert (Hz : z = 0%Z).
  { assert (H1 : inject_Z z < inject_Z 1)
      by (change (inject_Z 1) with 1; lra).
    assert (H2 : inject_Z (-1) < inject_Z z)
      by (change (inject_Z (-1)) with (-1 # 1); lra).
    rewrite <- Zlt_Qlt in H1, H2. lia. }
  rewrite Hz. change (inject_Z 0) with 0. lra.
Qed.

(** A value of [[0, 360)] is its own reduction. *)
Lemma fmod_360_reduced (r : Q) :
  0 <= r < 360 -> feq (fmod (Fin r) (Fin 360)) (Fin r).
Proof.
  intros Hr. cbn [fmod]. change (Qeq_bool 360 0) with false. cbv iota.
  pose proof (c_fmod_360_reduced r Hr) as Hm.
  set (m := c_fmod r 360) in *.
  destruct (Qeq_bool m 0) eqn:E0.
  - apply Qeq_bool_iff in E0. cbn [feq]. lra.
  - change (Qltb 360 0) with false. unfold Qltb.
    assert (Hs : Qle_bool 0 m = true) by (apply Qle_bool_iff; lra).
    rewrite Hs. cbn [negb Bool.eqb feq]. exact Hm.
Qed.

(** 360 itself is reduced to 0. *)
Lemma fmod_360_wraps (r : Q) :
  r == 360 -> feq (fmod (Fin r) (Fin 360)) (Fin 0).
Proof.
  intros Hr. cbn [fmod]. change (Qeq_bool 360 0) with false. cbv iota.
  assert (Hm : c_fmod r 360 == 0).
  { unfold c_fmod, Qtrunc.
    assert (E : r / 360 == 1) by (rewrite Hr; reflexivity).
    rewrite (Qfloor_comp _ _ E).
    assert (Hs : Qle_bool 0 (r / 360) = true)
      by (apply Qle_bool_iff; rewrite E; discriminate).
    rewrite Hs. change (Qfloor 1) with 1%Z. change (inject_Z 1) with 1. lra. }
  apply Qeq_bool_iff in Hm. rewrite Hm. apply Qeq_refl.
Qed.

(** Reducing a reduced value changes it only when it is the rounded 360,
    which becomes 0. *)
Lemma fmod_360_again (v : float) :
  feq (fmod (fmod v (Fin 360)) (Fin 360)) (fmod v (Fin 360)) \/
  (feq (fmod v (Fin 360)) (Fin 360) /\
   feq (fmod (fmod v (Fin 360)) (Fin 360)) (Fin 0)).
Proof.
  destruct v as [a | | |]; try (left; exact I).
  destruct (fmod_360_range a) as [r [-> Hr]].
  destruct (Qlt_le_dec r 360) as [Hlt | Hge].
  - left. apply fmod_360_reduced. lra.
  - right. assert (E : r == 360) by lra.
    split; [exact E | apply fmod_360_wraps; exact E].
Qed.

End Interpolation.

(* ================================================================= *)
(** ** Resampling one trajectory *)

Section Resampling.
Import Py Float.
Local Open Scope string_scope.

Lemma last_nonempty_indep {A} (l : list A) (y d d' : A) :
  last (y :: l) d = last (y :: l) d'.
Proof.
  revert y. induction l as [| z l IH]; intros y; [reflexivity |].
  change (last (z :: l) d = last (z :: l) d'). apply IH.
Qed.

Lemma last_cons_default {A} (x d : A) (l : list A) :
  last l x = last (x :: l) d.
Proof.
  destruct l as [| y l]; [reflexivity |].
  change (last (y :: l) x = last (y :: l) d). apply last_nonempty_indep.
Qed.

(** The resampling block on a frame that has the two columns. *)
Lemma df_interp_frame (self : Plotter.options) (decoded : Pandas.DataFrame)
    (quantity : string) (time fp : list float) :
  Pandas.getitem decoded "time" = inr time ->
  Pandas.getitem decoded quantity = inr fp ->
  quantity <> "time" -> time <> [] -> length time = length fp ->
  Plotter.df_interp self decoded quantity
  = inr [("time", Spec.grid_of self time);
         (quantity, Spec.resampled self quantity time fp)].
Proof.
  intros Ht Hq Hne Hnil Hlen. unfold Plotter.df_interp, Pandas.getitem_list.
  cbn [for_each]. rewrite Ht, Hq. cbn [bind ret Pandas.columns map fst str_in existsb].
  rewrite String.eqb_refl, orb_true_r. cbn [negb Pandas.getitem].
  rewrite String.eqb_refl. cbn [bind].
  destruct time as [| t0 time']; [contradiction |].
  cbn [Pandas.iloc_first Pandas.iloc_last bind ret].
  assert (E1 : ("time" =? quantity) = false)
    by (apply String.eqb_neq; intros E; apply Hne; symmetry; exact E).
  rewrite E1, String.eqb_refl. cbn [bind].
  rewrite (proj2 (String.eqb_neq _ _) Hne).
  unfold Numpy.interp. rewrite <- Hlen, Nat.eqb_refl. cbn [negb bind ret].
  unfold Spec.resampled, Spec.interpolated, Spec.grid_of, Spec.circular, Numpy.mod_.
  cbn [hd]. rewrite <- (last_cons_default t0 NaN time').
  cbn [str_in existsb].
  destruct ((quantity =? "lon") || ((quantity =? "heading") || false));
    reflexivity.
Qed.

Lemma plot_quantity_frame (self : Plotter.options) (decoded : Pandas.DataFrame)
    (quantity : string) (time fp : list float) :
  Pandas.getitem decoded "time" = inr time ->
  Pandas.getitem decoded quantity = inr fp ->
  quantity <> "time" -> time <> [] -> length time = length fp ->
  Plotter.plot_quantity self decoded quantity
  = inr (Spec.grid_of self time, Spec.resampled self quantity time fp).
Proof.
  intros Ht Hq Hne Hnil Hlen. unfold Plotter.plot_quantity.
  rewrite (df_interp_frame self decoded quantity time fp) by assumption.
  cbn [bind Pandas.getitem]. rewrite String.eqb_refl. cbn [bind ret].
  assert (E1 : ("time" =? quantity) = false)
    by (apply String.eqb_neq; intros E; apply Hne; symmetry; exact E).
  rewrite E1, String.eqb_refl. reflexivity.
Qed.

(** Conversely, the block returns only on such a frame. *)
Lemma df_interp_inr (self : Plotter.options) (decoded d : Pandas.DataFrame)
    (quantity : string) :
  Plotter.df_interp self decoded quantity = inr d ->
  exists time fp,
    Pandas.getitem decoded "time" = inr time /\
    Pandas.getitem decoded quantity = inr fp /\
    quantity <> "time" /\ time <> [] /\ length time = length fp /\
    d = [("time", Spec.grid_of self time);
         (quantity, Spec.resampled self quantity time fp)].
Proof.
  intros H.
  assert (Hsel : exists df, Pandas.getitem_list decoded ["time"; quantity] = inr df).
  { unfold Plotter.df_interp in H.
    destruct (Pandas.getitem_list decoded ["time"; quantity]) as [e | df];
      [discriminate | eauto]. }
  destruct Hsel as [df Hsel].
  destruct (selection_columns _ _ _ Hsel) as [time [fp [Ht [Hq _]]]].
  exists time, fp.
  assert (Hne : quantity <> "time").
  { intros ->. revert H. unfold Plotter.df_interp. rewrite Hsel.
    destruct (selection_columns _ _ _ Hsel) as [t' [f' [_ [_ ->]]]].
    cbn [bind Pandas.columns map fst str_in existsb String.eqb Ascii.eqb
         Bool.eqb orb negb Pandas.getitem ret].
    destruct (Pandas.iloc_first t'); [discriminate |]. cbn [bind].
    destruct (Pandas.iloc_last t'); discriminate. }
  assert (E1 : ("time" =? quantity) = false)
    by (apply String.eqb_neq; intros E; apply Hne; symmetry; exact E).
  assert (Hrest : time <> [] /\ length time = length fp).
  { revert H. unfold Plotter.df_interp. rewrite Hsel.
    destruct (selection_columns _ _ _ Hsel) as [t' [f' [Ht' [Hq' ->]]]].
    assert (t' = time) by congruence. assert (f' = fp) by congruence. subst t' f'.
    cbn [bind Pandas.columns map fst str_in existsb].
    rewrite String.eqb_refl, orb_true_r. cbn [negb Pandas.getitem].
    rewrite String.eqb_refl, E1, String.eqb_refl. cbn [bind ret].
    destruct time as [| t0 time']; [discriminate |].
    cbn [Pandas.iloc_first Pandas.iloc_last bind ret].
    rewrite (proj2 (String.eqb_neq _ _) Hne).
    unfold Numpy.interp.
    destruct (Nat.eqb (length (t0 :: time')) (length fp)) eqn:El;
      [| discriminate].
    intros _. split; [discriminate | apply Nat.eqb_eq; exact El]. }
  destruct Hrest as [Hnil Hlen].
  repeat (split; [assumption |]).
  rewrite (df_interp_frame self decoded quantity time fp Ht Hq Hne Hnil Hlen) in H.
  congruence.
Qed.

Lemma linspace_length (a b : float) (num : nat) :
  length (Numpy.linspace a b num) = num.
Proof.
  destruct num as [| [| d]]; [reflexivity | reflexivity |].
  unfold Numpy.linspace. rewrite length_app, length_map, length_seq.
  simpl. lia.
Qed.

Lemma resampled_length (self : Plotter.options) (quantity : string)
    (time fp : list float) :
  length (Spec.resampled self quantity time fp) = Plotter.point_precision self.
Proof.
  unfold Spec.resampled, Spec.interpolated, Spec.grid_of.
  destruct (Spec.circular quantity); rewrite ?length_map; apply linspace_length.
Qed.

(** Every row of the stack has one entry per grid point: the stacks that
    [plot_quantity_multi] and [plot_quantity_shaded] mask are rectangular. *)
Lemma stack_rectangular (self : Plotter.options)
    (files : list Pandas.DataFrame) (quantity : string)
    (ys : Numpy.ndarray2) (total_ts : list float) :
  Plotter.stack self files quantity = inr (ys, total_ts) ->
  Numpy.ncols ys = Plotter.point_precision self /\
  Forall (fun r => length r = Numpy.ncols ys) (Numpy.rows ys).
Proof.
  unfold Plotter.stack. intros H. apply bind_inr in H.
  destruct H as [filled [Hfill H]]. injection H as <- <-.
  split; [reflexivity |]. cbn [Numpy.rows Numpy.ncols].
  apply for_each_inr in Hfill. apply Forall_forall. intros r Hr.
  apply in_map_iff in Hr. destruct Hr as [[r' t] [<- Hin]]. cbn [fst].
  revert r' t Hin. induction Hfill as [| f y fs ys' Hy _ IH]; intros r' t Hin;
    [contradiction |].
  destruct Hin as [-> | Hin]; [| eapply IH; exact Hin].
  unfold Plotter.stack_row in Hy. apply bind_inr in Hy.
  destruct Hy as [d [Hd Hy]].
  destruct (df_interp_inr _ _ _ _ Hd) as [time [fp [_ [_ [Hne [_ [_ ->]]]]]]].
  cbn [Pandas.getitem] in Hy. rewrite String.eqb_refl in Hy.
  assert (E1 : ("time" =? quantity)%string = false)
    by (apply String.eqb_neq; intros E; apply Hne; symmetry; exact E).
  rewrite E1, String.eqb_refl in Hy. cbn [bind ret] in Hy.
  apply bind_inr in Hy. destruct Hy as [t_end [_ Hy]].
  apply bind_inr in Hy. destruct Hy as [t_start [_ Hy]].
  injection Hy as <- _. apply resampled_length.
Qed.

Lemma circular_not_time (quantity : string) :
  Spec.circular quantity = true -> quantity <> "time".
Proof.
  intros H ->. discriminate H.
Qed.

Lemma last_map_Fin (l : list Q) :
  l <> [] -> last (map Fin l) NaN = Fin (last l 0).
Proof.
  induction l as [| x l IH]; intros Hl; [contradiction |].
  destruct l as [| y l]; [reflexivity |].
  change (last (map Fin (y :: l)) NaN = Fin (last (y :: l) 0)).
  apply IH. discriminate.
Qed.

Lemma grid_of_finite (self : Plotter.options) (ts : list Q) :
  ts <> [] ->
  Spec.grid_of self (map Fin ts)
  = map Fin (Spec.Qlinspace (hd 0 ts) (last ts 0) (Plotter.point_precision self)).
Proof.
  intros Hne. unfold Spec.grid_of. rewrite <- linspace_finite.
  rewrite (last_map_Fin ts Hne).
  destruct ts as [| t0 ts]; [contradiction | reflexivity].
Qed.

Lemma route_interp_frame (self : Plotter.options) (df : Pandas.DataFrame)
    (time lat lon : list float) :
  Pandas.getitem df "time" = inr time ->
  Pandas.getitem df "lat" = inr lat ->
  Pandas.getitem df "lon" = inr lon ->
  time <> [] -> length time = length lat -> length time = length lon ->
  Plotter.route_interp self df
  = inr (Spec.interpolated self time lon, Spec.interpolated self time lat).
Proof.
  intros Ht Hlat Hlon Hnil Hl1 Hl2. unfold Plotter.route_interp.
  rewrite Ht, Hlat, Hlon. cbn [bind].
  destruct time as [| t0 time']; [contradiction |].
  cbn [Pandas.iloc_first Pandas.iloc_last bind ret].
  unfold Numpy.interp. rewrite <- Hl1, <- Hl2, Nat.eqb_refl. cbn [negb bind ret].
  unfold Spec.interpolated, Spec.grid_of. cbn [hd].
  rewrite <- (last_cons_default t0 NaN time'). reflexivity.
Qed.

(** Every trajectory of the route stack is what [route_interp] returned
    for one of the files. *)
Lemma routes_from_route_interp (self : Plotter.options)
    (files : list Pandas.DataFrame) (rs : Plotter.route_stack) :
  Plotter.routes self files = inr rs ->
  Forall (fun tr => exists f, In f files /\ Plotter.route_interp self f = inr tr)
         rs.
Proof.
  unfold Plotter.routes. intros H. apply bind_inr in H.
  destruct H as [ys [Hys H]]. injection H as <-.
  apply for_each_inr in Hys.
  apply Forall_forall. intros tr Hin. unfold Plotter.mask_routes in Hin.
  apply filter_In in Hin. destruct Hin as [Hin _].
  induction Hys as [| f y fs ys' Hy _ IH]; [contradiction |].
  destruct Hin as [-> | Hin].
  - exists f. split; [left; reflexivity | exact Hy].
  - destruct (IH Hin) as [f' [Hf' Hr]]. exists f'. split; [right; exact Hf' | exact Hr].
Qed.

(** C3 (amended).  In [plot_quantity], [plot_quantity_multi] and
    [plot_quantity_shaded] a circular quantity (lon, heading) of a
    trajectory of finite samples is first interpolated linearly on the grid
    and the interpolated values are then reduced modulo 360, so that every
    value returned lies in [[0, 360]].  The bound 360 is returned: [np.mod]
    adds 360 to a negative remainder and rounds, so that an interpolated
    value just below zero gives 360 itself, which is outside [[0, 360)].
    The route plots interpolate the longitude without reducing it:
    [plot_route] returns the interpolated longitudes and latitudes, and
    every trajectory of the stack of [plot_multiple_routes] and
    [plot_multiple_routes_shaded] is such a pair. *)
Theorem circular_reduced_after_interpolation (self : Plotter.options)
    (decoded : Pandas.DataFrame) (quantity : string) (ts vs : list Q) :
  Spec.circular quantity = true ->
  Spec.Trajectory decoded quantity ts (map Fin vs) ->
  let grid := Spec.grid_of self (map Fin ts) in
  let raw := map (Numpy.interp1 (combine (map Fin ts) (map Fin vs))) grid in
  Numpy.interp grid (map Fin ts) (map Fin vs) = inr raw /\
  Plotter.df_interp self decoded quantity
  = inr [("time", grid); (quantity, Numpy.mod_ raw (Fin 360))] /\
  Plotter.plot_quantity self decoded quantity
  = inr (grid, Numpy.mod_ raw (Fin 360)) /\
  Forall Spec.in_closed_circular_range (Numpy.mod_ raw (Fin 360)) /\
  (exists xs ys,
      Plotter.plot_quantity (Plotter.Options 2 "mean" "std" [1])
        [("time", [Fin 0; Fin 10]);
         ("heading", [Fin (-1 # 1152921504606846976); Fin 90])] "heading"
      = inr (xs, ys) /\
      map canon ys = [Fin 360; Fin 90] /\
      ~ Forall Spec.in_circular_range ys) /\
  (forall route time lat lon,
      Pandas.getitem route "time" = inr time ->
      Pandas.getitem route "lat" = inr lat ->
      Pandas.getitem route "lon" = inr lon ->
      time <> [] -> length time = length lat -> length time = length lon ->
      Plotter.plot_route self route
      = inr (Spec.interpolated self time lon, Spec.interpolated self time lat)) /\
  (forall files rs,
      Plotter.routes self files = inr rs ->
      Forall (fun tr => exists route,
                  In route files /\ Plotter.plot_route self route = inr tr) rs).
Proof.
  intros Hc [Ht [Hq [Hne [Hlen [Hlen2 _]]]]] grid raw.
  rewrite length_map in Hlen. symmetry in Hlen.
  assert (Hnil : ts <> []) by (destruct ts; [simpl in Hlen2; lia | discriminate]).
  assert (Hnil' : map Fin ts <> []) by (destruct ts; [contradiction | discriminate]).
  assert (Hlen' : length (map Fin ts) = length (map Fin vs))
    by (rewrite !length_map; exact Hlen).
  split; [| split; [| split; [| split; [| split; [| split]]]]].
  - unfold Numpy.interp. destruct (map Fin ts) eqn:E; [contradiction |].
    rewrite Hlen', Nat.eqb_refl. reflexivity.
  - rewrite (df_interp_frame self decoded quantity _ _ Ht Hq Hne Hnil' Hlen').
    unfold Spec.resampled. rewrite Hc. reflexivity.
  - rewrite (plot_quantity_frame self decoded quantity _ _ Ht Hq Hne Hnil' Hlen').
    unfold Spec.resampled. rewrite Hc. reflexivity.
  - unfold Numpy.mod_. apply Forall_forall. intros v Hv.
    apply in_map_iff in Hv. destruct Hv as [r [<- Hr]].
    unfold raw in Hr. apply in_map_iff in Hr. destruct Hr as [g [<- Hg]].
    unfold grid in Hg. rewrite (grid_of_finite self ts Hnil) in Hg.
    apply in_map_iff in Hg. destruct Hg as [x [<- _]].
    destruct (interp1_finite ts vs x Hnil Hlen) as [q ->].
    apply fmod_360_range.
  - eexists. eexists. split; [vm_compute; reflexivity |].
    split; [vm_compute; reflexivity |].
    intros H. inversion H as [| v l [q [Hq' [_ Hlt]]] _].
    injection Hq' as <-. revert Hlt. vm_compute. intros Hlt. discriminate Hlt.
  - intros route time lat lon. unfold Plotter.plot_route.
    apply route_interp_frame.
  - intros files rs Hr. unfold Plotter.plot_route.
    apply (routes_from_route_interp self files rs Hr).
Qed.

(** C3 as stated fails on the route plots: [plot_route] returns the
    interpolated longitudes as they are, here between -91 and -90. *)
Lemma route_longitude_not_reduced :
  (exists lon lat,
      Plotter.plot_route (Plotter.Options 3 "mean" "std" [1])
        [("time", [Fin 0; Fin 10]); ("lat", [Fin 30; Fin 31]);
         ("lon", [Fin (-91); Fin (-90)])]
      = inr (lon, lat) /\
      map canon lon = [Fin (-91); Fin (-181 # 2); Fin (-90)] /\
      ~ Forall Spec.in_circular_range lon).
Proof.
  eexists. eexists. split; [reflexivity |]. split; [reflexivity |].
  intros H. inversion H as [| v l [q [Hq [Hpos _]]] _].
  injection Hq as <-. revert Hpos. vm_compute. intros Hp. apply Hp. reflexivity.
Qed.

End Resampling.

(* ================================================================= *)
(** ** Resampling a resampled series *)

Section Idempotence.
Import Py Float.
Local Open Scope string_scope.

Lemma feq_refl (x : float) : feq x x.
Proof. destruct x; simpl; [apply Qeq_refl | exact I | exact I | exact I]. Qed.

Lemma Forall2_feq_refl (l : list float) : Forall2 feq l l.
Proof. induction l; constructor; [apply feq_refl | assumption]. Qed.

Lemma Forall2_feq_Fin (l l' : list Q) :
  Forall2 Qeq l l' -> Forall2 feq (map Fin l) (map Fin l').
Proof. induction 1; constructor; assumption. Qed.

Lemma Qlinspace_proper (a a' b b' : Q) (num : nat) :
  a == a' -> b == b' ->
  Forall2 Qeq (Spec.Qlinspace a b num) (Spec.Qlinspace a' b' num).
Proof.
  intros Ha Hb. destruct num as [| [| d]].
  - constructor.
  - repeat constructor. rewrite Ha, Hb. reflexivity.
  - unfold Spec.Qlinspace. apply Forall2_app; [| repeat constructor; exact Hb].
    generalize (seq 0 (S d)). intros l.
    induction l as [| i l IH]; constructor; [| exact IH].
    unfold Spec.step. rewrite Ha, Hb. reflexivity.
Qed.

(** The grid of a grid is the grid. *)
Lemma Qlinspace_again (a b : Q) (num : nat) :
  Forall2 Qeq
    (Spec.Qlinspace (hd 0 (Spec.Qlinspace a b num))
                    (last (Spec.Qlinspace a b num) 0) num)
    (Spec.Qlinspace a b num).
Proof.
  destruct num as [| [| d]].
  - constructor.
  - repeat constructor. cbn [Spec.Qlinspace hd last].
    change (inject_Z (Z.of_nat 0)) with 0. ring.
  - rewrite Qlinspace_last. apply Qlinspace_proper; [| reflexivity].
    unfold Spec.Qlinspace. cbn [seq map app hd].
    change (inject_Z (Z.of_nat 0)) with 0. ring.
Qed.

Lemma last_In {A} (l : list A) (d : A) : l <> [] -> In (last l d) l.
Proof.
  induction l as [| x l IH]; intros H; [contradiction |].
  destruct l as [| y l]; [left; reflexivity |].
  right. apply IH. discriminate.
Qed.

Lemma sorted_hd_last (ts : list Q) :
  StronglySorted Qlt ts -> (2 <= length ts)%nat -> hd 0 ts < last ts 0.
Proof.
  intros Hs Hlen. destruct ts as [| x0 [| x1 ts]]; try (simpl in Hlen; lia).
  apply StronglySorted_inv in Hs. destruct Hs as [_ Hall].
  rewrite Forall_forall in Hall. cbn [hd].
  change (last (x0 :: x1 :: ts) 0) with (last (x1 :: ts) 0).
  apply Hall, last_In. discriminate.
Qed.

Lemma Forall2_Qeq_nth (l l' : list Q) (i : nat) :
  Forall2 Qeq l l' -> nth i l 0 == nth i l' 0.
Proof.
  intros H. revert i. induction H as [| x y l l' Hxy _ IH]; intros i.
  - reflexivity.
  - destruct i; [exact Hxy | apply IH].
Qed.

(** Interpolating a series at its own instants returns its values. *)
Lemma interp_at_knots (gs gs' : list Q) (vals : list float) :
  StronglySorted Qlt gs -> length gs = length vals -> Forall2 Qeq gs' gs ->
  map (Numpy.interp1 (combine (map Fin gs) vals)) (map Fin gs') = vals.
Proof.
  intros Hs Hlen Heq.
  pose proof (Forall2_length Heq) as Hlen'.
  apply (nth_ext _ _ NaN NaN).
  - rewrite !length_map. lia.
  - intros i Hi. rewrite !length_map in Hi. rewrite map_map.
    rewrite (nth_indep _ NaN
               (Numpy.interp1 (combine (map Fin gs) vals) (Fin 0)))
      by (rewrite length_map; exact Hi).
    rewrite (map_nth (fun x => Numpy.interp1 (combine (map Fin gs) vals) (Fin x))).
    apply interp1_at_knot; [exact Hs | exact Hlen | lia |].
    apply Forall2_Qeq_nth. exact Heq.
Qed.

(** C7 (amended).  The series resampled from a trajectory, resampled again
    to the same number of points, has the same instants; it has the same
    values when the quantity is not circular, and for a circular quantity
    every value is unchanged except a value that is 360, which the second
    reduction turns into 0.  So resampling is idempotent on every series
    that holds no 360. *)
Theorem resampling_idempotent_below_360 (self : Plotter.options)
    (decoded : Pandas.DataFrame) (quantity : string)
    (ts : list Q) (fp : list float) :
  Spec.Trajectory decoded quantity ts fp ->
  (1 <= Plotter.point_precision self)%nat ->
  exists grid values grid' values',
    Plotter.df_interp self decoded quantity
    = inr [("time", grid); (quantity, values)] /\
    Plotter.df_interp self [("time", grid); (quantity, values)] quantity
    = inr [("time", grid'); (quantity, values')] /\
    Forall2 feq grid' grid /\
    Forall2 (fun v' v => feq v' v \/
                         (Spec.circular quantity = true /\
                          feq v (Fin 360) /\ feq v' (Fin 0)))
            values' values /\
    (Spec.circular quantity = false -> Forall2 feq values' values) /\
    (Forall (fun v => ~ feq v (Fin 360)) values -> Forall2 feq values' values).
Proof.
  intros [Ht [Hq [Hne [Hlen [Hlen2 Hs]]]]] HM.
  assert (Hnil : ts <> []) by (destruct ts; [simpl in Hlen2; lia | discriminate]).
  assert (Hnil' : map Fin ts <> []) by (destruct ts; [contradiction | discriminate]).
  set (gs := Spec.Qlinspace (hd 0 ts) (last ts 0) (Plotter.point_precision self)).
  assert (Hgrid : Spec.grid_of self (map Fin ts) = map Fin gs)
    by (apply grid_of_finite; exact Hnil).
  assert (Hgs_len : length gs = Plotter.point_precision self)
    by (apply Qlinspace_length).
  assert (Hgs_nil : gs <> []) by (destruct gs; [simpl in Hgs_len; lia | discriminate]).
  assert (Hgs_sorted : StronglySorted Qlt gs)
    by (apply Qlinspace_sorted, sorted_hd_last; assumption).
  set (values := Spec.resampled self quantity (map Fin ts) fp).
  assert (Hval_len : length gs = length values).
  { unfold values, Spec.resampled, Spec.interpolated. rewrite Hgrid.
    destruct (Spec.circular quantity); rewrite ?length_map; reflexivity. }
  assert (Hgrid' : Spec.grid_of self (map Fin gs)
                   = map Fin (Spec.Qlinspace (hd 0 gs) (last gs 0)
                                             (Plotter.point_precision self)))
    by (apply grid_of_finite; exact Hgs_nil).
  assert (E1 : ("time" =? quantity) = false)
    by (apply String.eqb_neq; intros E; apply Hne; symmetry; exact E).
  exists (map Fin gs), values,
         (Spec.grid_of self (map Fin gs)),
         (Spec.resampled self quantity (map Fin gs) values).
  assert (Hinterp : Spec.interpolated self (map Fin gs) values = values).
  { unfold Spec.interpolated. rewrite Hgrid'.
    apply interp_at_knots; [exact Hgs_sorted | exact Hval_len |].
    apply Qlinspace_again. }
  assert (Hagain : Forall2 (fun v' v => feq v' v \/
                                        (Spec.circular quantity = true /\
                                         feq v (Fin 360) /\ feq v' (Fin 0)))
                     (Spec.resampled self quantity (map Fin gs) values) values).
  { unfold Spec.resampled at 1. rewrite Hinterp.
    destruct (Spec.circular quantity) eqn:Hc.
    - unfold values, Spec.resampled. rewrite Hc.
      generalize (Spec.interpolated self (map Fin ts) fp). intros raw.
      induction raw as [| v raw IH]; constructor; [| exact IH].
      destruct (fmod_360_again v) as [H | [H1 H2]];
        [left; exact H | right; split; [reflexivity | split; assumption]].
    - generalize values. intros l.
      induction l as [| v l IH]; constructor; [left; apply feq_refl | exact IH]. }
  split; [| split; [| split; [| split; [| split]]]].
  - rewrite <- Hgrid. apply df_interp_frame; try assumption.
    rewrite length_map. symmetry. exact Hlen.
  - apply df_interp_frame.
    + cbn [Pandas.getitem]. rewrite String.eqb_refl. reflexivity.
    + cbn [Pandas.getitem]. rewrite E1, String.eqb_refl. reflexivity.
    + exact Hne.
    + destruct gs; [contradiction | discriminate].
    + rewrite length_map. exact Hval_len.
  - rewrite Hgrid'. apply Forall2_feq_Fin. apply Qlinspace_again.
  - exact Hagain.
  - intros Hc. unfold Spec.resampled at 1. rewrite Hinterp, Hc.
    apply Forall2_feq_refl.
  - intros Hno. revert Hno Hagain.
    generalize (Spec.resampled self quantity (map Fin gs) values). intros l'.
    generalize values. intros l Hno Hagain.
    induction Hagain as [| v' v l' l Hv _ IH]; constructor.
    + inversion Hno as [| ? ? Hv360 _]; subst.
      destruct Hv as [Hv | [_ [Hv _]]]; [exact Hv | contradiction].
    + apply IH. inversion Hno; assumption.
Qed.

(** C7 as stated fails on a circular quantity: a heading just below zero
    is resampled to 360, and resampling the resulting series again gives
    0 there. *)
Lemma resampling_twice_moves_360 :
  exists grid values grid' values',
    Plotter.df_interp (Plotter.Options 2 "mean" "std" [1])
      [("time", [Fin 0; Fin 10]);
       ("heading", [Fin (-1 # 1152921504606846976); Fin 90])] "heading"
    = inr [("time", grid); ("heading", values)] /\
    Plotter.df_interp (Plotter.Options 2 "mean" "std" [1])
      [("time", grid); ("heading", values)] "heading"
    = inr [("time", grid'); ("heading", values')] /\
    map canon values = [Fin 360; Fin 90] /\
    map canon values' = [Fin 0; Fin 90] /\
    ~ Forall2 feq values' values.
Proof.
  do 4 eexists. split; [vm_compute; reflexivity |].
  split; [vm_compute; reflexivity |].
  split; [vm_compute; reflexivity |].
  split; [vm_compute; reflexivity |].
  intros H. inversion H as [| v' v l' l Hv _]; subst.
  revert Hv. vm_compute. discriminate.
Qed.

End Idempotence.

(* ================================================================= *)
(** ** The resampled series *)

Section ResampledSeries.
Import Py Float.
Local Open Scope string_scope.

(** Between two consecutive knots the interpolant is the point of the
    segment that joins them. *)
Lemma interp_scan_lerp (xs ys : list Q) (x x0 y0 : Q) (j : nat) :
  StronglySorted Qlt (x0 :: xs) -> length xs = length ys ->
  (j < length xs)%nat ->
  nth j (x0 :: xs) 0 <= x <= nth (S j) (x0 :: xs) 0 ->
  feq (Numpy.interp_scan (Fin x) (Fin x0) (Fin y0)
                         (combine (map Fin xs) (map Fin ys)))
      (Fin (Spec.lerp (nth j (x0 :: xs) 0) (nth j (y0 :: ys) 0)
                      (nth (S j) (x0 :: xs) 0) (nth (S j) (y0 :: ys) 0) x)).
Proof.
  revert ys x0 y0 j.
  induction xs as [| x1 xs IH]; intros ys x0 y0 j Hs Hlen Hj Hx;
    [simpl in Hj; lia |].
  destruct ys as [| y1 ys]; [discriminate |]. injection Hlen as Hlen.
  pose proof (StronglySorted_inv Hs) as [Hs' Hall].
  assert (Hlt : x0 < x1) by (inversion Hall; assumption).
  cbn [map combine Numpy.interp_scan fleb feqb].
  destruct j as [| j].
  - cbn [nth] in Hx |- *. destruct Hx as [Hx0 Hx1].
    destruct (Qle_bool x1 x) eqn:E1.
    + apply Qle_bool_iff in E1. assert (Hx : x == x1) by lra.
      rewrite (interp_scan_at_knot xs (map Fin ys) x x1 (Fin y1) 0 Hs')
        by (rewrite ?length_map; try lia; exact Hx).
      cbn [nth feq]. unfold Spec.lerp. rewrite Hx. field. lra.
    + destruct (Qeq_bool x0 x) eqn:E0.
      * apply Qeq_bool_iff in E0. cbn [feq]. unfold Spec.lerp.
        rewrite <- E0. field. lra.
      * cbn [fsub fneg fadd fdiv]. rewrite Qeq_bool_pos by lra.
        cbn [fmul fadd isnan feq]. unfold Spec.lerp. field. lra.
  - simpl in Hj.
    change (nth (S j) (x0 :: x1 :: xs) 0) with (nth j (x1 :: xs) 0) in Hx |- *.
    change (nth (S (S j)) (x0 :: x1 :: xs) 0) with (nth (S j) (x1 :: xs) 0)
      in Hx |- *.
    change (nth (S j) (y0 :: y1 :: ys) 0) with (nth j (y1 :: ys) 0).
    change (nth (S (S j)) (y0 :: y1 :: ys) 0) with (nth (S j) (y1 :: ys) 0).
    assert (Hge : x1 <= x).
    { apply Qle_trans with (nth j (x1 :: xs) 0); [| apply Hx].
      apply sorted_head_le; [exact Hs' | lia]. }
    rewrite (proj2 (Qle_bool_iff _ _) Hge).
    apply IH; [exact Hs' | exact Hlen | lia | exact Hx].
Qed.

Lemma interp1_lerp (xs ys : list Q) (x : Q) (j : nat) :
  StronglySorted Qlt xs -> length xs = length ys ->
  (S j < length xs)%nat ->
  nth j xs 0 <= x <= nth (S j) xs 0 ->
  feq (Numpy.interp1 (combine (map Fin xs) (map Fin ys)) (Fin x))
      (Fin (Spec.lerp (nth j xs 0) (nth j ys 0)
                      (nth (S j) xs 0) (nth (S j) ys 0) x)).
Proof.
  intros Hs Hlen Hj Hx. destruct xs as [| x0 xs]; [simpl in Hj; lia |].
  destruct ys as [| y0 ys]; [discriminate |]. injection Hlen as Hlen.
  simpl in Hj. unfold Numpy.interp1. cbn [isnan map combine].
  rewrite fltb_Fin_ge.
  - apply interp_scan_lerp; [exact Hs | exact Hlen | lia | exact Hx].
  - apply Qle_trans with (nth j (x0 :: xs) 0); [| apply Hx].
    apply sorted_head_le; [exact Hs | lia].
Qed.

(** A point between the first and the last instant lies between two
    consecutive instants. *)
Lemma bracket_exists (ts : list Q) (x : Q) :
  (2 <= length ts)%nat -> hd 0 ts <= x <= last ts 0 ->
  exists j, (S j < length ts)%nat /\ nth j ts 0 <= x <= nth (S j) ts 0.
Proof.
  induction ts as [| x0 ts IH]; intros Hlen Hx; [simpl in Hlen; lia |].
  destruct ts as [| x1 ts]; [simpl in Hlen; lia |].
  cbn [hd] in Hx.
  change (last (x0 :: x1 :: ts) 0) with (last (x1 :: ts) 0) in Hx.
  destruct (Qlt_le_dec x1 x) as [Hgt | Hle].
  - destruct ts as [| x2 ts]; [cbn [last] in Hx; lra |].
    destruct IH as [j [Hj Hb]].
    + simpl. lia.
    + cbn [hd]. split; [lra | apply Hx].
    + exists (S j). split; [simpl in Hj |- *; lia | exact Hb].
  - exists 0%nat. split; [simpl; lia |]. cbn [nth]. split; [apply Hx | exact Hle].
Qed.

(** The samples of the grid lie between its endpoints. *)
Lemma Qlinspace_between (a b : Q) (d i : nat) :
  a < b -> (i <= S d)%nat ->
  a <= nth i (Spec.Qlinspace a b (S (S d))) 0 <= b.
Proof.
  intros Hab Hi.
  pose proof (step_pos a b d Hab) as Hs.
  pose proof (Qlinspace_nth a b d i Hi) as Hn.
  pose proof (Qlinspace_nth a b d (S d) (le_n _)) as Hl.
  assert (Hb : nth (S d) (Spec.Qlinspace a b (S (S d))) 0 = b).
  { unfold Spec.Qlinspace.
    rewrite app_nth2 by (rewrite length_map, length_seq; lia).
    rewrite length_map, length_seq, Nat.sub_diag. reflexivity. }
  rewrite Hb in Hl.
  assert (H0 : 0 <= inject_Z (Z.of_nat i))
    by (change 0 with (inject_Z 0); rewrite <- Zle_Qle; lia).
  assert (H1 : inject_Z (Z.of_nat i) <= inject_Z (Z.of_nat (S d)))
    by (rewrite <- Zle_Qle; lia).
  rewrite Hn. split.
  - pose proof (Qmult_le_0_compat _ _ H0 (Qlt_le_weak _ _ Hs)). lra.
  - rewrite Hl at 2. apply Qplus_le_l.
    apply Qmult_le_compat_r; [exact H1 | apply Qlt_le_weak; exact Hs].
Qed.

(** C6.  Resampling a trajectory of at least two samples to [M >= 2]
    points yields exactly [M] finite instants, evenly spaced from the first
    to the last instant of the trajectory, both included, and as many
    values; every value is the linear interpolation of the quantity between
    the two samples that enclose its instant (reduced modulo 360 afterwards
    for a circular quantity). *)
Theorem resampling_spans_trajectory (self : Plotter.options)
    (decoded : Pandas.DataFrame) (quantity : string) (ts vs : list Q) :
  Spec.Trajectory decoded quantity ts (map Fin vs) ->
  (2 <= Plotter.point_precision self)%nat ->
  exists gs raw,
    Plotter.plot_quantity self decoded quantity
    = inr (map Fin gs,
           if Spec.circular quantity
           then map (fun v => fmod v (Fin 360)) raw else raw) /\
    length gs = Plotter.point_precision self /\
    length raw = Plotter.point_precision self /\
    hd 0 gs == hd 0 ts /\
    last gs 0 = last ts 0 /\
    (forall i, (S i < Plotter.point_precision self)%nat ->
       nth (S i) gs 0 - nth i gs 0
       == (last ts 0 - hd 0 ts)
          / inject_Z (Z.of_nat (Plotter.point_precision self - 1))) /\
    (forall i, (i < Plotter.point_precision self)%nat ->
       exists j,
         (S j < length ts)%nat /\
         nth j ts 0 <= nth i gs 0 <= nth (S j) ts 0 /\
         feq (nth i raw NaN)
             (Fin (Spec.lerp (nth j ts 0) (nth j vs 0)
                             (nth (S j) ts 0) (nth (S j) vs 0)
                             (nth i gs 0)))).
Proof.
  intros [Ht [Hq [Hne [Hlen [Hlen2 Hs]]]]] HM.
  rewrite length_map in Hlen.
  assert (Hnil : ts <> []) by (destruct ts; [simpl in Hlen2; lia | discriminate]).
  assert (Hnil' : map Fin ts <> []) by (destruct ts; [contradiction | discriminate]).
  pose proof (sorted_hd_last ts Hs Hlen2) as Hab.
  destruct (Plotter.point_precision self) as [| [| d]] eqn:EM; try lia.
  set (a := hd 0 ts) in *. set (b := last ts 0) in *.
  set (gs := Spec.Qlinspace a b (S (S d))).
  assert (Hgrid : Spec.grid_of self (map Fin ts) = map Fin gs).
  { rewrite (grid_of_finite self ts Hnil), EM. reflexivity. }
  exists gs, (Spec.interpolated self (map Fin ts) (map Fin vs)).
  split; [| split; [| split; [| split; [| split; [| split]]]]].
  - rewrite (plot_quantity_frame self decoded quantity (map Fin ts) (map Fin vs))
      by (try assumption; rewrite !length_map; symmetry; exact Hlen).
    rewrite Hgrid. reflexivity.
  - apply Qlinspace_length.
  - unfold Spec.interpolated. rewrite Hgrid, !length_map. apply Qlinspace_length.
  - unfold gs, Spec.Qlinspace. cbn [seq map app hd].
    change (inject_Z (Z.of_nat 0)) with 0. ring.
  - apply Qlinspace_last.
  - intros i Hi. unfold gs. rewrite !Qlinspace_nth by lia.
    rewrite inject_nat_S. unfold Spec.step.
    replace (S (S d) - 1)%nat with (S d) by lia.
    field. pose proof (inject_nat_pos d). lra.
  - intros i Hi.
    pose proof (Qlinspace_between a b d i Hab ltac:(lia)) as Hbetween.
    fold gs in Hbetween.
    destruct (bracket_exists ts (nth i gs 0) Hlen2 Hbetween) as [j [Hj Hb]].
    exists j. split; [exact Hj |]. split; [exact Hb |].
    unfold Spec.interpolated. rewrite Hgrid, map_map.
    rewrite (nth_indep _ NaN
               (Numpy.interp1 (combine (map Fin ts) (map Fin vs)) (Fin 0)))
      by (rewrite length_map; unfold gs; rewrite Qlinspace_length; exact Hi).
    rewrite (map_nth (fun x => Numpy.interp1 (combine (map Fin ts) (map Fin vs))
                                             (Fin x))).
    apply interp1_lerp; [exact Hs | symmetry; exact Hlen | exact Hj | exact Hb].
Qed.

End ResampledSeries.

(* ================================================================= *)
(** ** Dispersion bands *)

Section Dispersion.
Import Py Float.
Local Open Scope string_scope.

Lemma insert_perm (x : Q) (l : list Q) :
  Permutation (Plotter.insert x l) (x :: l).
Proof.
  induction l as [| y l IH]; simpl; [apply Permutation_refl |].
  destruct (Qle_bool x y); [apply Permutation_refl |].
  apply perm_trans with (y :: x :: l); [| apply perm_swap].
  apply perm_skip. exact IH.
Qed.

(** Every level is processed, once. *)
Lemma sigmas_perm (self : Plotter.options) :
  Permutation (Plotter.sigmas self) (Plotter.deviation_values self).
Proof.
  unfold Plotter.sigmas, Plotter.sorted.
  apply perm_trans with (fold_right Plotter.insert [] (Plotter.deviation_values self));
    [apply Permutation_sym, Permutation_rev |].
  induction (Plotter.deviation_values self) as [| x l IH]; simpl;
    [apply Permutation_refl |].
  apply perm_trans with (x :: fold_right Plotter.insert [] l);
    [apply insert_perm | apply perm_skip; exact IH].
Qed.

Lemma std_axis0_band (L : Q) (ys : Numpy.ndarray2) :
  map (fmul (Fin L)) (Numpy.axis0 Numpy.std ys) = Spec.std_band L ys.
Proof.
  unfold Numpy.axis0, Numpy.columns, Spec.std_band. rewrite !map_map. reflexivity.
Qed.

Lemma half_width_map {A} (f g : A -> float) (l : list A) :
  Plotter.half_width (map f l) (map g l)
  = map (fun c => fdiv (fsub (f c) (g c)) (Fin 2)) l.
Proof.
  unfold Plotter.half_width. induction l as [| c l IH]; simpl; [reflexivity |].
  f_equal. exact IH.
Qed.

Lemma percentile_valid_level (L : Q) :
  -100 <= L <= 100 ->
  Numpy.percentile_valid (50 + L / 2) = true /\
  Numpy.percentile_valid (50 - L / 2) = true.
Proof.
  intros HL. unfold Numpy.percentile_valid.
  assert (E : L / 2 == L * (1 # 2)) by (field; discriminate).
  split; apply andb_true_iff; split; apply Qle_bool_iff; rewrite E; lra.
Qed.

Lemma pct_axis0_band (L : Q) (ys : Numpy.ndarray2) :
  -100 <= L <= 100 ->
  bind (Numpy.percentile_axis0 ys (50 + L / 2))
       (fun hi => bind (Numpy.percentile_axis0 ys (50 - L / 2))
                       (fun lo => ret (Plotter.half_width hi lo)))
  = ret (Spec.pct_band L ys).
Proof.
  intros HL. destruct (percentile_valid_level L HL) as [Hhi Hlo].
  unfold Numpy.percentile_axis0. rewrite Hhi, Hlo. cbn [negb bind ret].
  rewrite half_width_map. unfold Numpy.columns, Spec.pct_band.
  rewrite map_map. reflexivity.
Qed.

Lemma pct_bands (levels : list Q) (ys : Numpy.ndarray2) :
  Forall (fun L => -100 <= L <= 100) levels ->
  for_each
    (fun sig =>
       bind (Numpy.percentile_axis0 ys (50 + sig / 2))
            (fun hi => bind (Numpy.percentile_axis0 ys (50 - sig / 2))
                            (fun lo => ret (Plotter.half_width hi lo))))
    levels
  = inr (map (fun L => Spec.pct_band L ys) levels).
Proof.
  intros Hall.
  rewrite (for_each_ext _ (fun L => ret (Spec.pct_band L ys))).
  - apply (for_each_ret (fun L => Spec.pct_band L ys)).
  - intros L HL. rewrite Forall_forall in Hall.
    apply pct_axis0_band, Hall, HL.
Qed.

Lemma sigmas_in_range (self : Plotter.options) :
  Forall (fun L => -100 <= L <= 100) (Plotter.deviation_values self) ->
  Forall (fun L => -100 <= L <= 100) (Plotter.sigmas self).
Proof.
  intros H. rewrite Forall_forall in *. intros L HL. apply H.
  apply (Permutation_in L (sigmas_perm self)). exact HL.
Qed.

Lemma percentile_invalid_level (L : Q) :
  ~ (-100 <= L <= 100) ->
  Numpy.percentile_valid (50 + L / 2) = false \/
  Numpy.percentile_valid (50 - L / 2) = false.
Proof.
  intros HL. unfold Numpy.percentile_valid.
  assert (E : L / 2 == L * (1 # 2)) by (field; discriminate).
  destruct (Qlt_le_dec L (-100)) as [Hlo | Hlo].
  - left. apply andb_false_iff. left.
    destruct (Qle_bool 0 (50 + L / 2)) eqn:B; [| reflexivity].
    apply Qle_bool_iff in B. rewrite E in B. lra.
  - right. apply andb_false_iff. left.
    destruct (Qle_bool 0 (50 - L / 2)) eqn:B; [| reflexivity].
    apply Qle_bool_iff in B. rewrite E in B.
    exfalso. apply HL. split; lra.
Qed.

Lemma Forall2_In_l {A B} (R : A -> B -> Prop) (l : list A) (l' : list B) (x : A) :
  Forall2 R l l' -> In x l -> exists y, R x y.
Proof.
  induction 1 as [| a b l l' Hab _ IH]; intros Hin; [contradiction |].
  destruct Hin as [<- | Hin]; [exists b; exact Hab | apply IH; exact Hin].
Qed.

(** A level numpy rejects makes the whole computation raise. *)
Lemma pct_bands_invalid (levels : list Q) (ys : Numpy.ndarray2) :
  Exists (fun L => ~ (-100 <= L <= 100)) levels ->
  for_each
    (fun sig =>
       bind (Numpy.percentile_axis0 ys (50 + sig / 2))
            (fun hi => bind (Numpy.percentile_axis0 ys (50 - sig / 2))
                            (fun lo => ret (Plotter.half_width hi lo))))
    levels
  = inl (ValueError "Percentiles must be in the range [0, 100]").
Proof.
  intros Hex.
  destruct (for_each _ levels) as [e | bands] eqn:Hd.
  - apply for_each_inl in Hd. destruct Hd as [sig [_ H]].
    apply bind_inl in H. destruct H as [H | [hi [_ H]]].
    + apply percentile_axis0_error in H. congruence.
    + apply bind_inl in H. destruct H as [H | [lo [_ H]]]; [| discriminate].
      apply percentile_axis0_error in H. congruence.
  - exfalso. apply for_each_inr in Hd. apply Exists_exists in Hex.
    destruct Hex as [L [HL Hbad]].
    destruct (Forall2_In_l _ _ _ L Hd HL) as [band Hband].
    unfold Numpy.percentile_axis0 in Hband.
    destruct (percentile_invalid_level L Hbad) as [E | E].
    + rewrite E in Hband. discriminate.
    + rewrite E in Hband.
      destruct (negb (Numpy.percentile_valid (50 + L / 2))); discriminate.
Qed.

Lemma sigmas_out_of_range (self : Plotter.options) :
  Exists (fun L => ~ (-100 <= L <= 100)) (Plotter.deviation_values self) ->
  Exists (fun L => ~ (-100 <= L <= 100)) (Plotter.sigmas self).
Proof.
  intros H. apply Exists_exists in H. destruct H as [L [HL Hbad]].
  apply Exists_exists. exists L. split; [| exact Hbad].
  apply (Permutation_in L (Permutation_sym (sigmas_perm self))). exact HL.
Qed.

(** C5.  In mode std the band of level [L] is [L] times the standard
    deviation of every column; in mode pct it is half the distance between
    the percentiles [50 + L/2] and [50 - L/2] of every column (for the
    levels numpy accepts, between -100 and 100; any other level makes
    [np.percentile] raise); one band is produced per level.  This holds for the quantity stack and for the longitude and
    latitude rows of the route stack.  The standard deviation is the
    population one: level 1 over [[1,2,3],[3,4,5]] gives [1,1,1]. *)
Theorem dispersion_bands (self : Plotter.options) (ys : Numpy.ndarray2)
    (rs : Plotter.route_stack) :
  Permutation (Plotter.sigmas self) (Plotter.deviation_values self) /\
  Plotter.deviation (Spec.with_deviation self "std") ys
  = inr (map (fun L => Spec.std_band L ys) (Plotter.sigmas self)) /\
  Plotter.route_deviation (Spec.with_deviation self "std") rs
  = inr (map (fun L => Spec.std_band L (Plotter.lon_rows self rs))
             (Plotter.sigmas self),
         map (fun L => Spec.std_band L (Plotter.lat_rows self rs))
             (Plotter.sigmas self)) /\
  (Forall (fun L => -100 <= L <= 100) (Plotter.deviation_values self) ->
   Plotter.deviation (Spec.with_deviation self "pct") ys
   = inr (map (fun L => Spec.pct_band L ys) (Plotter.sigmas self)) /\
   Plotter.route_deviation (Spec.with_deviation self "pct") rs
   = inr (map (fun L => Spec.pct_band L (Plotter.lon_rows self rs))
              (Plotter.sigmas self),
          map (fun L => Spec.pct_band L (Plotter.lat_rows self rs))
              (Plotter.sigmas self))) /\
  (Exists (fun L => ~ (-100 <= L <= 100)) (Plotter.deviation_values self) ->
   Plotter.deviation (Spec.with_deviation self "pct") ys
   = inl (ValueError "Percentiles must be in the range [0, 100]")) /\
  (exists bands,
      Plotter.deviation (Plotter.Options 3 "mean" "std" [1])
        (Numpy.Array2 3 [[Fin 1; Fin 2; Fin 3]; [Fin 3; Fin 4; Fin 5]])
      = inr bands /\
      map (map canon) bands = [[Fin 1; Fin 1; Fin 1]]).
Proof.
  split; [apply sigmas_perm |]. split; [| split; [| split; [| split]]].
  - unfold Plotter.deviation.
    cbn [Spec.with_deviation Plotter.deviation_measure String.eqb Ascii.eqb Bool.eqb].
    cbn [ret]. f_equal. apply map_ext. intros L. apply std_axis0_band.
  - unfold Plotter.route_deviation.
    cbn [Spec.with_deviation Plotter.deviation_measure String.eqb Ascii.eqb Bool.eqb].
    cbn [ret]. f_equal. f_equal; apply map_ext; intros L; apply std_axis0_band.
  - intros Hall. pose proof (sigmas_in_range self Hall) as Hs. split.
    + unfold Plotter.deviation.
      cbn [Spec.with_deviation Plotter.deviation_measure String.eqb Ascii.eqb Bool.eqb].
      apply (pct_bands _ ys Hs).
    + unfold Plotter.route_deviation.
      cbn [Spec.with_deviation Plotter.deviation_measure String.eqb Ascii.eqb Bool.eqb].
      change (Plotter.sigmas (Spec.with_deviation self "pct"))
        with (Plotter.sigmas self).
      change (Plotter.lon_rows (Spec.with_deviation self "pct") rs)
        with (Plotter.lon_rows self rs).
      change (Plotter.lat_rows (Spec.with_deviation self "pct") rs)
        with (Plotter.lat_rows self rs).
      rewrite (pct_bands _ (Plotter.lon_rows self rs) Hs).
      cbn [bind].
      rewrite (pct_bands _ (Plotter.lat_rows self rs) Hs).
      reflexivity.
  - intros Hex. unfold Plotter.deviation.
    cbn [Spec.with_deviation Plotter.deviation_measure String.eqb Ascii.eqb Bool.eqb].
    apply (pct_bands_invalid _ ys (sigmas_out_of_range self Hex)).
  - eexists. split; [reflexivity |]. vm_compute. reflexivity.
Qed.

Lemma dispersion_bands_witness :
  Forall (fun L => -100 <= L <= 100) [50; 90] /\
  Plotter.deviation (Plotter.Options 3 "mean" "pct" [50; 90])
    (Numpy.Array2 3 [[Fin 1; Fin 2; Fin 3]; [Fin 3; Fin 4; Fin 5]])
  = inr [Spec.pct_band 90
           (Numpy.Array2 3 [[Fin 1; Fin 2; Fin 3]; [Fin 3; Fin 4; Fin 5]]);
         Spec.pct_band 50
           (Numpy.Array2 3 [[Fin 1; Fin 2; Fin 3]; [Fin 3; Fin 4; Fin 5]])].
Proof.
  assert (H : Forall (fun L => -100 <= L <= 100) [50; 90])
    by (repeat constructor; discriminate).
  split; [exact H |].
  apply (proj1 (proj1 (proj2 (proj2 (proj2 (dispersion_bands
           (Plotter.Options 3 "mean" "pct" [50; 90])
           (Numpy.Array2 3 [[Fin 1; Fin 2; Fin 3]; [Fin 3; Fin 4; Fin 5]])
           [])))) H)).
Defined.

End Dispersion.

(* ================================================================= *)
(** ** Confidence regions *)

Section ConfidenceRegion.
Import Py Float.

Lemma contains_union (gs : list Shapely.geometry) (p : Q * Q) :
  Shapely.contains (Shapely.Union gs) p <->
  exists g, In g gs /\ Shapely.contains g p.
Proof.
  induction gs as [| g gs IH].
  - simpl. split; [contradiction | intros [g [[] _]]].
  - change (Shapely.contains (Shapely.Union (g :: gs)) p)
      with (Shapely.contains g p \/ Shapely.contains (Shapely.Union gs) p).
    rewrite IH. split.
    + intros [H | [g' [Hin H]]].
      * exists g. split; [left; reflexivity | exact H].
      * exists g'. split; [right; exact Hin | exact H].
    + intros [g' [[<- | Hin] H]]; [left; exact H | right; exists g'; auto].
Qed.

(** A unit disk scaled about its centre by non-zero factors is the ellipse
    of these semi-axes. *)
Lemma scaled_disk_ellipse (cx cy sx sy : Q) (p : Q * Q) :
  ~ sx == 0 -> ~ sy == 0 ->
  (Shapely.contains (Spec.scaled_disk cx cy sx sy) p <->
   Spec.ellipse cx cy sx sy p).
Proof.
  intros Hsx Hsy. unfold Spec.scaled_disk, Spec.ellipse.
  cbn [Shapely.contains]. split.
  - intros [[qx qy] [[_ Hq] [Hx Hy]]]. cbn [fst snd] in *.
    assert (Ex : (fst p - cx) / sx == qx - cx) by (rewrite Hx; field; exact Hsx).
    assert (Ey : (snd p - cy) / sy == qy - cy) by (rewrite Hy; field; exact Hsy).
    rewrite Ex, Ey. lra.
  - intros H. exists (cx + (fst p - cx) / sx, cy + (snd p - cy) / sy).
    cbn [fst snd]. split; [split; [lra |] | split].
    + assert (Ex : cx + (fst p - cx) / sx - cx == (fst p - cx) / sx) by ring.
      assert (Ey : cy + (snd p - cy) / sy - cy == (snd p - cy) / sy) by ring.
      rewrite Ex, Ey. lra.
    + field. exact Hsx.
    + field. exact Hsy.
Qed.

Lemma index_Fin (l : list Q) (i : nat) :
  (i < length l)%nat -> Plotter.index (map Fin l) i = inr (Fin (nth i l 0)).
Proof.
  intros Hi. unfold Plotter.index.
  rewrite (nth_error_nth' (map Fin l) (Fin 0)) by (rewrite length_map; exact Hi).
  rewrite (map_nth Fin). reflexivity.
Qed.

(** C9.  For parallel arrays of [n] positions and deviations,
    [generate_confidence_region] returns one region whose points are
    exactly the points of the [n] unit disks centred at [(x_i, y_i)] and
    scaled by [(sx_i, sy_i)] about their own centres; with non-zero
    deviations the [i]-th of them is the ellipse of centre [(x_i, y_i)]
    and semi-axes [sx_i] and [sy_i].  The region need not be connected:
    two unit circles ten apart give a region that has both centres and no
    point between the abscissas 1 and 9. *)
Theorem confidence_region_union (mx my sx sy : list Q) :
  length my = length mx -> length sx = length mx -> length sy = length mx ->
  (exists region,
      Plotter.generate_confidence_region (map Fin mx) (map Fin my)
                                         (map Fin sx) (map Fin sy)
      = inr region /\
      region = Shapely.Union
                 (map (fun i => Spec.scaled_disk (nth i mx 0) (nth i my 0)
                                                 (nth i sx 0) (nth i sy 0))
                      (seq 0 (length mx))) /\
      (forall p,
          Shapely.contains region p <->
          exists i, (i < length mx)%nat /\
                    Shapely.contains
                      (Spec.scaled_disk (nth i mx 0) (nth i my 0)
                                        (nth i sx 0) (nth i sy 0)) p) /\
      (forall p,
          Forall (fun s => ~ s == 0) sx -> Forall (fun s => ~ s == 0) sy ->
          (Shapely.contains region p <->
           exists i, (i < length mx)%nat /\
                     Spec.ellipse (nth i mx 0) (nth i my 0)
                                  (nth i sx 0) (nth i sy 0) p))) /\
  (exists region,
      Plotter.generate_confidence_region [Fin 0; Fin 10] [Fin 0; Fin 0]
                                         [Fin 1; Fin 1] [Fin 1; Fin 1]
      = inr region /\
      Shapely.contains region (0, 0) /\
      Shapely.contains region (10, 0) /\
      forall p, Shapely.contains region p -> fst p <= 1 \/ 9 <= fst p).
Proof.
  intros Hmy Hsx Hsy. split.
  - set (ellipses := map (fun i => Spec.scaled_disk (nth i mx 0) (nth i my 0)
                                                    (nth i sx 0) (nth i sy 0))
                         (seq 0 (length mx))).
    assert (Hcontains : forall p,
               Shapely.contains (Shapely.Union ellipses) p <->
               exists i, (i < length mx)%nat /\
                         Shapely.contains
                           (Spec.scaled_disk (nth i mx 0) (nth i my 0)
                                             (nth i sx 0) (nth i sy 0)) p).
    { intros p. rewrite contains_union. unfold ellipses. split.
      - intros [g [Hin H]]. apply in_map_iff in Hin.
        destruct Hin as [i [<- Hi]]. apply in_seq in Hi.
        exists i. split; [lia | exact H].
      - intros [i [Hi H]]. eexists. split; [| exact H].
        apply in_map_iff. exists i. split; [reflexivity |].
        apply in_seq. lia. }
    exists (Shapely.Union ellipses). split; [| split; [reflexivity | split]].
    + unfold Plotter.generate_confidence_region. rewrite length_map.
      rewrite (for_each_ext _
                 (fun i => ret (Spec.scaled_disk (nth i mx 0) (nth i my 0)
                                                 (nth i sx 0) (nth i sy 0)))).
      * rewrite (for_each_ret
                   (fun i => Spec.scaled_disk (nth i mx 0) (nth i my 0)
                                              (nth i sx 0) (nth i sy 0))).
        reflexivity.
      * intros i Hi. apply in_seq in Hi.
        rewrite !index_Fin by lia. reflexivity.
    + exact Hcontains.
    + intros p Hnx Hny. rewrite Hcontains.
      rewrite Forall_forall in Hnx, Hny.
      split; intros [i [Hi H]]; exists i; (split; [exact Hi |]);
        apply (scaled_disk_ellipse (nth i mx 0) (nth i my 0)
                                   (nth i sx 0) (nth i sy 0) p);
        try (apply Hnx, nth_In; lia); try (apply Hny, nth_In; lia); exact H.
  - eexists. split; [reflexivity |].
    change (Shapely.Union
              [Shapely.Scale (Shapely.PointBuffer (Fin 0) (Fin 0) (Fin 1))
                             (Fin 1) (Fin 1) (Fin 0, Fin 0);
               Shapely.Scale (Shapely.PointBuffer (Fin 10) (Fin 0) (Fin 1))
                             (Fin 1) (Fin 1) (Fin 10, Fin 0)])
      with (Shapely.Union [Spec.scaled_disk 0 0 1 1; Spec.scaled_disk 10 0 1 1]).
    split; [| split].
    + apply contains_union. exists (Spec.scaled_disk 0 0 1 1).
      split; [left; reflexivity |].
      apply scaled_disk_ellipse; [discriminate | discriminate |].
      unfold Spec.ellipse. cbn [fst snd]. vm_compute. discriminate.
    + apply contains_union. exists (Spec.scaled_disk 10 0 1 1).
      split; [right; left; reflexivity |].
      apply scaled_disk_ellipse; [discriminate | discriminate |].
      unfold Spec.ellipse. cbn [fst snd]. vm_compute. discriminate.
    + intros p Hp. apply contains_union in Hp.
      destruct Hp as [g [[<- | [<- | []]] Hg]];
        apply scaled_disk_ellipse in Hg; try discriminate;
        unfold Spec.ellipse in Hg.
      * left.
        assert (E : (fst p - 0) / 1 == fst p) by (field).
        assert (E' : (snd p - 0) / 1 == snd p) by (field).
        rewrite E, E' in Hg. nra.
      * right.
        assert (E : (fst p - 10) / 1 == fst p - 10) by (field).
        assert (E' : (snd p - 0) / 1 == snd p) by (field).
        rewrite E, E' in Hg. nra.
Qed.

End ConfidenceRegion.

(* ================================================================= *)
(** ** The theorems at concrete flights *)

Section Flights.
Import Py Float.
Local Open Scope string_scope.

(** Three samples of a velocity, twenty seconds of flight. *)
Lemma velocity_trajectory :
  Spec.Trajectory
    [("time", [Fin 0; Fin 10; Fin 20]); ("velocity", [Fin 100; Fin 200; Fin 150])]
    "velocity" [0; 10; 20] (map Fin [100; 200; 150]).
Proof.
  unfold Spec.Trajectory.
  split; [reflexivity |]. split; [reflexivity |]. split; [discriminate |].
  split; [reflexivity |]. split; [simpl; lia |].
  repeat constructor.
Defined.

(** Two samples of a heading across the north. *)
Lemma heading_trajectory :
  Spec.Trajectory
    [("time", [Fin 0; Fin 10]); ("heading", [Fin 350; Fin 370])]
    "heading" [0; 10] [Fin 350; Fin 370].
Proof.
  unfold Spec.Trajectory.
  split; [reflexivity |]. split; [reflexivity |]. split; [discriminate |].
  split; [reflexivity |]. split; [simpl; lia |].
  repeat constructor.
Defined.

Lemma circular_reduced_after_interpolation_witness :
  Spec.circular "heading" = true /\
  Spec.Trajectory
    [("time", [Fin 0; Fin 10]); ("heading", [Fin 350; Fin 370])]
    "heading" [0; 10] [Fin 350; Fin 370] /\
  Plotter.plot_quantity (Plotter.Options 5 "mean" "std" [1])
    [("time", [Fin 0; Fin 10]); ("heading", [Fin 350; Fin 370])] "heading"
  = inr (Spec.grid_of (Plotter.Options 5 "mean" "std" [1]) [Fin 0; Fin 10],
         Numpy.mod_
           (map (Numpy.interp1 [(Fin 0, Fin 350); (Fin 10, Fin 370)])
                (Spec.grid_of (Plotter.Options 5 "mean" "std" [1])
                              [Fin 0; Fin 10]))
           (Fin 360)) /\
  map canon
      (Numpy.mod_
         (map (Numpy.interp1 [(Fin 0, Fin 350); (Fin 10, Fin 370)])
              (Spec.grid_of (Plotter.Options 5 "mean" "std" [1])
                            [Fin 0; Fin 10]))
         (Fin 360))
  = [Fin 350; Fin 355; Fin 0; Fin 5; Fin 10].
Proof.
  split; [reflexivity |]. split; [exact heading_trajectory |].
  split; [| reflexivity].
  apply (proj1 (proj2 (proj2 (circular_reduced_after_interpolation
           (Plotter.Options 5 "mean" "std" [1])
           [("time", [Fin 0; Fin 10]); ("heading", [Fin 350; Fin 370])]
           "heading" [0; 10] [350; 370]
           eq_refl heading_trajectory)))).
Defined.

Lemma resampling_spans_trajectory_witness :
  Spec.Trajectory
    [("time", [Fin 0; Fin 10; Fin 20]); ("velocity", [Fin 100; Fin 200; Fin 150])]
    "velocity" [0; 10; 20] (map Fin [100; 200; 150]) /\
  (2 <= 5)%nat /\
  exists gs raw,
    Plotter.plot_quantity (Plotter.Options 5 "mean" "std" [1])
      [("time", [Fin 0; Fin 10; Fin 20]);
       ("velocity", [Fin 100; Fin 200; Fin 150])] "velocity"
    = inr (map Fin gs, raw) /\
    length gs = 5%nat /\
    hd 0 gs == 0 /\
    last gs 0 = 20.
Proof.
  split; [exact velocity_trajectory |]. split; [lia |].
  destruct (resampling_spans_trajectory
              (Plotter.Options 5 "mean" "std" [1])
              [("time", [Fin 0; Fin 10; Fin 20]);
               ("velocity", [Fin 100; Fin 200; Fin 150])]
              "velocity" [0; 10; 20] [100; 200; 150]
              velocity_trajectory ltac:(simpl; lia))
    as [gs [raw [Hplot [Hlen [_ [Hhd [Hlast _]]]]]]].
  exists gs, raw. split; [exact Hplot |]. split; [exact Hlen |].
  split; [exact Hhd | exact Hlast].
Defined.

Lemma resampling_idempotent_below_360_witness :
  Spec.Trajectory
    [("time", [Fin 0; Fin 10]); ("heading", [Fin 350; Fin 370])]
    "heading" [0; 10] [Fin 350; Fin 370] /\
  (1 <= 5)%nat /\
  exists grid values grid' values',
    Plotter.df_interp (Plotter.Options 5 "mean" "std" [1])
      [("time", [Fin 0; Fin 10]); ("heading", [Fin 350; Fin 370])] "heading"
    = inr [("time", grid); ("heading", values)] /\
    Plotter.df_interp (Plotter.Options 5 "mean" "std" [1])
      [("time", grid); ("heading", values)] "heading"
    = inr [("time", grid'); ("heading", values')] /\
    Forall2 feq grid' grid /\
    (Forall (fun v => ~ feq v (Fin 360)) values -> Forall2 feq values' values).
Proof.
  split; [exact heading_trajectory |]. split; [lia |].
  destruct (resampling_idempotent_below_360
              (Plotter.Options 5 "mean" "std" [1])
              [("time", [Fin 0; Fin 10]); ("heading", [Fin 350; Fin 370])]
              "heading" [0; 10] [Fin 350; Fin 370]
              heading_trajectory ltac:(simpl; lia))
    as [grid [values [grid' [values' [H1 [H2 [H3 [_ [_ H4]]]]]]]]].
  exists grid, values, grid', values'.
  split; [exact H1 |]. split; [exact H2 |]. split; [exact H3 | exact H4].
Defined.

Lemma confidence_region_union_witness :
  exists region,
    Plotter.generate_confidence_region
      (map Fin [0; 1; 2]) (map Fin [0; 0; 0])
      (map Fin [1; 1; 1]) (map Fin [1; 2; 1])
    = inr region /\
    region = Shapely.Union
               [Spec.scaled_disk 0 0 1 1; Spec.scaled_disk 1 0 1 2;
                Spec.scaled_disk 2 0 1 1].
Proof.
  destruct (proj1 (confidence_region_union [0; 1; 2] [0; 0; 0] [1; 1; 1] [1; 2; 1]
                     eq_refl eq_refl eq_refl))
    as [region [Hgen [Hregion _]]].
  exists region. split; [exact Hgen | exact Hregion].
Defined.

End Flights.

(* ================================================================= *)
(** ** The order of the levels *)

Section Levels.
Import Py Float.

Lemma insert_In (x y : Q) (l : list Q) :
  In y (Plotter.insert x l) -> y = x \/ In y l.
Proof.
  intros H. apply (Permutation_in y (insert_perm x l)) in H.
  destruct H as [H | H]; [left; symmetry; exact H | right; exact H].
Qed.

Lemma insert_sorted_Qle (x : Q) (l : list Q) :
  StronglySorted Qle l -> StronglySorted Qle (Plotter.insert x l).
Proof.
  induction l as [| y l IH]; intros Hs; simpl.
  - repeat constructor.
  - apply StronglySorted_inv in Hs. destruct Hs as [Hs Hall].
    destruct (Qle_bool x y) eqn:E.
    + apply Qle_bool_iff in E. constructor.
      * constructor; assumption.
      * constructor; [exact E |].
        rewrite Forall_forall in Hall |- *. intros z Hz.
        apply Qle_trans with y; [exact E | apply Hall; exact Hz].
    + apply Qle_bool_false in E. constructor; [apply IH; exact Hs |].
      rewrite Forall_forall in Hall |- *. intros z Hz.
      apply insert_In in Hz. destruct Hz as [-> | Hz];
        [apply Qlt_le_weak; exact E | apply Hall; exact Hz].
Qed.

Lemma sorted_ascending (l : list Q) : StronglySorted Qle (Plotter.sorted l).
Proof.
  unfold Plotter.sorted. induction l as [| x l IH]; simpl;
    [constructor | apply insert_sorted_Qle; exact IH].
Qed.

Lemma rev_sorted (l : list Q) :
  StronglySorted Qle l -> StronglySorted (fun a b => b <= a) (rev l).
Proof.
  induction l as [| x l IH]; intros Hs; simpl; [constructor |].
  apply StronglySorted_inv in Hs. destruct Hs as [Hs Hall].
  specialize (IH Hs).
  assert (Happ : forall l1,
             StronglySorted (fun a b => b <= a) l1 ->
             Forall (fun z => x <= z) l1 ->
             StronglySorted (fun a b => b <= a) (l1 ++ [x])).
  { induction l1 as [| z l1 IH1]; intros Hs1 Hge; simpl.
    - repeat constructor.
    - apply StronglySorted_inv in Hs1. destruct Hs1 as [Hs1 Hall1].
      inversion Hge as [| ? ? Hz Hge']; subst.
      constructor; [apply IH1; assumption |].
      apply Forall_app. split; [exact Hall1 | repeat constructor; exact Hz]. }
  apply Happ; [exact IH |].
  rewrite Forall_forall in Hall |- *. intros z Hz. apply Hall.
  apply in_rev. exact Hz.
Qed.

Lemma descending_nth (l : list Q) :
  StronglySorted (fun a b => b <= a) l ->
  forall i j, (i <= j < length l)%nat -> nth j l 0 <= nth i l 0.
Proof.
  intros Hs. induction Hs as [| x l Hs IH Hall]; intros i j Hij;
    [simpl in Hij; lia |].
  destruct j as [| j]; [replace i with 0%nat by lia; apply Qle_refl |].
  destruct i as [| i].
  - cbn [nth]. rewrite Forall_forall in Hall. apply Hall, nth_In.
    simpl in Hij. lia.
  - cbn [nth]. apply IH. simpl in Hij. lia.
Qed.

Lemma sigmas_nth_descending (self : Plotter.options) (i j : nat) :
  (i <= j < length (Plotter.deviation_values self))%nat ->
  nth j (Plotter.sigmas self) 0 <= nth i (Plotter.sigmas self) 0.
Proof.
  intros Hij. apply descending_nth; [apply rev_sorted, sorted_ascending |].
  rewrite (Permutation_length (sigmas_perm self)). exact Hij.
Qed.

(** The levels are processed from the widest to the narrowest, each one
    once: [sigmas] is the list of the configured levels in descending
    order. *)
Theorem sigmas_descending (self : Plotter.options) :
  StronglySorted (fun a b => b <= a) (Plotter.sigmas self) /\
  Permutation (Plotter.sigmas self) (Plotter.deviation_values self) /\
  forall i j,
    (i <= j < length (Plotter.deviation_values self))%nat ->
    nth j (Plotter.sigmas self) 0 <= nth i (Plotter.sigmas self) 0.
Proof.
  split; [apply rev_sorted, sorted_ascending |].
  split; [apply sigmas_perm |].
  intros i j Hij. apply sigmas_nth_descending. exact Hij.
Qed.

End Levels.

(* ================================================================= *)
(** ** Statistics of finite stacks *)

Section FiniteStatistics.
Import Py Float.
Local Open Scope string_scope.

Lemma fold_fadd_Fin (qs : list Q) (acc : Q) :
  fold_left fadd (map Fin qs) (Fin acc) = Fin (fold_left Qplus qs acc).
Proof.
  revert acc. induction qs as [| q qs IH]; intros acc; [reflexivity |].
  cbn [map fold_left fadd]. apply IH.
Qed.

Lemma mean_finite (qs : list Q) :
  qs <> [] -> Numpy.mean (map Fin qs) = Fin (Spec.Qmean qs).
Proof.
  intros Hne. unfold Numpy.mean, Numpy.sum, Spec.Qmean, Spec.Qsum.
  rewrite fold_fadd_Fin, length_map. unfold of_nat. cbn [fdiv].
  destruct qs as [| q qs]; [contradiction |].
  cbn [length]. rewrite (Qeq_bool_pos _ (inject_nat_pos (length qs))).
  reflexivity.
Qed.

Lemma fold_Qplus_nonneg (qs : list Q) (acc : Q) :
  0 <= acc -> Forall (fun q => 0 <= q) qs -> 0 <= fold_left Qplus qs acc.
Proof.
  revert acc. induction qs as [| q qs IH]; intros acc Hacc Hall; [exact Hacc |].
  inversion Hall as [| ? ? Hq Hall']; subst. cbn [fold_left].
  apply IH; [lra | exact Hall'].
Qed.

Lemma Qmean_nonneg (qs : list Q) :
  Forall (fun q => 0 <= q) qs -> 0 <= Spec.Qmean qs.
Proof.
  intros Hall. unfold Spec.Qmean, Spec.Qsum.
  pose proof (fold_Qplus_nonneg qs 0 (Qle_refl 0) Hall) as Hs.
  destruct qs as [| q qs].
  - cbn. discriminate.
  - apply Qle_shift_div_l; [apply inject_nat_pos | lra].
Qed.

Lemma Qsqrt_nonneg (q : Q) : 0 <= Qsqrt q.
Proof.
  unfold Qsqrt, Qle. cbn [Qnum Qden]. rewrite Z.mul_1_r.
  cbn [Z.mul]. apply Z.sqrt_nonneg.
Qed.

(** The standard deviation of finite values is finite and not negative. *)
Lemma std_finite (qs : list Q) :
  qs <> [] ->
  Numpy.std (map Fin qs) = Fin (Spec.Qstd qs) /\ 0 <= Spec.Qstd qs.
Proof.
  intros Hne. split; [| apply Qsqrt_nonneg].
  unfold Numpy.std. rewrite (mean_finite qs Hne). rewrite map_map.
  cbn [fsub fneg fadd fmul].
  rewrite <- (map_map (fun q => (q + - Spec.Qmean qs) * (q + - Spec.Qmean qs)) Fin).
  rewrite mean_finite by (destruct qs; [contradiction | discriminate]).
  cbn [fsqrt].
  assert (Hpos : 0 <= Spec.Qmean
                        (map (fun q => (q + - Spec.Qmean qs) * (q + - Spec.Qmean qs))
                             qs)).
  { apply Qmean_nonneg. apply Forall_forall. intros z Hz.
    apply in_map_iff in Hz. destruct Hz as [q [<- _]].
    set (d := q + - Spec.Qmean qs). nra. }
  rewrite (proj2 (Qle_bool_iff _ _) Hpos). reflexivity.
Qed.

Lemma column_finite (m : nat) (qrows : list (list Q)) (k : nat) :
  Forall (fun r => length r = m) qrows -> (k < m)%nat ->
  Numpy.column k (Spec.finite_stack m qrows)
  = map Fin (map (fun r => nth k r 0) qrows).
Proof.
  intros Hall Hk. unfold Numpy.column, Spec.finite_stack. cbn [Numpy.rows].
  rewrite !map_map. apply map_ext_in. intros r Hr.
  rewrite Forall_forall in Hall.
  rewrite (nth_indep _ NaN (Fin 0)) by (rewrite length_map, (Hall r Hr); exact Hk).
  apply (map_nth Fin).
Qed.

Lemma axis0_std_finite (m : nat) (qrows : list (list Q)) :
  qrows <> [] -> Forall (fun r => length r = m) qrows ->
  Numpy.axis0 Numpy.std (Spec.finite_stack m qrows)
  = map Fin (map (fun k => Spec.Qstd (map (fun r => nth k r 0) qrows)) (seq 0 m)).
Proof.
  intros Hne Hall. unfold Numpy.axis0, Numpy.columns.
  change (Numpy.ncols (Spec.finite_stack m qrows)) with m.
  rewrite !map_map. apply map_ext_in. intros k Hk. apply in_seq in Hk.
  rewrite (column_finite m qrows k Hall) by lia.
  apply std_finite. destruct qrows; [contradiction | discriminate].
Qed.

(** In mode std, on a stack of finite values, the bands are finite and
    ordered like their levels: the band of a level that comes earlier
    (a wider one) is nowhere below the band of a level that comes later. *)
Theorem std_bands_ordered (self : Plotter.options) (m : nat)
    (qrows : list (list Q)) :
  Plotter.deviation_measure self = "std" ->
  qrows <> [] -> Forall (fun r => length r = m) qrows ->
  exists bands,
    Plotter.deviation self (Spec.finite_stack m qrows) = inr bands /\
    length bands = length (Plotter.deviation_values self) /\
    forall i j k,
      (i <= j < length bands)%nat -> (k < m)%nat ->
      exists a b,
        nth k (nth i bands []) NaN = Fin a /\
        nth k (nth j bands []) NaN = Fin b /\
        b <= a /\
        a == nth i (Plotter.sigmas self) 0
             * Spec.Qstd (map (fun r => nth k r 0) qrows).
Proof.
  intros Hstd Hne Hall.
  set (stds := map (fun k => Spec.Qstd (map (fun r => nth k r 0) qrows)) (seq 0 m)).
  assert (Hlen : length (Plotter.sigmas self)
                 = length (Plotter.deviation_values self))
    by (apply Permutation_length, sigmas_perm).
  exists (map (fun L => map Fin (map (Qmult L) stds)) (Plotter.sigmas self)).
  split; [| split].
  - unfold Plotter.deviation. rewrite Hstd.
    cbn [String.eqb Ascii.eqb Bool.eqb ret].
    rewrite (axis0_std_finite m qrows Hne Hall). fold stds.
    f_equal. apply map_ext. intros L. rewrite !map_map. reflexivity.
  - rewrite length_map. exact Hlen.
  - intros i j k Hij Hk. rewrite length_map in Hij.
    assert (Hband : forall n, (n < length (Plotter.sigmas self))%nat ->
              nth k (nth n (map (fun L => map Fin (map (Qmult L) stds))
                                (Plotter.sigmas self)) []) NaN
              = Fin (nth n (Plotter.sigmas self) 0
                     * Spec.Qstd (map (fun r => nth k r 0) qrows))).
    { intros n Hn.
      rewrite (nth_indep _ [] (map Fin (map (Qmult 0) stds)))
        by (rewrite length_map; exact Hn).
      rewrite (map_nth (fun L => map Fin (map (Qmult L) stds))).
      rewrite (nth_indep _ NaN (Fin 0))
        by (unfold stds; rewrite !length_map, length_seq; exact Hk).
      rewrite (map_nth Fin).
      rewrite (nth_indep _ 0 (nth n (Plotter.sigmas self) 0 * 0))
        by (unfold stds; rewrite !length_map, length_seq; exact Hk).
      rewrite (map_nth (Qmult (nth n (Plotter.sigmas self) 0))).
      unfold stds.
      rewrite (nth_indep (map _ (seq 0 m)) 0
                         (Spec.Qstd (map (fun r => nth 0 r 0) qrows)))
        by (rewrite length_map, length_seq; exact Hk).
      rewrite (map_nth (fun k => Spec.Qstd (map (fun r => nth k r 0) qrows))).
      rewrite seq_nth by exact Hk. reflexivity. }
    eexists. eexists.
    split; [apply Hband; lia |]. split; [apply Hband; lia |].
    split; [| reflexivity].
    apply Qmult_le_compat_r.
    + apply sigmas_nth_descending. lia.
    + apply Qsqrt_nonneg.
Qed.

Lemma std_bands_ordered_witness :
  Plotter.deviation_measure (Plotter.Options 3 "mean" "std" [1; 2]) = "std" /\
  [[1; 2; 3]; [3; 4; 5]] <> [] /\
  Forall (fun r : list Q => length r = 3%nat) [[1; 2; 3]; [3; 4; 5]] /\
  exists bands,
    Plotter.deviation (Plotter.Options 3 "mean" "std" [1; 2])
      (Spec.finite_stack 3 [[1; 2; 3]; [3; 4; 5]]) = inr bands /\
    length bands = 2%nat.
Proof.
  assert (H : Forall (fun r : list Q => length r = 3%nat) [[1; 2; 3]; [3; 4; 5]])
    by (repeat constructor).
  split; [reflexivity |]. split; [discriminate |]. split; [exact H |].
  destruct (std_bands_ordered (Plotter.Options 3 "mean" "std" [1; 2]) 3
              [[1; 2; 3]; [3; 4; 5]] eq_refl ltac:(discriminate) H)
    as [bands [Hd [Hl _]]].
  exists bands. split; [exact Hd | exact Hl].
Defined.

End FiniteStatistics.

(* ================================================================= *)
(** ** Stacks without and with NaN *)

Section MaskedStacks.
Import Py Float.
Local Open Scope string_scope.

Variable gaussian_kde :
  list (float * float) -> Py.result (float * float -> float).

Lemma select_all {A} (n : list nat) (r : list A) :
  length r = length n -> Numpy.select (map (fun _ => true) n) r = r.
Proof.
  revert r. induction n as [| k n IH]; intros [| x r] H; try discriminate H;
    [reflexivity |].
  cbn [map Numpy.select]. f_equal. apply IH. injection H as H. exact H.
Qed.

Lemma select_length {A} (mask : list bool) (r : list A) :
  length r = length mask ->
  length (Numpy.select mask r) = length (filter (fun b => b) mask).
Proof.
  revert r. induction mask as [| b mask IH]; intros [| x r] H;
    try discriminate H; [reflexivity |].
  injection H as H. cbn [Numpy.select filter].
  destruct b; cbn [length]; rewrite (IH r H); reflexivity.
Qed.

Lemma all_true_length {A} (l : list A) :
  length (filter (fun b : bool => b) (map (fun _ => true) l)) = length l.
Proof.
  induction l as [| x l IH]; simpl; [reflexivity | rewrite IH; reflexivity].
Qed.

Lemma any_isnan_length (ys : Numpy.ndarray2) :
  length (map negb (Numpy.any_isnan_axis0 ys)) = Numpy.ncols ys.
Proof.
  unfold Numpy.any_isnan_axis0, Numpy.columns.
  rewrite !length_map, length_seq. reflexivity.
Qed.

Lemma mask_all_true (ys : Numpy.ndarray2) :
  Forall (fun r => length r = Numpy.ncols ys) (Numpy.rows ys) ->
  Forall (Forall (fun v => isnan v = false)) (Numpy.rows ys) ->
  map negb (Numpy.any_isnan_axis0 ys)
  = map (fun _ => true) (seq 0 (Numpy.ncols ys)).
Proof.
  intros Hwf Hfin. unfold Numpy.any_isnan_axis0, Numpy.columns.
  rewrite !map_map. apply map_ext_in. intros k Hk. apply in_seq in Hk.
  apply negb_true_iff.
  destruct (existsb isnan (Numpy.column k ys)) eqn:E; [| reflexivity].
  apply existsb_exists in E. destruct E as [v [Hv Hnan]].
  unfold Numpy.column in Hv. apply in_map_iff in Hv.
  destruct Hv as [r [<- Hr]].
  rewrite Forall_forall in Hwf, Hfin.
  pose proof (Hfin r Hr) as Hrow. rewrite Forall_forall in Hrow.
  rewrite (Hrow (nth k r NaN)) in Hnan; [discriminate |].
  apply nth_In. rewrite (Hwf r Hr). lia.
Qed.

(** The masked stack is rectangular and holds no NaN. *)
Lemma mask_columns_clean (ys : Numpy.ndarray2) :
  Forall (fun r => length r = Numpy.ncols ys) (Numpy.rows ys) ->
  Forall (fun r => length r = Numpy.ncols (Plotter.mask_columns ys))
         (Numpy.rows (Plotter.mask_columns ys)) /\
  Forall (Forall (fun v => isnan v = false))
         (Numpy.rows (Plotter.mask_columns ys)).
Proof.
  intros Hwf. rewrite Forall_forall in Hwf.
  unfold Plotter.mask_columns, Numpy.take_columns. cbn [Numpy.rows Numpy.ncols].
  split; apply Forall_forall; intros row Hrow;
    apply in_map_iff in Hrow; destruct Hrow as [r [<- Hr]].
  - apply select_length. rewrite any_isnan_length. apply Hwf, Hr.
  - rewrite (select_indices NaN)
      by (rewrite any_isnan_length; apply Hwf, Hr).
    rewrite any_isnan_length, mask_indices.
    apply Forall_forall. intros v Hv. apply in_map_iff in Hv.
    destruct Hv as [k [<- Hk]]. apply kept_columns_spec in Hk.
    destruct Hk as [_ Hall]. apply Hall, Hr.
Qed.

Lemma mask_columns_nan_free (a : Numpy.ndarray2) :
  Forall (fun r => length r = Numpy.ncols a) (Numpy.rows a) ->
  Forall (Forall (fun v => isnan v = false)) (Numpy.rows a) ->
  Plotter.mask_columns a = a.
Proof.
  intros Hwf Hfin. unfold Plotter.mask_columns, Numpy.take_columns.
  rewrite (mask_all_true a Hwf Hfin). destruct a as [n rows].
  cbn [Numpy.ncols Numpy.rows] in *. f_equal.
  - rewrite all_true_length, length_seq. reflexivity.
  - rewrite <- (map_id rows) at 2. apply map_ext_in. intros r Hr.
    apply select_all. rewrite length_seq.
    rewrite Forall_forall in Hwf. apply Hwf, Hr.
Qed.

(** Masking leaves a stack without NaN as it is, and masking twice is
    masking once. *)
Theorem mask_columns_idempotent (ys : Numpy.ndarray2) :
  Forall (fun r => length r = Numpy.ncols ys) (Numpy.rows ys) ->
  (Forall (Forall (fun v => isnan v = false)) (Numpy.rows ys) ->
   Plotter.mask_columns ys = ys) /\
  Plotter.mask_columns (Plotter.mask_columns ys) = Plotter.mask_columns ys.
Proof.
  intros Hwf. split; [apply mask_columns_nan_free; exact Hwf |].
  destruct (mask_columns_clean ys Hwf) as [Hwf' Hfin'].
  apply mask_columns_nan_free; assumption.
Qed.

Lemma mask_columns_ncols (ys : Numpy.ndarray2) :
  Numpy.ncols (Plotter.mask_columns ys) = length (Spec.kept_columns ys).
Proof.
  unfold Plotter.mask_columns, Numpy.take_columns. cbn [Numpy.ncols].
  unfold Numpy.any_isnan_axis0, Numpy.columns, Spec.kept_columns.
  rewrite !map_map. apply filter_true_map.
Qed.

Lemma filter_length_lt {A} (f : A -> bool) (l : list A) (x : A) :
  In x l -> f x = false -> (length (filter f l) < length l)%nat.
Proof.
  induction l as [| y l IH]; intros Hin Hx; [contradiction |].
  cbn [filter length]. destruct Hin as [-> | Hin].
  - rewrite Hx. pose proof (filter_length_le f l). lia.
  - specialize (IH Hin Hx). destruct (f y); cbn [length]; lia.
Qed.

Lemma concat_length_const {A} (l : list (list A)) (c : nat) :
  Forall (fun r => length r = c) l -> length (concat l) = (length l * c)%nat.
Proof.
  induction 1 as [| r l Hr _ IH]; [reflexivity |].
  cbn [concat length]. rewrite length_app, Hr, IH. lia.
Qed.

(** [plot_quantity_multi] never draws a masked stack.  When a trajectory
    of the stack holds a NaN, the masked stack has fewer columns than the
    time axis and stacking both with [np.vstack] raises a [ValueError]; a
    stack without NaN goes unchanged, with the tiled time axis, to the
    density step. *)
Theorem plot_quantity_multi_on_nan (self : Plotter.options)
    (files : list Pandas.DataFrame) (quantity : string)
    (ys : Numpy.ndarray2) (total_ts : list float) :
  Plotter.stack self files quantity = inr (ys, total_ts) ->
  ((exists r k, In r (Numpy.rows ys) /\ (k < Numpy.ncols ys)%nat /\
                isnan (nth k r NaN) = true) ->
   Plotter.plot_quantity_multi gaussian_kde self files quantity
   = inl (ValueError
       "all the input array dimensions except for the concatenation axis must match exactly")) /\
  (Forall (Forall (fun v => isnan v = false)) (Numpy.rows ys) ->
   let xs := Numpy.linspace (Fin 0) (Numpy.mean total_ts)
                            (Plotter.point_precision self) in
   Plotter.plot_quantity_multi gaussian_kde self files quantity
   = bind (Plotter.density_weights gaussian_kde
             (combine (concat (map (fun _ => xs) (Numpy.rows ys)))
                      (concat (Numpy.rows ys))))
          (fun colors_value => ret (xs, ys, colors_value))).
Proof.
  intros Hstack. destruct (stack_rectangular _ _ _ _ _ Hstack) as [Hcols Hwf].
  split.
  - intros [r [k [Hr [Hk Hnan]]]].
    unfold Plotter.plot_quantity_multi. rewrite Hstack. cbn [bind fst snd].
    destruct (mask_columns_clean ys Hwf) as [Hwf' _].
    unfold Plotter.vstack2.
    rewrite (concat_length_const _ _ Hwf').
    rewrite (concat_length_const _ (Plotter.point_precision self))
      by (apply Forall_forall; intros x Hx; apply in_map_iff in Hx;
          destruct Hx as [? [<- _]]; apply linspace_length).
    rewrite length_map, mask_columns_ncols.
    assert (Hlt : (length (Spec.kept_columns ys) < Plotter.point_precision self)%nat).
    { rewrite <- Hcols. unfold Spec.kept_columns.
      apply Nat.lt_le_trans with (length (seq 0 (Numpy.ncols ys)));
        [| rewrite length_seq; apply Nat.le_refl].
      apply (filter_length_lt _ _ k); [apply in_seq; lia |].
      apply negb_false_iff, existsb_exists. exists (nth k r NaN).
      split; [| exact Hnan]. unfold Numpy.column. apply in_map_iff.
      exists r. auto. }
    assert (Hrows : (0 < length (Numpy.rows (Plotter.mask_columns ys)))%nat).
    { unfold Plotter.mask_columns, Numpy.take_columns. cbn [Numpy.rows].
      rewrite length_map. destruct (Numpy.rows ys); [contradiction | simpl; lia]. }
    rewrite (proj2 (Nat.eqb_neq _ _)) by nia. reflexivity.
  - intros Hfin xs. unfold Plotter.plot_quantity_multi.
    rewrite Hstack. cbn [bind fst snd].
    rewrite (mask_columns_nan_free ys Hwf Hfin). fold xs.
    unfold Plotter.vstack2.
    rewrite (concat_length_const _ _ Hwf).
    rewrite (concat_length_const _ (Plotter.point_precision self))
      by (apply Forall_forall; intros x Hx; apply in_map_iff in Hx;
          destruct Hx as [? [<- _]]; apply linspace_length).
    rewrite length_map, Hcols, Nat.eqb_refl. reflexivity.
Qed.

Lemma expectation_length (self : Plotter.options) (a : Numpy.ndarray2)
    (total_ts : list float) (name : string) (e : list float) (t_final : float) :
  Plotter.expectation self a total_ts = inr (name, e, t_final) ->
  length e = Numpy.ncols a.
Proof.
  unfold Plotter.expectation.
  destruct (Plotter.expectation_measure self =? "mean");
    [intros H; injection H as _ <- _;
     unfold Numpy.axis0, Numpy.columns; rewrite !length_map; apply length_seq |].
  destruct (Plotter.expectation_measure self =? "median");
    [intros H; injection H as _ <- _;
     unfold Numpy.axis0, Numpy.columns; rewrite !length_map; apply length_seq |].
  destruct (Plotter.expectation_measure self =? "average"); [| discriminate].
  rewrite average_axis0_unweighted. cbn [bind ret Numpy.average].
  intros H; injection H as _ <- _.
  unfold Numpy.axis0, Numpy.columns; rewrite !length_map; apply length_seq.
Qed.

Lemma deviation_length (self : Plotter.options) (a : Numpy.ndarray2)
    (sigma : list (list float)) :
  Plotter.deviation self a = inr sigma ->
  length sigma = length (Plotter.deviation_values self) /\
  Forall (fun band => length band = Numpy.ncols a) sigma.
Proof.
  pose proof (Permutation_length (sigmas_perm self)) as Hlen.
  unfold Plotter.deviation.
  destruct (Plotter.deviation_measure self =? "std").
  - intros H. injection H as <-. rewrite length_map. split; [exact Hlen |].
    apply Forall_forall. intros band Hb. apply in_map_iff in Hb.
    destruct Hb as [L [<- _]].
    unfold Numpy.axis0, Numpy.columns. rewrite !length_map. apply length_seq.
  - destruct (Plotter.deviation_measure self =? "pct"); [| discriminate].
    intros H. apply for_each_inr in H. split.
    + rewrite <- (Forall2_length H). exact Hlen.
    + clear Hlen. induction H as [| L band Ls bands HL _ IH]; constructor;
        [| exact IH].
      apply bind_inr in HL. destruct HL as [hi [Hhi HL]].
      apply bind_inr in HL. destruct HL as [lo [Hlo HL]].
      injection HL as <-. unfold Numpy.percentile_axis0 in Hhi, Hlo.
      destruct (negb (Numpy.percentile_valid (50 + L / 2))); [discriminate |].
      destruct (negb (Numpy.percentile_valid (50 - L / 2))); [discriminate |].
      injection Hhi as <-. injection Hlo as <-.
      unfold Plotter.half_width, Numpy.columns.
      rewrite length_map, length_combine, !length_map, length_seq.
      apply Nat.min_id.
Qed.

(** What [plot_quantity_shaded] hands to the drawing calls: a time axis of
    as many points as the grid, and an expectation path and one band per
    level that have one value per column left by the masking.  They have
    the length of the time axis only when no column was masked. *)
Theorem plot_quantity_shaded_shapes (self : Plotter.options)
    (files : list Pandas.DataFrame) (quantity : string)
    (ts : list float) (name : string) (e : list float)
    (sigma : list (list float)) :
  Plotter.plot_quantity_shaded self files quantity = inr (ts, name, e, sigma) ->
  exists ys total_ts,
    Plotter.stack self files quantity = inr (ys, total_ts) /\
    length ts = Plotter.point_precision self /\
    length e = length (Spec.kept_columns ys) /\
    length sigma = length (Plotter.deviation_values self) /\
    Forall (fun band => length band = length e) sigma /\
    (length e <= length ts)%nat /\
    (length e = length ts <->
     forall k, (k < Plotter.point_precision self)%nat ->
               In k (Spec.kept_columns ys)).
Proof.
  unfold Plotter.plot_quantity_shaded. intros H.
  apply bind_inr in H. destruct H as [[ys total_ts] [Hstack H]].
  cbn [fst snd] in H. apply bind_inr in H.
  destruct H as [[[[name' e'] t_final] sigma'] [Hagg H]].
  injection H as <- <- <- <-.
  unfold Plotter.aggregate in Hagg. apply bind_inr in Hagg.
  destruct Hagg as [[[n1 e1] t1] [Hexp Hagg]].
  apply bind_inr in Hagg. destruct Hagg as [s1 [Hdev Hagg]].
  injection Hagg as <- <- <- <-.
  apply expectation_length in Hexp. apply deviation_length in Hdev.
  rewrite mask_columns_ncols in Hexp, Hdev.
  destruct (stack_rectangular _ _ _ _ _ Hstack) as [Hcols _].
  assert (Hle : (length (Spec.kept_columns ys) <= Plotter.point_precision self)%nat).
  { rewrite <- Hcols. unfold Spec.kept_columns.
    apply Nat.le_trans with (length (seq 0 (Numpy.ncols ys)));
      [apply filter_length_le | rewrite length_seq; apply Nat.le_refl]. }
  exists ys, total_ts. rewrite linspace_length, Hexp.
  split; [exact Hstack |]. split; [reflexivity |]. split; [reflexivity |].
  split; [apply Hdev |]. split; [apply Hdev |]. split; [exact Hle |].
  split.
  - intros Heq k Hk. unfold Spec.kept_columns in *.
    destruct (negb (existsb isnan (Numpy.column k ys))) eqn:E.
    + apply filter_In. split; [apply in_seq; lia | exact E].
    + exfalso.
      assert (Hlt : (length (filter (fun k => negb (existsb isnan (Numpy.column k ys)))
                                    (seq 0 (Numpy.ncols ys)))
                     < length (seq 0 (Numpy.ncols ys)))%nat)
        by (apply (filter_length_lt _ _ k); [apply in_seq; lia | exact E]).
      rewrite length_seq in Hlt. lia.
  - intros Hall. apply Nat.le_antisymm; [exact Hle |].
    rewrite <- Hcols. unfold Spec.kept_columns in *.
    apply Nat.le_trans with (length (seq 0 (Numpy.ncols ys)));
      [rewrite length_seq; apply Nat.le_refl |].
    apply Nat.eq_le_incl. f_equal. symmetry.
    apply forallb_filter_id.
    apply forallb_forall. intros k Hk. apply in_seq in Hk.
    specialize (Hall k ltac:(lia)). apply filter_In in Hall. apply Hall.
Qed.

End MaskedStacks.

(* ================================================================= *)
(** ** Limits of the axes *)

Section Axes.
Import Py Float.

Lemma fold_fmax2_finite (qs : list Q) (x : Q) :
  exists m, fold_left Numpy.fmax2 (map Fin qs) (Fin x) = Fin m /\ In m (x :: qs).
Proof.
  revert x. induction qs as [| q qs IH]; intros x.
  - exists x. split; [reflexivity | left; reflexivity].
  - cbn [map fold_left]. unfold Numpy.fmax2 at 2. cbn [isnan orb fleb].
    destruct (Qle_bool x q).
    + destruct (IH q) as [m [Hm Hin]]. exists m. split; [exact Hm |].
      right. exact Hin.
    + destruct (IH x) as [m [Hm Hin]]. exists m. split; [exact Hm |].
      destruct Hin as [<- | Hin]; [left; reflexivity | right; right; exact Hin].
Qed.

Lemma fold_fmin2_finite (qs : list Q) (x : Q) :
  exists m, fold_left Numpy.fmin2 (map Fin qs) (Fin x) = Fin m /\ In m (x :: qs).
Proof.
  revert x. induction qs as [| q qs IH]; intros x.
  - exists x. split; [reflexivity | left; reflexivity].
  - cbn [map fold_left]. unfold Numpy.fmin2 at 2. cbn [isnan orb fleb].
    destruct (Qle_bool x q).
    + destruct (IH x) as [m [Hm Hin]]. exists m. split; [exact Hm |].
      destruct Hin as [<- | Hin]; [left; reflexivity | right; right; exact Hin].
    + destruct (IH q) as [m [Hm Hin]]. exists m. split; [exact Hm |].
      right. exact Hin.
Qed.

(** The limits of an axis.  For finite data they are the least and the
    greatest value moved outwards by a tenth of the range, so every value
    drawn lies within them; an axis without data has no limits, the
    maximum raises. *)
Theorem axis_limits_contain_data (qs : list Q) :
  qs <> [] ->
  (exists lo hi mn mx,
      Plotter.axis_limits (map Fin qs) = inr (Fin lo, Fin hi) /\
      In mn qs /\ In mx qs /\
      lo == mn - (mx - mn) / 10 /\
      hi == mx + (mx - mn) / 10 /\
      forall q, In q qs -> lo <= q <= hi) /\
  Plotter.axis_limits []
  = inl (ValueError
           "zero-size array to reduction operation maximum which has no identity").
Proof.
  intros Hne. split; [| reflexivity].
  destruct qs as [| x qs]; [contradiction |].
  destruct (fold_fmax2_finite qs x) as [mx [Hmx Hinx]].
  destruct (fold_fmin2_finite qs x) as [mn [Hmn Hinn]].
  assert (Hbetween : forall q, In q (x :: qs) -> mn <= q <= mx).
  { intros q Hq.
    destruct (between_extrema (map Fin (x :: qs)) mn mx) with (v := Fin q)
      as [q' [E Hq']].
    - cbn [map Numpy.min ret]. rewrite Hmn. reflexivity.
    - cbn [map Numpy.max ret]. rewrite Hmx. reflexivity.
    - apply in_map. exact Hq.
    - injection E as <-. exact Hq'. }
  exists (mn + - ((mx + - mn) / 10)), (mx + (mx + - mn) / 10), mn, mx.
  split; [| split; [exact Hinn | split; [exact Hinx | split; [| split]]]].
  - unfold Plotter.axis_limits. cbn [map Numpy.max Numpy.min ret bind].
    rewrite Hmx, Hmn. reflexivity.
  - reflexivity.
  - reflexivity.
  - intros q Hq. destruct (Hbetween q Hq) as [H1 H2].
    pose proof (Hbetween mn Hinn) as [_ Hrange].
    assert (Er : (mx + - mn) / 10 == (mx + - mn) * (1 # 10)) by field.
    rewrite Er. lra.
Qed.

End Axes.

(* ================================================================= *)
(** ** The ends of a resampled series *)

Section Endpoints.
Import Py Float.
Local Open Scope string_scope.

Lemma last_nth {A} (l : list A) (d : A) : last l d = nth (length l - 1) l d.
Proof.
  induction l as [| x l IH]; [reflexivity |].
  destruct l as [| y l]; [reflexivity |].
  change (last (x :: y :: l) d) with (last (y :: l) d). rewrite IH.
  cbn [length]. replace (S (S (length l)) - 1)%nat with (S (length l)) by lia.
  replace (S (length l) - 1)%nat with (length l) by lia. reflexivity.
Qed.

Lemma hd_nth0 {A} (l : list A) (d : A) : hd d l = nth 0 l d.
Proof. destruct l; reflexivity. Qed.

(** On a trajectory, and for at least two grid points, the interpolated
    series starts with the first sample and ends with the last one. *)
Lemma interpolated_ends (self : Plotter.options) (ts : list Q)
    (fp : list float) :
  StronglySorted Qlt ts -> (2 <= length ts)%nat -> length fp = length ts ->
  (2 <= Plotter.point_precision self)%nat ->
  length (Spec.interpolated self (map Fin ts) fp) = Plotter.point_precision self /\
  hd NaN (Spec.interpolated self (map Fin ts) fp) = hd NaN fp /\
  last (Spec.interpolated self (map Fin ts) fp) NaN = last fp NaN.
Proof.
  intros Hs Hlen2 Hlen HM.
  assert (Hnil : ts <> []) by (destruct ts; [simpl in Hlen2; lia | discriminate]).
  unfold Spec.interpolated. rewrite (grid_of_finite self ts Hnil).
  destruct (Plotter.point_precision self) as [| [| d]] eqn:EM; try lia.
  set (gs := Spec.Qlinspace (hd 0 ts) (last ts 0) (S (S d))).
  assert (Hgl : length gs = S (S d)) by apply Qlinspace_length.
  rewrite !length_map. split; [exact Hgl |]. rewrite map_map. split.
  - rewrite !hd_nth0.
    rewrite (nth_indep _ NaN
               (Numpy.interp1 (combine (map Fin ts) fp) (Fin 0)))
      by (rewrite length_map; lia).
    rewrite (map_nth (fun x => Numpy.interp1 (combine (map Fin ts) fp) (Fin x))).
    apply (interp1_at_knot ts fp _ 0 Hs (eq_sym Hlen)); [lia |].
    unfold gs. rewrite Qlinspace_nth by lia.
    change (inject_Z (Z.of_nat 0)) with 0. rewrite hd_nth0. ring.
  - rewrite last_nth, length_map, Hgl.
    rewrite (nth_indep _ NaN
               (Numpy.interp1 (combine (map Fin ts) fp) (Fin 0)))
      by (rewrite length_map; lia).
    rewrite (map_nth (fun x => Numpy.interp1 (combine (map Fin ts) fp) (Fin x))).
    rewrite (interp1_at_knot ts fp _ (length ts - 1) Hs (eq_sym Hlen)).
    + rewrite last_nth, Hlen. reflexivity.
    + lia.
    + rewrite <- last_nth. replace (S (S d) - 1)%nat with (length gs - 1)%nat by lia.
      rewrite <- last_nth. unfold gs. rewrite Qlinspace_last. reflexivity.
Qed.

(** [plot_quantity] keeps the ends of a trajectory: for at least two grid
    points the series drawn starts at the first sample and ends at the
    last sample of the quantity, reduced modulo 360 when the quantity is
    circular. *)
Theorem plot_quantity_keeps_ends (self : Plotter.options)
    (decoded : Pandas.DataFrame) (quantity : string)
    (ts : list Q) (fp : list float) :
  Spec.Trajectory decoded quantity ts fp ->
  (2 <= Plotter.point_precision self)%nat ->
  exists xs ys,
    Plotter.plot_quantity self decoded quantity = inr (xs, ys) /\
    length ys = Plotter.point_precision self /\
    hd NaN ys = (if Spec.circular quantity
                 then fmod (hd NaN fp) (Fin 360) else hd NaN fp) /\
    last ys NaN = (if Spec.circular quantity
                   then fmod (last fp NaN) (Fin 360) else last fp NaN).
Proof.
  intros [Ht [Hq [Hne [Hlen [Hlen2 Hs]]]]] HM.
  assert (Hnil' : map Fin ts <> [])
    by (destruct ts; [simpl in Hlen2; lia | discriminate]).
  destruct (interpolated_ends self ts fp Hs Hlen2 Hlen HM) as [Hl [Hh Hlast]].
  eexists. eexists. split.
  - apply (plot_quantity_frame self decoded quantity (map Fin ts) fp);
      try assumption. rewrite length_map. symmetry. exact Hlen.
  - unfold Spec.resampled.
    destruct (Spec.circular quantity).
    + rewrite length_map. split; [exact Hl |].
      destruct (Spec.interpolated self (map Fin ts) fp) as [| v raw] eqn:E;
        [simpl in Hl; lia |].
      split.
      * cbn [map hd] in Hh |- *. rewrite Hh. reflexivity.
      * rewrite <- Hlast. rewrite !last_nth, length_map.
        rewrite (nth_indep _ NaN (fmod NaN (Fin 360)))
          by (rewrite length_map; simpl; lia).
        apply (map_nth (fun v => fmod v (Fin 360))).
    + split; [exact Hl |]. split; assumption.
Qed.

(** The resampling block of the route plots on a frame with its three
    columns. *)
(** [plot_route] draws a curve of as many points as the grid that starts
    at the first and ends at the last position of the trajectory; the
    longitudes are the interpolated ones, not reduced. *)
Theorem plot_route_keeps_ends (self : Plotter.options)
    (decoded : Pandas.DataFrame) (ts : list Q) (lat lon : list float) :
  Pandas.getitem decoded "time" = inr (map Fin ts) ->
  Pandas.getitem decoded "lat" = inr lat ->
  Pandas.getitem decoded "lon" = inr lon ->
  StronglySorted Qlt ts -> (2 <= length ts)%nat ->
  length lat = length ts -> length lon = length ts ->
  (2 <= Plotter.point_precision self)%nat ->
  exists xs ys,
    Plotter.plot_route self decoded = inr (xs, ys) /\
    xs = Spec.interpolated self (map Fin ts) lon /\
    ys = Spec.interpolated self (map Fin ts) lat /\
    length xs = Plotter.point_precision self /\
    length ys = Plotter.point_precision self /\
    (hd NaN xs, hd NaN ys) = (hd NaN lon, hd NaN lat) /\
    (last xs NaN, last ys NaN) = (last lon NaN, last lat NaN).
Proof.
  intros Ht Hlat Hlon Hs Hlen2 Hl1 Hl2 HM.
  assert (Hnil' : map Fin ts <> [])
    by (destruct ts; [simpl in Hlen2; lia | discriminate]).
  destruct (interpolated_ends self ts lon Hs Hlen2 Hl2 HM) as [Hlx [Hhx Hlastx]].
  destruct (interpolated_ends self ts lat Hs Hlen2 Hl1 HM) as [Hly [Hhy Hlasty]].
  eexists. eexists. split.
  - unfold Plotter.plot_route.
    apply (route_interp_frame self decoded (map Fin ts) lat lon);
      try assumption; rewrite length_map; symmetry; assumption.
  - split; [reflexivity |]. split; [reflexivity |].
    split; [exact Hlx |]. split; [exact Hly |].
    rewrite Hhx, Hhy, Hlastx, Hlasty. split; reflexivity.
Qed.

End Endpoints.

(* ================================================================= *)
(** ** Missing columns, short trajectories and empty grids *)

Section EdgeCases.
Import Py Float.
Local Open Scope string_scope.

(** [plot_route] has no check of its own for the columns it reads: a frame
    without the column time, lat or lon makes the lookup raise [KeyError]
    for the first of them that is missing, in this order, and a frame
    without rows makes [iloc[0]] raise [IndexError]. *)
Theorem plot_route_missing_column (self : Plotter.options)
    (decoded : Pandas.DataFrame) :
  (~ In "time" (Pandas.columns decoded) ->
   Plotter.plot_route self decoded = inl (KeyError "time")) /\
  (Pandas.getitem decoded "time" = inr [] ->
   Plotter.plot_route self decoded
   = inl (IndexError "single positional indexer is out-of-bounds")) /\
  (forall time,
      Pandas.getitem decoded "time" = inr time -> time <> [] ->
      ~ In "lat" (Pandas.columns decoded) ->
      Plotter.plot_route self decoded = inl (KeyError "lat")) /\
  (forall time lat,
      Pandas.getitem decoded "time" = inr time -> time <> [] ->
      Pandas.getitem decoded "lat" = inr lat -> length lat = length time ->
      ~ In "lon" (Pandas.columns decoded) ->
      Plotter.plot_route self decoded = inl (KeyError "lon")).
Proof.
  unfold Plotter.plot_route, Plotter.route_interp.
  split; [| split; [| split]].
  - intros H. rewrite (getitem_missing decoded "time" H). reflexivity.
  - intros H. rewrite H. reflexivity.
  - intros time Ht Hnil Hlat. rewrite Ht.
    destruct time as [| t0 time']; [contradiction |].
    cbn [bind Pandas.iloc_first Pandas.iloc_last ret].
    rewrite (getitem_missing decoded "lat" Hlat). reflexivity.
  - intros time lat Ht Hnil Hlat Hlen Hlon. rewrite Ht, Hlat.
    destruct time as [| t0 time']; [contradiction |].
    cbn [bind Pandas.iloc_first Pandas.iloc_last ret].
    unfold Numpy.interp. rewrite Hlen, Nat.eqb_refl. cbn [negb bind ret].
    rewrite (getitem_missing decoded "lon" Hlon). reflexivity.
Qed.

Lemma Qlinspace_constant (t : Q) (num : nat) :
  Forall (fun g => g == t) (Spec.Qlinspace t t num).
Proof.
  destruct num as [| [| d]].
  - constructor.
  - repeat constructor. cbn. ring.
  - unfold Spec.Qlinspace. apply Forall_app. split; [| repeat constructor].
    apply Forall_forall. intros g Hg. apply in_map_iff in Hg.
    destruct Hg as [i [<- _]]. unfold Spec.step. field.
    pose proof (inject_nat_pos d). lra.
Qed.

Lemma interp1_single (t v x : float) :
  isnan x = false -> Numpy.interp1 [(t, v)] x = v.
Proof.
  intros Hx. unfold Numpy.interp1. rewrite Hx.
  destruct (fltb x t); reflexivity.
Qed.

(** A trajectory of a single sample is not rejected: [plot_quantity]
    resamples it to a constant series, every instant being the instant of
    the sample and every value its value (reduced modulo 360 for a circular
    quantity). *)
Theorem single_sample_is_constant (self : Plotter.options)
    (decoded : Pandas.DataFrame) (quantity : string) (t : Q) (v : float) :
  Pandas.getitem decoded "time" = inr [Fin t] ->
  Pandas.getitem decoded quantity = inr [v] ->
  quantity <> "time" ->
  exists xs,
    Plotter.plot_quantity self decoded quantity
    = inr (xs, repeat (if Spec.circular quantity then fmod v (Fin 360) else v)
                      (Plotter.point_precision self)) /\
    length xs = Plotter.point_precision self /\
    Forall (fun x => feq x (Fin t)) xs.
Proof.
  intros Ht Hq Hne.
  rewrite (plot_quantity_frame self decoded quantity [Fin t] [v] Ht Hq Hne)
    by (try discriminate; reflexivity).
  exists (Spec.grid_of self [Fin t]).
  pose proof (grid_of_finite self [t] ltac:(discriminate)) as Hg.
  cbn [map hd last] in Hg.
  assert (Hvals : Spec.interpolated self [Fin t] [v]
                  = repeat v (Plotter.point_precision self)).
  { unfold Spec.interpolated. rewrite Hg. cbn [combine]. rewrite map_map.
    rewrite (map_ext _ (fun _ => v)) by (intros x; apply interp1_single; reflexivity).
    rewrite <- (Qlinspace_length t t (Plotter.point_precision self)) at 2.
    generalize (Spec.Qlinspace t t (Plotter.point_precision self)).
    intros l. induction l as [| x l IH]; simpl; congruence. }
  split; [| split].
  - f_equal. f_equal. unfold Spec.resampled. rewrite Hvals.
    destruct (Spec.circular quantity); [rewrite map_repeat |]; reflexivity.
  - rewrite Hg, length_map. apply Qlinspace_length.
  - rewrite Hg. pose proof (Qlinspace_constant t (Plotter.point_precision self)) as Hc.
    rewrite Forall_forall in Hc. apply Forall_forall. intros x Hx.
    apply in_map_iff in Hx. destruct Hx as [g [<- Hin]]. apply Hc, Hin.
Qed.

(** With a grid of no point [plot_quantity] returns an empty series, while
    the stack of [plot_quantity_multi] and [plot_quantity_shaded] fails:
    the duration is read at the index -1 of an empty array. *)
Theorem empty_grid (self : Plotter.options) (decoded : Pandas.DataFrame)
    (quantity : string) (time fp : list float) :
  Plotter.point_precision self = 0%nat ->
  Pandas.getitem decoded "time" = inr time ->
  Pandas.getitem decoded quantity = inr fp ->
  quantity <> "time" -> time <> [] -> length time = length fp ->
  Plotter.plot_quantity self decoded quantity = inr ([], []) /\
  forall rest,
    Plotter.stack self (decoded :: rest) quantity
    = inl (IndexError "index -1 is out of bounds for axis 0 with size 0") /\
    Plotter.plot_quantity_shaded self (decoded :: rest) quantity
    = inl (IndexError "index -1 is out of bounds for axis 0 with size 0").
Proof.
  intros HM Ht Hq Hne Hnil Hlen.
  assert (E1 : ("time" =? quantity) = false)
    by (apply String.eqb_neq; intros E; apply Hne; symmetry; exact E).
  assert (Hgrid : Spec.grid_of self time = [])
    by (unfold Spec.grid_of; rewrite HM; reflexivity).
  assert (Hvals : Spec.resampled self quantity time fp = []).
  { unfold Spec.resampled, Spec.interpolated. rewrite Hgrid.
    destruct (Spec.circular quantity); reflexivity. }
  split.
  - rewrite (plot_quantity_frame self decoded quantity time fp) by assumption.
    rewrite Hgrid, Hvals. reflexivity.
  - intros rest.
    assert (Hstack : Plotter.stack self (decoded :: rest) quantity
              = inl (IndexError "index -1 is out of bounds for axis 0 with size 0")).
    { unfold Plotter.stack. cbn [for_each]. unfold Plotter.stack_row at 1.
      rewrite (df_interp_frame self decoded quantity time fp) by assumption.
      rewrite Hgrid, Hvals. cbn [bind Pandas.getitem].
      rewrite E1, !String.eqb_refl. reflexivity. }
    split; [exact Hstack |].
    unfold Plotter.plot_quantity_shaded. rewrite Hstack. reflexivity.
Qed.

(** The row of the stack of one trajectory and its duration. *)
Lemma stack_row_trajectory (self : Plotter.options) (decoded : Pandas.DataFrame)
    (quantity : string) (ts : list Q) (fp : list float) :
  Spec.Trajectory decoded quantity ts fp ->
  (2 <= Plotter.point_precision self)%nat ->
  exists d,
    Plotter.stack_row self quantity decoded
    = inr (Spec.resampled self quantity (map Fin ts) fp, d) /\
    feq d (Fin (last ts 0 - hd 0 ts)).
Proof.
  intros [Ht [Hq [Hne [Hlen [Hlen2 Hs]]]]] HM.
  assert (Hnil : ts <> []) by (destruct ts; [simpl in Hlen2; lia | discriminate]).
  assert (Hnil' : map Fin ts <> []) by (destruct ts; [contradiction | discriminate]).
  assert (E1 : ("time" =? quantity) = false)
    by (apply String.eqb_neq; intros E; apply Hne; symmetry; exact E).
  unfold Plotter.stack_row.
  rewrite (df_interp_frame self decoded quantity (map Fin ts) fp)
    by (try assumption; rewrite length_map; symmetry; exact Hlen).
  cbn [bind Pandas.getitem]. rewrite E1, !String.eqb_refl. cbn [bind ret].
  rewrite (grid_of_finite self ts Hnil).
  destruct (Plotter.point_precision self) as [| [| n]] eqn:EM; try lia.
  unfold Spec.Qlinspace. cbn [seq map app Plotter.index_last Plotter.index
                              nth_error bind ret].
  rewrite map_app. cbn [map]. rewrite last_last.
  eexists. split; [reflexivity |].
  cbn [fsub fneg fadd feq]. change (inject_Z (Z.of_nat 0)) with 0. ring.
Qed.

(** On trajectories the stack is built without error, one row per
    trajectory, and [total_ts] holds their durations, the differences of
    their last and first instants. *)
Theorem stack_durations (self : Plotter.options) (quantity : string)
    (files : list Pandas.DataFrame) (tss : list (list Q)) :
  Forall2 (fun f ts => exists fp, Spec.Trajectory f quantity ts fp) files tss ->
  (2 <= Plotter.point_precision self)%nat ->
  exists ys total_ts,
    Plotter.stack self files quantity = inr (ys, total_ts) /\
    length (Numpy.rows ys) = length files /\
    Forall2 (fun ts d => feq d (Fin (last ts 0 - hd 0 ts))) tss total_ts.
Proof.
  intros Hall HM. unfold Plotter.stack.
  assert (H : exists filled,
             for_each (Plotter.stack_row self quantity) files = inr filled /\
             length filled = length files /\
             Forall2 (fun ts d => feq d (Fin (last ts 0 - hd 0 ts)))
                     tss (map snd filled)).
  { induction Hall as [| f ts files tss [fp Hf] _ IH].
    - exists []. split; [reflexivity |]. split; [reflexivity | constructor].
    - destruct IH as [filled [Hfill [Hlen Hd]]].
      destruct (stack_row_trajectory self f quantity ts fp Hf HM) as [d [Hrow Hfeq]].
      exists ((Spec.resampled self quantity (map Fin ts) fp, d) :: filled).
      cbn [for_each]. rewrite Hrow, Hfill. cbn [bind ret].
      split; [reflexivity |]. split; [simpl; congruence |].
      cbn [map snd]. constructor; assumption. }
  destruct H as [filled [Hfill [Hlen Hd]]].
  rewrite Hfill. cbn [bind ret].
  eexists. eexists. split; [reflexivity |]. cbn [Numpy.rows].
  split; [rewrite length_map; exact Hlen | exact Hd].
Qed.

End EdgeCases.

(* ================================================================= *)
(** ** The route plots *)

Section RoutePlots.
Import Py Float.
Local Open Scope string_scope.

Variable gaussian_kde :
  list (float * float) -> Py.result (float * float -> float).

Lemma interp_length (x xp fp r : list float) :
  Numpy.interp x xp fp = inr r -> length r = length x.
Proof.
  unfold Numpy.interp. destruct xp; [discriminate |].
  destruct (negb _); [discriminate |].
  intros H. injection H as <-. apply length_map.
Qed.

Lemma route_interp_length (self : Plotter.options) (df : Pandas.DataFrame)
    (lon lat : list float) :
  Plotter.route_interp self df = inr (lon, lat) ->
  length lon = Plotter.point_precision self /\
  length lat = Plotter.point_precision self.
Proof.
  unfold Plotter.route_interp. intros H.
  apply bind_inr in H. destruct H as [time [_ H]].
  apply bind_inr in H. destruct H as [t_first [_ H]].
  apply bind_inr in H. destruct H as [t_last [_ H]].
  apply bind_inr in H. destruct H as [lat' [Hlat H]].
  apply bind_inr in H. destruct H as [lon' [Hlon H]].
  injection H as <- <-.
  apply bind_inr in Hlat. destruct Hlat as [fp1 [_ Hlat]].
  apply bind_inr in Hlon. destruct Hlon as [fp2 [_ Hlon]].
  apply interp_length in Hlat, Hlon. rewrite linspace_length in Hlat, Hlon.
  split; assumption.
Qed.

(** The route stack that is aggregated is rectangular and free of NaN:
    every trajectory left by the masking has as many longitudes and
    latitudes as the grid has points, none of them a NaN, and the
    expectation route has one position per grid point. *)
Theorem routes_rectangular (self : Plotter.options)
    (files : list Pandas.DataFrame) (rs : Plotter.route_stack) :
  Plotter.routes self files = inr rs ->
  (length rs <= length files)%nat /\
  Forall (fun tr =>
            length (fst tr) = Plotter.point_precision self /\
            length (snd tr) = Plotter.point_precision self /\
            Forall (fun v => isnan v = false) (fst tr) /\
            Forall (fun v => isnan v = false) (snd tr)) rs /\
  forall name e_lon e_lat,
    Plotter.route_expectation self rs = inr (name, (e_lon, e_lat)) ->
    length e_lon = Plotter.point_precision self /\
    length e_lat = Plotter.point_precision self.
Proof.
  unfold Plotter.routes. intros H. apply bind_inr in H.
  destruct H as [ys [Hys H]]. injection H as <-.
  apply for_each_inr in Hys. split; [| split].
  - rewrite (Forall2_length Hys). unfold Plotter.mask_routes.
    apply filter_length_le.
  - apply Forall_forall. intros [lon lat] Hin. unfold Plotter.mask_routes in Hin.
    apply filter_In in Hin. destruct Hin as [Hin Hmask]. cbn [fst snd] in *.
    apply negb_true_iff, orb_false_iff in Hmask. destruct Hmask as [Hm1 Hm2].
    assert (Hlen : length lon = Plotter.point_precision self /\
                   length lat = Plotter.point_precision self).
    { clear Hm1 Hm2. induction Hys as [| f y fs ys' Hy _ IH]; [contradiction |].
      destruct Hin as [-> | Hin]; [apply (route_interp_length self f); exact Hy |].
      apply IH. exact Hin. }
    destruct Hlen as [H1 H2]. split; [exact H1 |]. split; [exact H2 |].
    split; apply Forall_forall; intros v Hv.
    + destruct (isnan v) eqn:E; [| reflexivity].
      assert (existsb isnan lon = true)
        by (apply existsb_exists; exists v; auto). congruence.
    + destruct (isnan v) eqn:E; [| reflexivity].
      assert (existsb isnan lat = true)
        by (apply existsb_exists; exists v; auto). congruence.
  - intros name e_lon e_lat. unfold Plotter.route_expectation.
    assert (Hax : forall f a, length (Numpy.axis0 f a) = Numpy.ncols a)
      by (intros f a; unfold Numpy.axis0, Numpy.columns;
          rewrite !length_map; apply length_seq).
    destruct (Plotter.expectation_measure self =? "mean");
      [intros E; injection E as _ <- <-; rewrite !Hax; split; reflexivity |].
    destruct (Plotter.expectation_measure self =? "median");
      [intros E; injection E as _ <- <-; rewrite !Hax; split; reflexivity |].
    destruct (Plotter.expectation_measure self =? "average"); [| discriminate].
    rewrite !average_axis0_unweighted. cbn [bind ret].
    intros E; injection E as _ <- <-; rewrite !Hax; split; reflexivity.
Qed.

Lemma route_expectation_unrecognized (self : Plotter.options)
    (rs : Plotter.route_stack) :
  str_in (Plotter.expectation_measure self) Spec.expectation_measures = false ->
  Plotter.route_expectation self rs
  = inl (Spec.unsupported_expectation (Plotter.expectation_measure self)).
Proof.
  unfold Plotter.route_expectation, Spec.expectation_measures, str_in.
  simpl existsb.
  destruct (Plotter.expectation_measure self =? "mean"); [discriminate |].
  destruct (Plotter.expectation_measure self =? "median"); [discriminate |].
  destruct (Plotter.expectation_measure self =? "average"); [discriminate |].
  reflexivity.
Qed.

Lemma route_expectation_recognized (self : Plotter.options)
    (rs : Plotter.route_stack) :
  str_in (Plotter.expectation_measure self) Spec.expectation_measures = true ->
  exists name e, Plotter.route_expectation self rs = inr (name, e).
Proof.
  unfold Plotter.route_expectation, Spec.expectation_measures, str_in.
  simpl existsb.
  destruct (Plotter.expectation_measure self =? "mean");
    [eexists; eexists; reflexivity |].
  destruct (Plotter.expectation_measure self =? "median");
    [eexists; eexists; reflexivity |].
  destruct (Plotter.expectation_measure self =? "average"); [| discriminate].
  rewrite !average_axis0_unweighted. eexists; eexists; reflexivity.
Qed.

Lemma route_deviation_unrecognized (self : Plotter.options)
    (rs : Plotter.route_stack) :
  str_in (Plotter.deviation_measure self) Spec.deviation_measures = false ->
  Plotter.route_deviation self rs
  = inl (Spec.unsupported_deviation (Plotter.deviation_measure self)).
Proof.
  unfold Plotter.route_deviation, Spec.deviation_measures, str_in.
  simpl existsb.
  destruct (Plotter.deviation_measure self =? "std"); [discriminate |].
  destruct (Plotter.deviation_measure self =? "pct"); [discriminate |].
  reflexivity.
Qed.

(** The route plots reject unknown measures like the quantity plots do,
    once the files are resampled: an unrecognised expectation measure makes
    [plot_multiple_routes] (before any density is fitted) and
    [plot_multiple_routes_shaded] raise the "Expectation Measure not
    recognized" [ValueError]; with a recognised one, an unrecognised
    deviation measure makes [plot_multiple_routes_shaded] raise the
    "Deviation Measure not recognized" one. *)
Theorem route_plots_unsupported_measure (self : Plotter.options)
    (files : list Pandas.DataFrame) (rs : Plotter.route_stack) :
  Plotter.routes self files = inr rs ->
  (str_in (Plotter.expectation_measure self) Spec.expectation_measures = false ->
   Plotter.plot_multiple_routes gaussian_kde self files
   = inl (Spec.unsupported_expectation (Plotter.expectation_measure self)) /\
   Plotter.plot_multiple_routes_shaded self files
   = inl (Spec.unsupported_expectation (Plotter.expectation_measure self))) /\
  (str_in (Plotter.expectation_measure self) Spec.expectation_measures = true ->
   str_in (Plotter.deviation_measure self) Spec.deviation_measures = false ->
   Plotter.plot_multiple_routes_shaded self files
   = inl (Spec.unsupported_deviation (Plotter.deviation_measure self))).
Proof.
  intros Hr. unfold Plotter.plot_multiple_routes, Plotter.plot_multiple_routes_shaded.
  rewrite Hr. cbn [bind]. split.
  - intros Hem. rewrite (route_expectation_unrecognized self rs Hem).
    split; reflexivity.
  - intros Hem Hdm.
    destruct (route_expectation_recognized self rs Hem) as [name [[e1 e2] ->]].
    cbn [bind]. rewrite (route_deviation_unrecognized self rs Hdm). reflexivity.
Qed.

Lemma for_each_first_error {A B} (f : A -> result B) (xs : list A) (e : exn) :
  (forall x, In x xs -> f x = inl e \/ exists y, f x = inr y) ->
  (exists x, In x xs /\ f x = inl e) ->
  for_each f xs = inl e.
Proof.
  induction xs as [| x xs IH]; intros Hall [x0 [Hin Hx0]]; [contradiction |].
  cbn [for_each].
  destruct (Hall x (or_introl eq_refl)) as [Hx | [y Hy]].
  - rewrite Hx. reflexivity.
  - rewrite Hy. cbn [bind].
    rewrite IH; [reflexivity | intros z Hz; apply Hall; right; exact Hz |].
    destruct Hin as [<- | Hin]; [congruence | exists x0; auto].
Qed.

Lemma index_inr {A} (l : list A) (i : nat) (d : A) :
  (i < length l)%nat -> Plotter.index l i = inr (nth i l d).
Proof.
  intros Hi. unfold Plotter.index. rewrite (nth_error_nth' l d Hi). reflexivity.
Qed.

Lemma index_inl {A} (l : list A) (i : nat) :
  (length l <= i)%nat -> Plotter.index l i = inl (IndexError "index out of bounds").
Proof.
  intros Hi. unfold Plotter.index.
  rewrite (proj2 (nth_error_None l i) Hi). reflexivity.
Qed.

(** [generate_confidence_region] follows the length of [means_x], here on
    arrays of finite positions and finite deviations (with a deviation
    that is not finite shapely refuses to scale, which the geometry model
    does not describe).  When the other three arrays are at least as long,
    the region is a union of exactly that many ellipses and their further
    entries are never read; when one of them is shorter, the indexing
    raises [IndexError]. *)
Theorem confidence_region_lengths (mx my sx sy : list Q) :
  let means_x := map Fin mx in
  let means_y := map Fin my in
  let sigma_x := map Fin sx in
  let sigma_y := map Fin sy in
  ((length means_x <= length means_y)%nat ->
   (length means_x <= length sigma_x)%nat ->
   (length means_x <= length sigma_y)%nat ->
   exists ellipses,
     Plotter.generate_confidence_region means_x means_y sigma_x sigma_y
     = inr (Shapely.Union ellipses) /\
     length ellipses = length means_x /\
     Plotter.generate_confidence_region means_x
       (firstn (length means_x) means_y) (firstn (length means_x) sigma_x)
       (firstn (length means_x) sigma_y)
     = inr (Shapely.Union ellipses)) /\
  ((length means_y < length means_x)%nat \/
   (length sigma_x < length means_x)%nat \/
   (length sigma_y < length means_x)%nat ->
   Plotter.generate_confidence_region means_x means_y sigma_x sigma_y
   = inl (IndexError "index out of bounds")).
Proof.
  intros means_x means_y sigma_x sigma_y.
  clearbody means_x means_y sigma_x sigma_y.
  set (n := length means_x). split.
  - intros Hy Hsx Hsy.
    set (g := fun i =>
                Shapely.Scale
                  (Shapely.PointBuffer (nth i means_x NaN) (nth i means_y NaN) (Fin 1))
                  (nth i sigma_x NaN) (nth i sigma_y NaN)
                  (nth i means_x NaN, nth i means_y NaN)).
    exists (map g (seq 0 n)). split; [| split].
    + unfold Plotter.generate_confidence_region. fold n.
      rewrite (for_each_ext _ (fun i => ret (g i))).
      * rewrite (for_each_ret g). reflexivity.
      * intros i Hi. apply in_seq in Hi.
        rewrite (index_inr means_x i NaN), (index_inr means_y i NaN),
          (index_inr sigma_x i NaN), (index_inr sigma_y i NaN) by (fold n; lia).
        reflexivity.
    + rewrite length_map. apply length_seq.
    + unfold Plotter.generate_confidence_region. fold n.
      rewrite (for_each_ext _ (fun i => ret (g i))).
      * rewrite (for_each_ret g). reflexivity.
      * intros i Hi. apply in_seq in Hi.
        rewrite (index_inr means_x i NaN) by (fold n; lia).
        rewrite (index_inr (firstn n means_y) i NaN),
          (index_inr (firstn n sigma_x) i NaN),
          (index_inr (firstn n sigma_y) i NaN)
          by (rewrite length_firstn; lia).
        rewrite !nth_firstn.
        assert (E : (i <? n)%nat = true) by (apply Nat.ltb_lt; lia).
        rewrite E. reflexivity.
  - intros Hshort. unfold Plotter.generate_confidence_region. fold n.
    rewrite (for_each_first_error _ _ (IndexError "index out of bounds"));
      [reflexivity | |].
    + intros i Hi. apply in_seq in Hi.
      rewrite (index_inr means_x i NaN) by (fold n; lia). cbn [bind].
      destruct (Nat.lt_ge_cases i (length means_y)) as [H1 | H1];
        [rewrite (index_inr means_y i NaN H1) | rewrite (index_inl means_y i H1); left; reflexivity].
      cbn [bind].
      destruct (Nat.lt_ge_cases i (length sigma_x)) as [H2 | H2];
        [rewrite (index_inr sigma_x i NaN H2) | rewrite (index_inl sigma_x i H2); left; reflexivity].
      cbn [bind].
      destruct (Nat.lt_ge_cases i (length sigma_y)) as [H3 | H3];
        [rewrite (index_inr sigma_y i NaN H3) | rewrite (index_inl sigma_y i H3); left; reflexivity].
      right. eexists. reflexivity.
    + exists (n - 1)%nat. split; [apply in_seq; lia |].
      rewrite (index_inr means_x (n - 1) NaN) by (fold n; lia). cbn [bind].
      destruct (Nat.lt_ge_cases (n - 1) (length means_y)) as [H1 | H1];
        [rewrite (index_inr means_y _ NaN H1) | rewrite (index_inl means_y _ H1); reflexivity].
      cbn [bind].
      destruct (Nat.lt_ge_cases (n - 1) (length sigma_x)) as [H2 | H2];
        [rewrite (index_inr sigma_x _ NaN H2) | rewrite (index_inl sigma_x _ H2); reflexivity].
      cbn [bind].
      destruct (Nat.lt_ge_cases (n - 1) (length sigma_y)) as [H3 | H3];
        [rewrite (index_inr sigma_y _ NaN H3) | rewrite (index_inl sigma_y _ H3); reflexivity].
      lia.
Qed.

End RoutePlots.

(* ================================================================= *)
(** ** Further theorems at concrete flights *)

Section MoreFlights.
Import Py Float.
Local Open Scope string_scope.

Lemma sigmas_descending_witness :
  (0 <= 2 < length [1; 3; 2])%nat /\
  nth 2 (Plotter.sigmas (Plotter.Options 3 "mean" "std" [1; 3; 2])) 0
  <= nth 0 (Plotter.sigmas (Plotter.Options 3 "mean" "std" [1; 3; 2])) 0.
Proof.
  split; [simpl; lia |].
  apply (proj2 (proj2 (sigmas_descending
                         (Plotter.Options 3 "mean" "std" [1; 3; 2])))).
  simpl. lia.
Defined.

Lemma mask_columns_idempotent_witness :
  Forall (fun r => length r = 3%nat) [[Fin 1; NaN; Fin 3]; [Fin 3; Fin 4; Fin 5]] /\
  Plotter.mask_columns
    (Plotter.mask_columns
       (Numpy.Array2 3 [[Fin 1; NaN; Fin 3]; [Fin 3; Fin 4; Fin 5]]))
  = Plotter.mask_columns
      (Numpy.Array2 3 [[Fin 1; NaN; Fin 3]; [Fin 3; Fin 4; Fin 5]]).
Proof.
  assert (H : Forall (fun r => length r = 3%nat)
                     [[Fin 1; NaN; Fin 3]; [Fin 3; Fin 4; Fin 5]])
    by (repeat constructor).
  split; [exact H |].
  apply (proj2 (mask_columns_idempotent
                  (Numpy.Array2 3 [[Fin 1; NaN; Fin 3]; [Fin 3; Fin 4; Fin 5]])
                  H)).
Defined.

(** A flight whose first velocity sample is missing. *)
Lemma plot_quantity_multi_on_nan_witness :
  exists ys total_ts,
    Plotter.stack (Plotter.Options 3 "mean" "std" [1])
      [[("time", [Fin 0; Fin 10]); ("velocity", [NaN; Fin 5])]] "velocity"
    = inr (ys, total_ts) /\
    (exists r k, In r (Numpy.rows ys) /\ (k < Numpy.ncols ys)%nat /\
                 isnan (nth k r NaN) = true) /\
    Plotter.plot_quantity_multi (fun _ => inr (fun _ => Fin 1))
      (Plotter.Options 3 "mean" "std" [1])
      [[("time", [Fin 0; Fin 10]); ("velocity", [NaN; Fin 5])]] "velocity"
    = inl (ValueError
        "all the input array dimensions except for the concatenation axis must match exactly").
Proof.
  assert (Hs : exists ys total_ts,
             Plotter.stack (Plotter.Options 3 "mean" "std" [1])
               [[("time", [Fin 0; Fin 10]); ("velocity", [NaN; Fin 5])]] "velocity"
             = inr (ys, total_ts) /\
             exists r k, In r (Numpy.rows ys) /\ (k < Numpy.ncols ys)%nat /\
                         isnan (nth k r NaN) = true).
  { eexists. eexists. split; [reflexivity |].
    eexists. exists 0%nat. split; [left; reflexivity |].
    split; [simpl; lia | reflexivity]. }
  destruct Hs as [ys [total_ts [Hs Hnan]]].
  exists ys, total_ts. split; [exact Hs |]. split; [exact Hnan |].
  apply (proj1 (plot_quantity_multi_on_nan (fun _ => inr (fun _ => Fin 1))
                  _ _ _ ys total_ts Hs) Hnan).
Defined.

Lemma plot_quantity_shaded_shapes_witness :
  exists ts name e sigma,
    Plotter.plot_quantity_shaded (Plotter.Options 3 "mean" "std" [1])
      [[("time", [Fin 0; Fin 10]); ("velocity", [NaN; Fin 5])];
       [("time", [Fin 0; Fin 20]); ("velocity", [Fin 1; Fin 3])]] "velocity"
    = inr (ts, name, e, sigma) /\
    length ts = 3%nat /\ length sigma = 1%nat /\ (length e <= length ts)%nat.
Proof.
  assert (Hp : exists ts name e sigma,
             Plotter.plot_quantity_shaded (Plotter.Options 3 "mean" "std" [1])
               [[("time", [Fin 0; Fin 10]); ("velocity", [NaN; Fin 5])];
                [("time", [Fin 0; Fin 20]); ("velocity", [Fin 1; Fin 3])]]
               "velocity"
             = inr (ts, name, e, sigma))
    by (do 4 eexists; reflexivity).
  destruct Hp as [ts [name [e [sigma Hp]]]].
  exists ts, name, e, sigma. split; [exact Hp |].
  destruct (plot_quantity_shaded_shapes _ _ _ _ _ _ _ Hp)
    as [ys [total_ts [_ [Hts [_ [Hsig [_ [Hle _]]]]]]]].
  split; [exact Hts |]. split; [exact Hsig | exact Hle].
Defined.

Lemma axis_limits_contain_data_witness :
  [1; 5; 3] <> [] /\
  exists lo hi,
    Plotter.axis_limits (map Fin [1; 5; 3]) = inr (Fin lo, Fin hi) /\
    forall q, In q [1; 5; 3] -> lo <= q <= hi.
Proof.
  split; [discriminate |].
  destruct (proj1 (axis_limits_contain_data [1; 5; 3] ltac:(discriminate)))
    as [lo [hi [mn [mx [Hl [_ [_ [_ [_ Hin]]]]]]]]].
  exists lo, hi. split; [exact Hl | exact Hin].
Defined.

Lemma plot_quantity_keeps_ends_witness :
  Spec.Trajectory
    [("time", [Fin 0; Fin 10; Fin 20]); ("velocity", [Fin 100; Fin 200; Fin 150])]
    "velocity" [0; 10; 20] (map Fin [100; 200; 150]) /\
  (2 <= 5)%nat /\
  exists xs ys,
    Plotter.plot_quantity (Plotter.Options 5 "mean" "std" [1])
      [("time", [Fin 0; Fin 10; Fin 20]);
       ("velocity", [Fin 100; Fin 200; Fin 150])] "velocity"
    = inr (xs, ys) /\
    hd NaN ys = Fin 100 /\ last ys NaN = Fin 150.
Proof.
  split; [exact velocity_trajectory |]. split; [lia |].
  destruct (plot_quantity_keeps_ends
              (Plotter.Options 5 "mean" "std" [1])
              [("time", [Fin 0; Fin 10; Fin 20]);
               ("velocity", [Fin 100; Fin 200; Fin 150])]
              "velocity" [0; 10; 20] (map Fin [100; 200; 150])
              velocity_trajectory ltac:(simpl; lia))
    as [xs [ys [Hp [_ [Hh Hl]]]]].
  exists xs, ys. split; [exact Hp |]. split; [exact Hh | exact Hl].
Defined.

Lemma route_times_sorted : StronglySorted Qlt [0; 10; 20].
Proof. repeat constructor. Defined.

Lemma plot_route_keeps_ends_witness :
  StronglySorted Qlt [0; 10; 20] /\
  exists xs ys,
    Plotter.plot_route (Plotter.Options 4 "mean" "std" [1])
      [("time", [Fin 0; Fin 10; Fin 20]);
       ("lat", [Fin 30; Fin 31; Fin 32]);
       ("lon", [Fin (-91); Fin (-90); Fin (-89)])]
    = inr (xs, ys) /\
    (hd NaN xs, hd NaN ys) = (Fin (-91), Fin 30) /\
    (last xs NaN, last ys NaN) = (Fin (-89), Fin 32).
Proof.
  split; [exact route_times_sorted |].
  destruct (plot_route_keeps_ends
              (Plotter.Options 4 "mean" "std" [1])
              [("time", [Fin 0; Fin 10; Fin 20]);
               ("lat", [Fin 30; Fin 31; Fin 32]);
               ("lon", [Fin (-91); Fin (-90); Fin (-89)])]
              [0; 10; 20] [Fin 30; Fin 31; Fin 32]
              [Fin (-91); Fin (-90); Fin (-89)]
              eq_refl eq_refl eq_refl route_times_sorted
              ltac:(simpl; lia) eq_refl eq_refl ltac:(simpl; lia))
    as [xs [ys [Hp [_ [_ [_ [_ [Hh Hl]]]]]]]].
  exists xs, ys. split; [exact Hp |]. split; [exact Hh | exact Hl].
Defined.

Lemma plot_route_missing_column_witness :
  ~ In "lat" (Pandas.columns [("time", [Fin 0; Fin 10]); ("lon", [Fin 1; Fin 2])]) /\
  Plotter.plot_route (Plotter.Options 4 "mean" "std" [1])
    [("time", [Fin 0; Fin 10]); ("lon", [Fin 1; Fin 2])]
  = inl (KeyError "lat").
Proof.
  assert (H : ~ In "lat" (Pandas.columns
                            [("time", [Fin 0; Fin 10]); ("lon", [Fin 1; Fin 2])]))
    by (simpl; intros [E | [E | []]]; discriminate).
  split; [exact H |].
  apply (proj1 (proj2 (proj2 (plot_route_missing_column
                                (Plotter.Options 4 "mean" "std" [1])
                                [("time", [Fin 0; Fin 10]); ("lon", [Fin 1; Fin 2])])))
           [Fin 0; Fin 10] eq_refl ltac:(discriminate) H).
Defined.

Lemma single_sample_is_constant_witness :
  exists xs,
    Plotter.plot_quantity (Plotter.Options 4 "mean" "std" [1])
      [("time", [Fin 7]); ("heading", [Fin 365])] "heading"
    = inr (xs, repeat (fmod (Fin 365) (Fin 360)) 4) /\
    length xs = 4%nat /\
    Forall (fun x => feq x (Fin 7)) xs.
Proof.
  apply (single_sample_is_constant (Plotter.Options 4 "mean" "std" [1])
           [("time", [Fin 7]); ("heading", [Fin 365])] "heading" 7 (Fin 365)
           eq_refl eq_refl).
  discriminate.
Defined.

Lemma empty_grid_witness :
  Plotter.plot_quantity (Plotter.Options 0 "mean" "std" [1])
    [("time", [Fin 0; Fin 10]); ("velocity", [Fin 1; Fin 2])] "velocity"
  = inr ([], []) /\
  Plotter.plot_quantity_shaded (Plotter.Options 0 "mean" "std" [1])
    [[("time", [Fin 0; Fin 10]); ("velocity", [Fin 1; Fin 2])]] "velocity"
  = inl (IndexError "index -1 is out of bounds for axis 0 with size 0").
Proof.
  destruct (empty_grid (Plotter.Options 0 "mean" "std" [1])
              [("time", [Fin 0; Fin 10]); ("velocity", [Fin 1; Fin 2])]
              "velocity" [Fin 0; Fin 10] [Fin 1; Fin 2]
              eq_refl eq_refl eq_refl ltac:(discriminate) ltac:(discriminate)
              eq_refl)
    as [Hp Hrest].
  split; [exact Hp | exact (proj2 (Hrest []))].
Defined.

Lemma stack_durations_witness :
  Forall2 (fun f ts => exists fp, Spec.Trajectory f "velocity" ts fp)
    [[("time", [Fin 0; Fin 10; Fin 20]);
      ("velocity", [Fin 100; Fin 200; Fin 150])]]
    [[0; 10; 20]] /\
  exists ys total_ts,
    Plotter.stack (Plotter.Options 5 "mean" "std" [1])
      [[("time", [Fin 0; Fin 10; Fin 20]);
        ("velocity", [Fin 100; Fin 200; Fin 150])]] "velocity"
    = inr (ys, total_ts) /\
    Forall2 (fun ts d => feq d (Fin (last ts 0 - hd 0 ts))) [[0; 10; 20]] total_ts.
Proof.
  assert (H : Forall2 (fun f ts => exists fp, Spec.Trajectory f "velocity" ts fp)
                [[("time", [Fin 0; Fin 10; Fin 20]);
                  ("velocity", [Fin 100; Fin 200; Fin 150])]]
                [[0; 10; 20]]).
  { constructor; [| constructor]. eexists. exact velocity_trajectory. }
  split; [exact H |].
  destruct (stack_durations (Plotter.Options 5 "mean" "std" [1]) "velocity"
              _ _ H ltac:(simpl; lia))
    as [ys [total_ts [Hs [_ Hd]]]].
  exists ys, total_ts. split; [exact Hs | exact Hd].
Defined.

Lemma routes_rectangular_witness :
  exists rs,
    Plotter.routes (Plotter.Options 3 "mean" "std" [1])
      [[("time", [Fin 0; Fin 10]); ("lat", [Fin 30; Fin 31]);
        ("lon", [NaN; Fin (-90)])];
       [("time", [Fin 0; Fin 20]); ("lat", [Fin 40; Fin 41]);
        ("lon", [Fin (-80); Fin (-79)])]]
    = inr rs /\
    (length rs <= 2)%nat /\
    Forall (fun tr => Forall (fun v => isnan v = false) (fst tr)) rs.
Proof.
  assert (Hr : exists rs,
             Plotter.routes (Plotter.Options 3 "mean" "std" [1])
               [[("time", [Fin 0; Fin 10]); ("lat", [Fin 30; Fin 31]);
                 ("lon", [NaN; Fin (-90)])];
                [("time", [Fin 0; Fin 20]); ("lat", [Fin 40; Fin 41]);
                 ("lon", [Fin (-80); Fin (-79)])]]
             = inr rs)
    by (eexists; reflexivity).
  destruct Hr as [rs Hr]. exists rs. split; [exact Hr |].
  destruct (routes_rectangular _ _ _ Hr) as [Hlen [Hall _]].
  split; [exact Hlen |].
  rewrite Forall_forall in Hall |- *. intros tr Htr. apply (Hall tr Htr).
Defined.

Lemma route_plots_unsupported_measure_witness :
  exists rs,
    Plotter.routes (Plotter.Options 3 "mode" "std" [1])
      [[("time", [Fin 0; Fin 10]); ("lat", [Fin 30; Fin 31]);
        ("lon", [Fin (-91); Fin (-90)])]]
    = inr rs /\
    Plotter.plot_multiple_routes_shaded (Plotter.Options 3 "mode" "std" [1])
      [[("time", [Fin 0; Fin 10]); ("lat", [Fin 30; Fin 31]);
        ("lon", [Fin (-91); Fin (-90)])]]
    = inl (Spec.unsupported_expectation "mode").
Proof.
  assert (Hr : exists rs,
             Plotter.routes (Plotter.Options 3 "mode" "std" [1])
               [[("time", [Fin 0; Fin 10]); ("lat", [Fin 30; Fin 31]);
                 ("lon", [Fin (-91); Fin (-90)])]]
             = inr rs)
    by (eexists; reflexivity).
  destruct Hr as [rs Hr]. exists rs. split; [exact Hr |].
  apply (proj2 (proj1 (route_plots_unsupported_measure
                         (fun _ => inr (fun _ => Fin 1)) _ _ rs Hr)
                  eq_refl)).
Defined.

Lemma confidence_region_lengths_witness :
  (length (map Fin [0%Q; 1%Q]) <= length (map Fin [0%Q; 0%Q; 9%Q]))%nat /\
  exists ellipses,
    Plotter.generate_confidence_region
      (map Fin [0; 1]) (map Fin [0; 0; 9]) (map Fin [1; 1]) (map Fin [2; 2; 7])
    = inr (Shapely.Union ellipses) /\
    length ellipses = 2%nat.
Proof.
  split; [simpl; lia |].
  destruct (proj1 (confidence_region_lengths [0%Q; 1%Q] [0%Q; 0%Q; 9%Q]
                                             [1%Q; 1%Q] [2%Q; 2%Q; 7%Q])
              ltac:(simpl; lia) ltac:(simpl; lia) ltac:(simpl; lia))
    as [ellipses [Hg [Hl _]]].
  exists ellipses. split; [exact Hg | exact Hl].
Defined.

End MoreFlights.

(* ================================================================= *)
(** ** Nested confidence regions *)

Section NestedRegions.
Import Py Float.
Local Open Scope string_scope.

Lemma routes_lengths (self : Plotter.options)
    (files : list Pandas.DataFrame) (rs : Plotter.route_stack) :
  Plotter.routes self files = inr rs ->
  Forall (fun tr => length (fst tr) = Plotter.point_precision self /\
                    length (snd tr) = Plotter.point_precision self) rs.
Proof.
  unfold Plotter.routes. intros H. apply bind_inr in H.
  destruct H as [ys [Hys H]]. injection H as <-.
  apply for_each_inr in Hys.
  apply Forall_forall. intros [lon lat] Hin. unfold Plotter.mask_routes in Hin.
  apply filter_In in Hin. destruct Hin as [Hin _]. cbn [fst snd].
  induction Hys as [| f y fs ys' Hy _ IH]; [contradiction |].
  destruct Hin as [-> | Hin]; [apply (route_interp_length self f); exact Hy |].
  apply IH. exact Hin.
Qed.

Lemma route_expectation_length (self : Plotter.options)
    (rs : Plotter.route_stack) (name : string) (e_lon e_lat : list float) :
  Plotter.route_expectation self rs = inr (name, (e_lon, e_lat)) ->
  length e_lon = Plotter.point_precision self /\
  length e_lat = Plotter.point_precision self.
Proof.
  unfold Plotter.route_expectation.
  assert (Hax : forall f a, length (Numpy.axis0 f a) = Numpy.ncols a)
    by (intros f a; unfold Numpy.axis0, Numpy.columns;
        rewrite !length_map; apply length_seq).
  destruct (Plotter.expectation_measure self =? "mean");
    [intros E; injection E as _ <- <-; rewrite !Hax; split; reflexivity |].
  destruct (Plotter.expectation_measure self =? "median");
    [intros E; injection E as _ <- <-; rewrite !Hax; split; reflexivity |].
  destruct (Plotter.expectation_measure self =? "average"); [| discriminate].
  rewrite !average_axis0_unweighted. cbn [bind ret].
  intros E; injection E as _ <- <-; rewrite !Hax; split; reflexivity.
Qed.

Lemma shrink_factor (s s' : Q) :
  0 <= s <= s' -> exists r, 0 <= r <= 1 /\ s' * r == s.
Proof.
  intros [H0 Hs]. destruct (Qlt_le_dec 0 s') as [Hp | Hn].
  - exists (s / s'). split; [split |].
    + apply Qle_shift_div_l; [exact Hp | lra].
    + apply Qle_shift_div_r; [exact Hp | lra].
    + field. lra.
  - exists 0. split; [lra |]. lra.
Qed.

Lemma shrink_square (r a : Q) : 0 <= r <= 1 -> (r * a) * (r * a) <= a * a.
Proof.
  intros [H0 H1].
  assert (Ha : 0 <= a * a) by nra.
  assert (Hr : 0 <= 1 - r * r) by nra.
  pose proof (Qmult_le_0_compat _ _ Hr Ha) as Hm.
  assert (E : (r * a) * (r * a) == a * a - (1 - r * r) * (a * a)) by ring.
  rewrite E. lra.
Qed.

Lemma disk_about_widening (mx my : float) (sx sy sx' sy' : Q) (p : Q * Q) :
  0 <= sx <= sx' -> 0 <= sy <= sy' ->
  Shapely.contains (Spec.disk_about mx my sx sy) p ->
  Shapely.contains (Spec.disk_about mx my sx' sy') p.
Proof.
  intros Hx Hy. unfold Spec.disk_about.
  destruct mx as [cx | | |], my as [cy | | |]; cbn [Shapely.contains];
    try solve [intros []].
  intros [[qx qy] [[_ Hq] [Hpx Hpy]]]. cbn [fst snd] in *.
  destruct (shrink_factor sx sx' Hx) as [rx [Hrx Ex]].
  destruct (shrink_factor sy sy' Hy) as [ry [Hry Ey]].
  exists (cx + rx * (qx - cx), cy + ry * (qy - cy)). cbn [fst snd].
  split; [split; [lra |] | split].
  - pose proof (shrink_square rx (qx - cx) Hrx) as H1.
    pose proof (shrink_square ry (qy - cy) Hry) as H2.
    assert (E1 : cx + rx * (qx - cx) - cx == rx * (qx - cx)) by ring.
    assert (E2 : cy + ry * (qy - cy) - cy == ry * (qy - cy)) by ring.
    rewrite E1, E2. lra.
  - rewrite Hpx, <- Ex. ring.
  - rewrite Hpy, <- Ey. ring.
Qed.

Lemma confidence_region_value (means_x means_y : list float) (sx sy : list Q) :
  (length means_x <= length means_y)%nat ->
  (length means_x <= length sx)%nat ->
  (length means_x <= length sy)%nat ->
  Plotter.generate_confidence_region means_x means_y (map Fin sx) (map Fin sy)
  = inr (Shapely.Union
           (map (fun k => Spec.disk_about (nth k means_x NaN) (nth k means_y NaN)
                                          (nth k sx 0) (nth k sy 0))
                (seq 0 (length means_x)))).
Proof.
  intros Hy Hsx Hsy. unfold Plotter.generate_confidence_region.
  rewrite (for_each_ext _
             (fun k => ret (Spec.disk_about (nth k means_x NaN) (nth k means_y NaN)
                                            (nth k sx 0) (nth k sy 0)))).
  - rewrite (for_each_ret
               (fun k => Spec.disk_about (nth k means_x NaN) (nth k means_y NaN)
                                         (nth k sx 0) (nth k sy 0))).
    reflexivity.
  - intros k Hk. apply in_seq in Hk.
    rewrite (index_inr means_x k NaN), (index_inr means_y k NaN) by lia.
    rewrite !index_Fin by lia. reflexivity.
Qed.

Lemma union_widening (means_x means_y : list float) (sx sy sx' sy' : list Q)
    (n : nat) (p : Q * Q) :
  (forall k, (k < n)%nat ->
             0 <= nth k sx 0 <= nth k sx' 0 /\ 0 <= nth k sy 0 <= nth k sy' 0) ->
  Shapely.contains
    (Shapely.Union
       (map (fun k => Spec.disk_about (nth k means_x NaN) (nth k means_y NaN)
                                      (nth k sx 0) (nth k sy 0))
            (seq 0 n))) p ->
  Shapely.contains
    (Shapely.Union
       (map (fun k => Spec.disk_about (nth k means_x NaN) (nth k means_y NaN)
                                      (nth k sx' 0) (nth k sy' 0))
            (seq 0 n))) p.
Proof.
  intros Hle Hin. apply contains_union in Hin. destruct Hin as [g [Hg Hp]].
  apply in_map_iff in Hg. destruct Hg as [k [<- Hk]].
  apply contains_union. eexists. split.
  - apply in_map_iff. exists k. split; [reflexivity | exact Hk].
  - apply in_seq in Hk. destruct (Hle k ltac:(lia)) as [Hx Hy].
    apply (disk_about_widening _ _ _ _ _ _ p Hx Hy). exact Hp.
Qed.

(** Widening every half-width widens the confidence region: with
    deviations that are finite, not negative and pointwise not larger,
    [generate_confidence_region] returns a region inside the other one,
    whatever the centres are. *)
Theorem confidence_region_widening (means_x means_y : list float)
    (sx sy sx' sy' : list Q) :
  (length means_x <= length means_y)%nat ->
  (length means_x <= length sx)%nat -> (length means_x <= length sy)%nat ->
  (length means_x <= length sx')%nat -> (length means_x <= length sy')%nat ->
  (forall k, (k < length means_x)%nat ->
             0 <= nth k sx 0 <= nth k sx' 0 /\ 0 <= nth k sy 0 <= nth k sy' 0) ->
  exists inner outer,
    Plotter.generate_confidence_region means_x means_y (map Fin sx) (map Fin sy)
    = inr inner /\
    Plotter.generate_confidence_region means_x means_y (map Fin sx') (map Fin sy')
    = inr outer /\
    forall p, Shapely.contains inner p -> Shapely.contains outer p.
Proof.
  intros Hy H1 H2 H3 H4 Hle.
  do 2 eexists. split; [apply confidence_region_value; assumption |].
  split; [apply confidence_region_value; assumption |].
  intros p. apply union_widening. exact Hle.
Qed.

Lemma confidence_region_widening_witness :
  exists inner outer,
    Plotter.generate_confidence_region [Fin 0; NaN] [Fin 0; Fin 1]
      (map Fin [1; 0]) (map Fin [1; 2]) = inr inner /\
    Plotter.generate_confidence_region [Fin 0; NaN] [Fin 0; Fin 1]
      (map Fin [2; 0]) (map Fin [3; 2]) = inr outer /\
    forall p, Shapely.contains inner p -> Shapely.contains outer p.
Proof.
  apply (confidence_region_widening [Fin 0; NaN] [Fin 0; Fin 1]
           [1; 0] [1; 2] [2; 0] [3; 2]); try (simpl; lia).
  intros [| [| k]] Hk; [| | simpl in Hk; lia]; cbn [nth];
    repeat split; discriminate.
Defined.

Lemma lon_rows_finite (self : Plotter.options) (qroutes : list (list Q * list Q)) :
  Plotter.lon_rows self (Spec.finite_routes qroutes)
  = Spec.finite_stack (Plotter.point_precision self) (map fst qroutes).
Proof.
  unfold Plotter.lon_rows, Spec.finite_routes, Spec.finite_stack.
  rewrite !map_map. reflexivity.
Qed.

Lemma lat_rows_finite (self : Plotter.options) (qroutes : list (list Q * list Q)) :
  Plotter.lat_rows self (Spec.finite_routes qroutes)
  = Spec.finite_stack (Plotter.point_precision self) (map snd qroutes).
Proof.
  unfold Plotter.lat_rows, Spec.finite_routes, Spec.finite_stack.
  rewrite !map_map. reflexivity.
Qed.

Lemma column_std_nonneg (m : nat) (qrows : list (list Q)) :
  qrows <> [] ->
  Forall (fun s => 0 <= s)
         (map (fun k => Spec.Qstd (map (fun r => nth k r 0) qrows)) (seq 0 m)).
Proof.
  intros Hne. apply Forall_forall. intros s Hs. apply in_map_iff in Hs.
  destruct Hs as [k [<- _]].
  apply (std_finite (map (fun r => nth k r 0) qrows)).
  destruct qrows; [contradiction | discriminate].
Qed.

Lemma scaled_nth_ordered (a b : Q) (l : list Q) (k : nat) :
  0 <= b <= a -> Forall (fun s => 0 <= s) l -> (k < length l)%nat ->
  0 <= nth k (map (Qmult b) l) 0 <= nth k (map (Qmult a) l) 0.
Proof.
  intros Hab Hl Hk.
  rewrite (nth_indep (map (Qmult b) l) 0 (b * 0)) by (rewrite length_map; exact Hk).
  rewrite (nth_indep (map (Qmult a) l) 0 (a * 0)) by (rewrite length_map; exact Hk).
  rewrite !(map_nth (Qmult _)).
  rewrite Forall_forall in Hl. pose proof (Hl _ (nth_In l 0 Hk)) as Hs.
  nra.
Qed.

(** With the standard deviation as the dispersion measure and levels that
    are not negative, the regions [plot_multiple_routes_shaded] fills are
    nested: there is one region per configured level, the widest first,
    and every region contains all the regions drawn after it. *)
Theorem shaded_regions_nested (self : Plotter.options)
    (files : list Pandas.DataFrame) (qroutes : list (list Q * list Q)) :
  Plotter.routes self files = inr (Spec.finite_routes qroutes) ->
  qroutes <> [] ->
  str_in (Plotter.expectation_measure self) Spec.expectation_measures = true ->
  Plotter.deviation_measure self = "std" ->
  Forall (fun sig => 0 <= sig) (Plotter.deviation_values self) ->
  exists name e regions,
    Plotter.plot_multiple_routes_shaded self files = inr (name, e, regions) /\
    length regions = length (Plotter.deviation_values self) /\
    forall i j p,
      (i <= j < length regions)%nat ->
      Shapely.contains (nth j regions (Shapely.Union [])) p ->
      Shapely.contains (nth i regions (Shapely.Union [])) p.
Proof.
  intros Hr Hne Hem Hdm Hpos.
  pose proof (routes_lengths _ _ _ Hr) as Hlen.
  set (M := Plotter.point_precision self) in *.
  assert (Hrect : Forall (fun r => length r = M) (map fst qroutes) /\
                  Forall (fun r => length r = M) (map snd qroutes)).
  { rewrite Forall_forall in Hlen.
    split; apply Forall_forall; intros r Hin; apply in_map_iff in Hin;
      destruct Hin as [tr [<- Hin]];
      destruct (Hlen (map Fin (fst tr), map Fin (snd tr))) as [H1 H2];
      try (unfold Spec.finite_routes; apply in_map_iff; exists tr;
           split; [reflexivity | exact Hin]);
      cbn [fst snd] in H1, H2; rewrite length_map in H1, H2; assumption. }
  destruct Hrect as [Hrlon Hrlat].
  assert (Hne1 : map fst qroutes <> [])
    by (destruct qroutes; [contradiction | discriminate]).
  assert (Hne2 : map snd qroutes <> [])
    by (destruct qroutes; [contradiction | discriminate]).
  destruct (route_expectation_recognized self (Spec.finite_routes qroutes) Hem)
    as [name [[e_lon e_lat] He]].
  destruct (route_expectation_length _ _ _ _ _ He) as [Hel1 Hel2].
  fold M in Hel1, Hel2.
  set (stdlon := map (fun k => Spec.Qstd (map (fun r => nth k r 0)
                                              (map fst qroutes))) (seq 0 M)).
  set (stdlat := map (fun k => Spec.Qstd (map (fun r => nth k r 0)
                                              (map snd qroutes))) (seq 0 M)).
  assert (Hslon : length stdlon = M)
    by (unfold stdlon; rewrite length_map, length_seq; reflexivity).
  assert (Hslat : length stdlat = M)
    by (unfold stdlat; rewrite length_map, length_seq; reflexivity).
  assert (Hplon : Forall (fun s => 0 <= s) stdlon)
    by (apply column_std_nonneg; exact Hne1).
  assert (Hplat : Forall (fun s => 0 <= s) stdlat)
    by (apply column_std_nonneg; exact Hne2).
  set (band := fun (l : list Q) (sig : Q) => map Fin (map (Qmult sig) l)).
  assert (Hdev : Plotter.route_deviation self (Spec.finite_routes qroutes)
                 = inr (map (band stdlon) (Plotter.sigmas self),
                        map (band stdlat) (Plotter.sigmas self))).
  { unfold Plotter.route_deviation. rewrite Hdm, String.eqb_refl.
    rewrite lon_rows_finite, lat_rows_finite. fold M.
    rewrite !axis0_std_finite by assumption. fold stdlon stdlat.
    unfold ret, band. f_equal. f_equal; apply map_ext; intros sig;
      rewrite !map_map; reflexivity. }
  set (R := fun i =>
              Shapely.Union
                (map (fun k =>
                        Spec.disk_about (nth k e_lon NaN) (nth k e_lat NaN)
                          (nth k (map (Qmult (nth i (Plotter.sigmas self) 0)) stdlon) 0)
                          (nth k (map (Qmult (nth i (Plotter.sigmas self) 0)) stdlat) 0))
                     (seq 0 (length e_lon)))).
  assert (Hn : length (Plotter.sigmas self) = length (Plotter.deviation_values self))
    by (apply Permutation_length, sigmas_perm).
  exists name, (e_lon, e_lat), (map R (seq 0 (length (Plotter.sigmas self)))).
  split; [| split].
  - unfold Plotter.plot_multiple_routes_shaded. rewrite Hr. cbn [bind].
    rewrite He. cbn [bind]. rewrite Hdev. cbn [bind].
    rewrite (for_each_ext _ (fun i => ret (R i))).
    + rewrite (for_each_ret R). reflexivity.
    + intros i Hi. apply in_seq in Hi.
      rewrite (index_inr (map (band stdlon) (Plotter.sigmas self)) i (band stdlon 0))
        by (rewrite length_map; lia).
      rewrite (index_inr (map (band stdlat) (Plotter.sigmas self)) i (band stdlat 0))
        by (rewrite length_map; lia).
      cbn [bind]. rewrite !(map_nth (band _)). unfold band.
      apply confidence_region_value; rewrite ?length_map; lia.
  - rewrite length_map, length_seq. exact Hn.
  - intros i j p Hij. rewrite length_map, length_seq in Hij.
    rewrite (nth_indep _ (Shapely.Union []) (R 0%nat))
      by (rewrite length_map, length_seq; lia).
    rewrite (nth_indep (map R _) (Shapely.Union []) (R 0%nat))
      by (rewrite length_map, length_seq; lia).
    rewrite !(map_nth R), !seq_nth by lia. cbn [Nat.add]. unfold R.
    apply union_widening. intros k Hk.
    assert (Hord : 0 <= nth j (Plotter.sigmas self) 0
                   <= nth i (Plotter.sigmas self) 0).
    { split; [| apply sigmas_nth_descending; lia].
      rewrite Forall_forall in Hpos. apply Hpos.
      apply (Permutation_in _ (sigmas_perm self)). apply nth_In. lia. }
    split; apply scaled_nth_ordered; try assumption; lia.
Qed.

Lemma shaded_regions_nested_witness :
  exists name e regions,
    Plotter.plot_multiple_routes_shaded (Plotter.Options 2 "median" "std" [1; 2])
      [[("time", [Fin 0; Fin 10]); ("lat", [Fin 30; Fin 31]);
        ("lon", [Fin (-91); Fin (-90)])];
       [("time", [Fin 0; Fin 20]); ("lat", [Fin 32; Fin 33]);
        ("lon", [Fin (-89); Fin (-88)])]]
    = inr (name, e, regions) /\
    length regions = 2%nat /\
    forall i j p,
      (i <= j < length regions)%nat ->
      Shapely.contains (nth j regions (Shapely.Union [])) p ->
      Shapely.contains (nth i regions (Shapely.Union [])) p.
Proof.
  apply (shaded_regions_nested (Plotter.Options 2 "median" "std" [1; 2])
           [[("time", [Fin 0; Fin 10]); ("lat", [Fin 30; Fin 31]);
             ("lon", [Fin (-91); Fin (-90)])];
            [("time", [Fin 0; Fin 20]); ("lat", [Fin 32; Fin 33]);
             ("lon", [Fin (-89); Fin (-88)])]]
           [([-91; -90], [30; 31]); ([-89; -88], [32; 33])]).
  - vm_compute. reflexivity.
  - discriminate.
  - reflexivity.
  - reflexivity.
  - repeat constructor; discriminate.
Defined.

End NestedRegions.
